(** * MultiDomain_DataAnalysis: the suggestion-and-rendering pipeline

    A shallow embedding of [services/viz_cache.py],
    [services/manual_viz_service.py], [services/viz_service.py],
    [services/stats_service.py], [services/excel_reader_service.py],
    [services/domain_logic_service.py] and [services/preview_service.py],
    and the properties of the pipeline proved over it.

    Python objects that the code passes around untyped (oracle output, the
    suggestion dicts) are values of [pyvalue]; DataFrames live in a store of
    objects addressed by reference, so that [df.copy()] and [df[col] = ...]
    keep their meaning; module-level dicts are fields of [world]; code that
    can raise runs in the state-and-exception monad [M]. What the services
    take from pandas, seaborn, matplotlib, json, pydantic and the Groq
    client is the interface [Platform], and the properties hold for every
    instance of it. The embedding comes first, then the vocabulary the
    properties are stated with, the properties, and examples run on the
    platform of [Module sample]. *)

From Stdlib Require Import ZArith String Ascii List Lia Bool.
From stdpp Require Import base gmap strings list.
Import ListNotations.
Local Open Scope string_scope.
Local Open Scope Z_scope.
Local Open Scope list_scope.

(** ** Exceptions and results *)

Inductive exn :=
| TypeError (msg : string)
| KeyError (msg : string)
| AttributeError (msg : string)
| IndexError (msg : string)
| ValidationError (msg : string)
| Exception (msg : string).

Inductive result (A : Type) :=
| Ok (a : A)
| Raise (e : exn).
Arguments Ok {A} a.
Arguments Raise {A} e.

Definition is_ok {A} (r : result A) : bool :=
  match r with Ok _ => true | Raise _ => false end.

(** ** Python strings

    A [str] is the Rocq string of its UTF-8 bytes, so every text has its
    string. Positions ([find], [rfind], slices) count bytes here and
    characters in Python; the services use a position only to cut the text
    it was found in, which gives the same text either way. *)

(** [str.lower()]: the ASCII letters. A letter outside ASCII is left as it
    is; its lower-case form is outside ASCII too (the Kelvin sign and the
    dotted capital I apart, which give a k and an i followed by a combining
    dot), and the services test lower-cased text only for ASCII words
    without a k and without a final i. *)
Definition lower_char (c : ascii) : ascii :=
  let n := nat_of_ascii c in
  if ((65 <=? n) && (n <=? 90))%nat then ascii_of_nat (n + 32) else c.

Fixpoint str_lower (s : string) : string :=
  match s with
  | EmptyString => EmptyString
  | String c s' => String (lower_char c) (str_lower s')
  end.

Definition utf8 (bytes : list nat) : string :=
  string_of_list_ascii (map ascii_of_nat bytes).

(** The characters [str.strip()] removes, those of [str.isspace]: TAB, LF,
    VT, FF, CR, FS, GS, RS, US, the space, U+0085, U+00A0, U+1680, U+2000 to
    U+200A, U+2028, U+2029, U+202F, U+205F and U+3000. *)
Definition whitespace : list string :=
  map utf8
    [[9]; [10]; [11]; [12]; [13]; [28]; [29]; [30]; [31]; [32];
     [194; 133]; [194; 160]; [225; 154; 128];
     [226; 128; 128]; [226; 128; 129]; [226; 128; 130]; [226; 128; 131];
     [226; 128; 132]; [226; 128; 133]; [226; 128; 134]; [226; 128; 135];
     [226; 128; 136]; [226; 128; 137]; [226; 128; 138];
     [226; 128; 168]; [226; 128; 169]; [226; 128; 175]; [226; 129; 159];
     [227; 128; 128]]%nat.

(** The number of bytes of the character of [chars] that [s] starts with,
    0 when it starts with none. *)
Definition width_at (chars : list string) (s : string) : nat :=
  match List.find (fun p => String.prefix p s) chars with
  | Some p => String.length p
  | None => 0
  end.

Fixpoint lstrip_chars (chars : list string) (s : string) : string :=
  match width_at chars s, s with
  | 1%nat, String _ r => lstrip_chars chars r
  | 2%nat, String _ (String _ r) => lstrip_chars chars r
  | 3%nat, String _ (String _ (String _ r)) => lstrip_chars chars r
  | _, _ => s
  end.

Definition str_rev (s : string) : string :=
  string_of_list_ascii (rev (list_ascii_of_string s)).

Definition str_lstrip (s : string) : string := lstrip_chars whitespace s.

(** From the end: the bytes of a character are read backwards. *)
Definition str_rstrip (s : string) : string :=
  str_rev (lstrip_chars (map str_rev whitespace) (str_rev s)).

Definition str_strip (s : string) : string := str_rstrip (str_lstrip s).

(** [needle in hay] on strings. *)
Fixpoint str_contains (needle hay : string) : bool :=
  String.prefix needle hay ||
  match hay with
  | EmptyString => false
  | String _ hay' => str_contains needle hay'
  end.

(** [s.find(needle)] and [s.rfind(needle)], [-1] when there is none;
    [i] is the index of the first character of [s] in the whole string. *)
Fixpoint str_find_from (needle s : string) (i : Z) : Z :=
  if String.prefix needle s then i
  else match s with
       | EmptyString => -1
       | String _ s' => str_find_from needle s' (i + 1)
       end.

Definition str_find (needle s : string) : Z := str_find_from needle s 0.

Fixpoint str_rfind_from (needle s : string) (i : Z) : Z :=
  match s with
  | EmptyString => if String.prefix needle s then i else -1
  | String _ s' =>
      let later := str_rfind_from needle s' (i + 1) in
      if later =? -1 then (if String.prefix needle s then i else -1) else later
  end.

Definition str_rfind (needle s : string) : Z := str_rfind_from needle s 0.

(** [s[start:stop]]: a negative index counts from the end, and both are
    clamped to the string. *)
Definition slice_index (len i : Z) : Z :=
  if i <? 0 then Z.max 0 (len + i) else Z.min i len.

Definition str_slice (s : string) (start stop : Z) : string :=
  let len := Z.of_nat (String.length s) in
  let a := slice_index len start in
  let b := slice_index len stop in
  String.substring (Z.to_nat a) (Z.to_nat (b - a)) s.

(** ** Python values

    The objects [json.loads] can return, which are also the objects the
    services build themselves. A float is the finite double [m * 2^e]. *)

#[warnings="-register-all"]
Inductive pyvalue :=
| PyNone
| PyBool (b : bool)
| PyInt (z : Z)
| PyFloat (m e : Z)
| PyStr (s : string)
| PyList (l : list pyvalue)
| PyDict (d : list (string * pyvalue)).

(** [bool(v)], as used by [if v] and [not v]. *)
Definition truthy (v : pyvalue) : bool :=
  match v with
  | PyNone => false
  | PyBool b => b
  | PyInt z => negb (z =? 0)
  | PyFloat m _ => negb (m =? 0)
  | PyStr s => negb (String.eqb s "")
  | PyList l => match l with [] => false | _ => true end
  | PyDict d => match d with [] => false | _ => true end
  end.

(** Lists and dicts are unhashable: using one as a set element or looking
    it up in a set raises [TypeError]. *)
Definition hashable (v : pyvalue) : bool :=
  match v with
  | PyList _ | PyDict _ => false
  | _ => true
  end.

(** Numbers compare by value across [bool], [int] and [float]. *)
Definition py_num (v : pyvalue) : option (Z * Z) :=
  match v with
  | PyBool b => Some (if b then 1 else 0, 0)
  | PyInt z => Some (z, 0)
  | PyFloat m e => Some (m, e)
  | _ => None
  end.

Definition num_eqb (p q : Z * Z) : bool :=
  let e := Z.min (snd p) (snd q) in
  Z.shiftl (fst p) (snd p - e) =? Z.shiftl (fst q) (snd q - e).

(** [a == b] on hashable values. *)
Definition py_eqb (a b : pyvalue) : bool :=
  match a, b with
  | PyNone, PyNone => true
  | PyStr s, PyStr t => String.eqb s t
  | _, _ =>
      match py_num a, py_num b with
      | Some p, Some q => num_eqb p q
      | _, _ => false
      end
  end.

(** [d.get(key, default)] on a dict with string keys. *)
Fixpoint dict_get (d : list (string * pyvalue)) (key : string) (default : pyvalue)
  : pyvalue :=
  match d with
  | [] => default
  | (k, v) :: d' => if String.eqb k key then v else dict_get d' key default
  end.

(** [x in names] for a set (or pandas Index) [names] of strings: hashing an
    unhashable [x] raises, and only a [str] can be equal to a member. The
    result is the member found, [None] when [x] is not in the set. *)
Definition str_set_member (x : pyvalue) (names : list string)
  : result (option string) :=
  match x with
  | PyList _ => Raise (TypeError "unhashable type: 'list'")
  | PyDict _ => Raise (TypeError "unhashable type: 'dict'")
  | PyStr s => Ok (if bool_decide (s ∈ names) then Some s else None)
  | _ => Ok None
  end.

Definition is_none (v : pyvalue) : bool :=
  match v with PyNone => true | _ => false end.

(** A dict as the services build and read it: string keys, in order. *)
Abbreviation pydict := (list (string * pyvalue)) (only parsing).

(** ** Tables

    A DataFrame is an ordered sequence of named columns; a column has a
    label, which is a string here, as for a sheet whose header cells are
    texts, a dtype and its cells. The dtypes are those the Excel reader and
    [pd.to_datetime] produce: [datetime64] is numpy's [datetime64[ns]],
    and [datetime64tz tz] is pandas' timezone-aware [datetime64[ns, tz]],
    which [pd.to_datetime] gives a column of texts with a UTC offset. *)

Inductive dtype :=
| int64 | float64 | bool_ | object_ | datetime64
| datetime64tz (tz : string).

Inductive cell :=
| NA
| Int (z : Z)
| Float (m e : Z)
| Boolean (b : bool)
| Text (s : string)
| Stamp (ns : Z).

Record series := Series { s_dtype : dtype; s_values : list cell }.

Record column := Column { col_name : string; col_data : series }.

Abbreviation table := (list column) (only parsing).

Definition df_columns (t : table) : list string := map col_name t.

(** [df[col]]. *)
Fixpoint df_getitem (t : table) (col : string) : option series :=
  match t with
  | [] => None
  | c :: t' => if String.eqb (col_name c) col then Some (col_data c)
               else df_getitem t' col
  end.

(** [df[col] = s] for an existing column: the column keeps its place. *)
Fixpoint df_setitem (t : table) (col : string) (s : series) : table :=
  match t with
  | [] => [Column col s]
  | c :: t' => if String.eqb (col_name c) col then Column col s :: t'
               else c :: df_setitem t' col s
  end.

Definition notna (c : cell) : bool :=
  match c with NA => false | _ => true end.

Definition cell_num (c : cell) : option (Z * Z) :=
  match c with
  | Int z => Some (z, 0)
  | Float m e => Some (m, e)
  | Boolean b => Some (if b then 1 else 0, 0)
  | _ => None
  end.

(** Equality of two non-missing cells, as pandas' hash tables see it. *)
Definition cell_eqb (a b : cell) : bool :=
  match a, b with
  | Text s, Text t => String.eqb s t
  | Stamp m, Stamp n => m =? n
  | _, _ =>
      match cell_num a, cell_num b with
      | Some p, Some q => num_eqb p q
      | _, _ => false
      end
  end.

(** [series.count()]: the number of non-missing cells. *)
Definition series_count (s : series) : Z :=
  Z.of_nat (length (filter (fun c => notna c = true) (s_values s))).

Fixpoint distinct_cells (l : list cell) (seen : list cell) : list cell :=
  match l with
  | [] => seen
  | c :: l' =>
      if notna c && negb (existsb (cell_eqb c) seen)
      then distinct_cells l' (seen ++ [c])
      else distinct_cells l' seen
  end.

(** [series.nunique()]: the number of distinct non-missing cells. *)
Definition series_nunique (s : series) : Z :=
  Z.of_nat (length (distinct_cells (s_values s) [])).

(** [pd.api.types.is_numeric_dtype]: booleans count as numeric. *)
Definition is_numeric_dtype (d : dtype) : bool :=
  match d with int64 | float64 | bool_ => true | _ => false end.

(** The subtypes of [np.number] among the dtypes of numpy: booleans are
    not. *)
Definition issubdtype_number (d : dtype) : bool :=
  match d with int64 | float64 => true | _ => false end.

(** The subtypes of [np.datetime64] among the dtypes of numpy. *)
Definition issubdtype_datetime64 (d : dtype) : bool :=
  match d with datetime64 => true | _ => false end.

(** [str(dtype)], as sent to the oracle in the schema. *)
Definition dtype_name (d : dtype) : string :=
  match d with
  | int64 => "int64" | float64 => "float64" | bool_ => "bool"
  | object_ => "object" | datetime64 => "datetime64[ns]"
  | datetime64tz tz => "datetime64[ns, " +:+ tz +:+ "]"
  end.

(** [np.issubdtype(d, t)] for the dtype [d] of a column and a scalar type
    [t] of numpy, given by its subtypes: numpy first makes [d] a dtype of
    its own, and raises on the timezone-aware dtype of pandas. *)
Definition np_issubdtype (d : dtype) (t : dtype -> bool) : result bool :=
  match d with
  | datetime64tz _ =>
      Raise (TypeError ("Cannot interpret '" +:+ dtype_name d +:+ "' as a data type"))
  | _ => Ok (t d)
  end.

(** ** Results of the pipeline *)

(** [models/common_models.py]: [VizConfig]. *)
Record VizConfig := mkVizConfig {
  chart_type : string;
  x : option string;
  y : option string;
  hue : option string;
  description : string;
  image_base64 : option string
}.

(** [Dict[str, List[VizConfig]]], in insertion order. *)
Abbreviation viz_map := (list (string * list VizConfig)) (only parsing).

(** ** The process state *)

Record world := World {
  frames : list table;
    (* the DataFrame objects, addressed by position *)
  EXCEL_CACHE : gmap string (list (string * nat));
    (* excel_reader_service._EXCEL_CACHE: session -> sheet -> DataFrame *)
  VIZ_CACHE_MANUAL : gmap string viz_map;
  VIZ_CACHE_AI : gmap string viz_map;
  oracle_calls : nat;
    (* how many requests the oracle has received *)
  open_figures : nat
    (* matplotlib figures opened and not closed *)
}.

Definition set_frames (f : list table) (w : world) : world :=
  World f (EXCEL_CACHE w) (VIZ_CACHE_MANUAL w) (VIZ_CACHE_AI w)
        (oracle_calls w) (open_figures w).
Definition set_VIZ_CACHE_MANUAL (c : gmap string viz_map) (w : world) : world :=
  World (frames w) (EXCEL_CACHE w) c (VIZ_CACHE_AI w)
        (oracle_calls w) (open_figures w).
Definition set_VIZ_CACHE_AI (c : gmap string viz_map) (w : world) : world :=
  World (frames w) (EXCEL_CACHE w) (VIZ_CACHE_MANUAL w) c
        (oracle_calls w) (open_figures w).
Definition set_oracle_calls (n : nat) (w : world) : world :=
  World (frames w) (EXCEL_CACHE w) (VIZ_CACHE_MANUAL w) (VIZ_CACHE_AI w)
        n (open_figures w).
Definition set_open_figures (n : nat) (w : world) : world :=
  World (frames w) (EXCEL_CACHE w) (VIZ_CACHE_MANUAL w) (VIZ_CACHE_AI w)
        (oracle_calls w) n.

(** ** The monad of Python code: state, and exceptions that keep the state *)

Definition M (A : Type) : Type := world -> result A * world.

Definition ret {A} (a : A) : M A := fun w => (Ok a, w).

Definition bind {A B} (m : M A) (k : A -> M B) : M B :=
  fun w => match m w with
           | (Ok a, w') => k a w'
           | (Raise e, w') => (Raise e, w')
           end.

Definition raise {A} (e : exn) : M A := fun w => (Raise e, w).

(** [try: body except Exception as e: handler e]. *)
Definition try_except {A} (body : M A) (handler : exn -> M A) : M A :=
  fun w => match body w with
           | (Ok a, w') => (Ok a, w')
           | (Raise e, w') => handler e w'
           end.

Definition lift {A} (r : result A) : M A := fun w => (r, w).

Definition gets {A} (f : world -> A) : M A := fun w => (Ok (f w), w).

Definition modify (f : world -> world) : M unit := fun w => (Ok tt, f w).

Notation "x <- c1 ;; c2" := (bind c1 (fun x => c2))
  (at level 100, c1 at next level, right associativity).
Notation "c1 ;; c2" := (bind c1 (fun _ => c2))
  (at level 100, right associativity).

(** [for a in l: body a]. *)
Fixpoint for_each {A} (l : list A) (body : A -> M unit) : M unit :=
  match l with
  | [] => ret tt
  | a :: l' => body a ;; for_each l' body
  end.

(** A loop that threads a local variable through its iterations. *)
Fixpoint for_fold {A S} (l : list A) (s : S) (body : S -> A -> M S) : M S :=
  match l with
  | [] => ret s
  | a :: l' => s' <- body s a ;; for_fold l' s' body
  end.

(** DataFrame objects. *)
Definition df_read (r : nat) : M table :=
  fun w => match frames w !! r with
           | Some t => (Ok t, w)
           | None => (Raise (Exception "dangling DataFrame reference"), w)
           end.

(** [df.copy()]: a new object with the same columns and cells. *)
Definition df_copy (r : nat) : M nat :=
  t <- df_read r ;;
  fun w => (Ok (length (frames w)), set_frames (frames w ++ [t]) w).

(** [df[col] = s]: the object itself changes. *)
Definition df_assign (r : nat) (col : string) (s : series) : M unit :=
  t <- df_read r ;;
  modify (fun w => set_frames (<[r := df_setitem t col s]> (frames w)) w).

(** ** services/viz_cache.py *)

Module viz_cache.

Definition get_cached_visualizations (session_id mode : string)
  : M (option viz_map) :=
  if String.eqb mode "manual" then
    gets (fun w => VIZ_CACHE_MANUAL w !! session_id)
  else if String.eqb mode "ai" then
    gets (fun w => VIZ_CACHE_AI w !! session_id)
  else ret None.

(** [mode] has no default: a call that does not pass it ([None] here)
    raises [TypeError] when the arguments are bound, before the body
    runs. *)
Definition store_visualizations (session_id : string) (data : viz_map)
    (mode : option string) : M unit :=
  match mode with
  | None =>
      raise (TypeError
        "store_visualizations() missing 1 required positional argument: 'mode'")
  | Some mode =>
      if String.eqb mode "manual" then
        modify (fun w =>
          set_VIZ_CACHE_MANUAL (<[session_id := data]> (VIZ_CACHE_MANUAL w)) w)
      else if String.eqb mode "ai" then
        modify (fun w =>
          set_VIZ_CACHE_AI (<[session_id := data]> (VIZ_CACHE_AI w)) w)
      else ret tt
  end.

End viz_cache.

(** ** The libraries and the oracle

    What the services call and do not define: pandas' date parsing and
    formatting, [json.loads], the text of [str(v)] for objects that are not
    strings, seaborn and matplotlib, pydantic's conversion of field values,
    and the Groq service. Every property below holds for every [Platform]. *)

(** The seaborn call that draws on the current figure. *)
Inductive plot :=
| countplot (data : table) (x : string)
| histplot (values : list cell)
| scatterplot (data : table) (x : string) (y : option string)
| barplot (data : table) (x y : string)
| lineplot (data : table) (x : string) (y : option string).

Class Platform := {
  (* str(v) for a v that is not a str *)
  py_repr : pyvalue -> string;
  (* json.loads(text); None when it raises *)
  json_loads : string -> option pyvalue;
  (* pd.to_datetime(series, errors="coerce", infer_datetime_format=True) *)
  pd_to_datetime : series -> result series;
  (* series.dt.strftime("%Y-%m-%d") *)
  dt_strftime : series -> result series;
  (* the seaborn call itself *)
  sns_draw : plot -> result unit;
  (* plt.tight_layout(), plt.savefig(buffer, format="png"), and the base64
     text of the bytes, for the figure the plot was drawn on *)
  savefig_png : plot -> result string;
  (* what pydantic makes of a value given for a str field when the value is
     neither a str nor None (version 1 converts numbers, version 2 refuses) *)
  pydantic_coerce_str : pyvalue -> option string;
  (* config.GROQ_API_KEY *)
  GROQ_API_KEY : option string;
  (* client.chat.completions.create(...) for the k-th request, made for a
     schema: the message.content of each of response.choices, None where
     the content is null, or the exception the call raises *)
  groq_chat : nat -> list (string * string) -> result (list (option string))
}.

(** [str(v)]. *)
Definition py_str `{Platform} (v : pyvalue) : string :=
  match v with
  | PyStr s => s
  | _ => py_repr v
  end.

(** The kinds a column can be given (the source writes them as strings). *)
Inductive kind :=
| numerical | datetime | primary_key | distinct_categorical
| foreign_key | categorical.

Definition kind_eqb (a b : kind) : bool :=
  match a, b with
  | numerical, numerical | datetime, datetime | primary_key, primary_key
  | distinct_categorical, distinct_categorical
  | foreign_key, foreign_key | categorical, categorical => true
  | _, _ => false
  end.

(** A dict with string keys in insertion order: [d[k] = v] and [d.get(k)]. *)
Fixpoint adict_set {V} (d : list (string * V)) (k : string) (v : V)
  : list (string * V) :=
  match d with
  | [] => [(k, v)]
  | (k', v') :: d' => if String.eqb k' k then (k, v) :: d'
                      else (k', v') :: adict_set d' k v
  end.

Fixpoint adict_get {V} (d : list (string * V)) (k : string) : option V :=
  match d with
  | [] => None
  | (k', v) :: d' => if String.eqb k' k then Some v else adict_get d' k
  end.

(** A suggestion as the generators and the validator write it. *)
Definition suggestion (chart_type : string) (x y : pyvalue) (desc : pyvalue)
  : pydict :=
  [("chart_type", PyStr chart_type); ("x", x); ("y", y); ("description", desc)].

(** pydantic's validation of the fields of [VizConfig]. *)
Definition field_str `{Platform} (v : pyvalue) : result string :=
  match v with
  | PyStr s => Ok s
  | PyNone => Raise (ValidationError "none is not an allowed value")
  | _ => match pydantic_coerce_str v with
         | Some s => Ok s
         | None => Raise (ValidationError "str type expected")
         end
  end.

Definition field_optional_str `{Platform} (v : pyvalue) : result (option string) :=
  match v with
  | PyNone => Ok None
  | _ => match field_str v with
         | Ok s => Ok (Some s)
         | Raise e => Raise e
         end
  end.

(** [VizConfig(chart_type=.., x=.., y=.., description=.., image_base64=..)]. *)
Definition VizConfig_init `{Platform} (ct vx vy desc : pyvalue)
    (img : option string) : result VizConfig :=
  match field_str ct with
  | Raise e => Raise e
  | Ok ct' =>
      match field_optional_str vx with
      | Raise e => Raise e
      | Ok x' =>
          match field_optional_str vy with
          | Raise e => Raise e
          | Ok y' =>
              match field_str desc with
              | Raise e => Raise e
              | Ok desc' => Ok (mkVizConfig ct' x' y' None desc' img)
              end
          end
      end
  end.

(** [plt.figure(figsize=(8, 5))] and [plt.close()]. *)
Definition plt_figure : M unit :=
  modify (fun w => set_open_figures (S (open_figures w)) w).

Definition plt_close : M unit :=
  modify (fun w => set_open_figures (pred (open_figures w)) w).

(** A call made in a worker process of the pool: the worker has its own
    memory, so only the value it returns (or the exception it raises)
    reaches the caller. *)
Definition in_worker {A} (m : M A) : M A :=
  fun w => (fst (m w), w).

(** [list(executor.map(f, tasks))]: results in task order. *)
Fixpoint executor_map {A B} (f : A -> M B) (tasks : list A) : M (list B) :=
  match tasks with
  | [] => ret []
  | task :: rest =>
      r <- in_worker (f task) ;;
      rs <- executor_map f rest ;;
      ret (r :: rs)
  end.

(** excel_reader_service.get_sheet_df *)
Definition get_sheet_df (session_id sheet_name : string) : M nat :=
  sheets <- gets (fun w => EXCEL_CACHE w !! session_id) ;;
  match sheets with
  | None => raise (KeyError "Excel data not loaded for this session.")
  | Some sheets =>
      match adict_get sheets sheet_name with
      | None =>
          raise (KeyError ("Sheet '" +:+ sheet_name +:+ "' not found for this session."))
      | Some df => ret df
      end
  end.

(** ** The validator's test of one candidate

    The body of the loop of [_clean_and_validate_suggestions], the same text
    in both services: [Ok None] is a [continue], [Ok (Some (key, entry))] is
    an accepted candidate with the key it is remembered by, and [Raise] is
    the [TypeError] of looking up an unhashable [x] or [y] in [cols]. *)

Abbreviation suggestion_key := (string * pyvalue * pyvalue)%type (only parsing).

Definition key_eqb (a b : suggestion_key) : bool :=
  match a, b with
  | (ca, xa, ya), (cb, xb, yb) =>
      String.eqb ca cb && py_eqb xa xb && py_eqb ya yb
  end.

Definition chart_types : list string :=
  ["histogram"; "scatter"; "bar"; "countplot"; "line"].

Definition str_in_list (s : string) (l : list string) : bool :=
  existsb (String.eqb s) l.

Definition validate_item `{Platform} (cols : list string)
    (seen : list suggestion_key) (item : pyvalue)
  : result (option (suggestion_key * pydict)) :=
  match item with
  | PyDict d =>
      let chart_type :=
        str_lower (str_strip (py_str (dict_get d "chart_type" (PyStr "")))) in
      let x := dict_get d "x" PyNone in
      let y := dict_get d "y" PyNone in
      let desc := dict_get d "description" (PyStr "") in
      if String.eqb chart_type "" || is_none x then Ok None
      else
        match str_set_member x cols with
        | Raise e => Raise e
        | Ok None => Ok None
        | Ok (Some _) =>
            match (if is_none y then Ok (Some "") else str_set_member y cols) with
            | Raise e => Raise e
            | Ok None => Ok None
            | Ok (Some _) =>
                if str_in_list chart_type ["scatter"; "line"] && is_none y
                then Ok None
                else if negb (str_in_list chart_type chart_types) then Ok None
                else
                  let key := (chart_type, x, y) in
                  if existsb (key_eqb key) seen then Ok None
                  else Ok (Some (key, suggestion chart_type x y desc))
            end
        end
  | _ => Ok None
  end.

(** ** services/manual_viz_service.py *)

Module manual_viz_service.
Section with_platform.
Context `{Platform}.

(** The body of the loop of [_prepare_df_for_viz] for one column. The test
    [parsed_non_null / non_null >= 0.7] is a float comparison in the source;
    it is written on the integers here, which agrees with it for columns of
    fewer than 10^15 cells. *)
Definition coerce_column (df : nat) (col : string) : M unit :=
  t <- df_read df ;;
  match df_getitem t col with
  | None => raise (KeyError col)
  | Some s =>
      match s_dtype s with
      | object_ =>
          try_except
            (parsed <- lift (pd_to_datetime s) ;;
             let non_null := series_count s in
             let parsed_non_null := series_count parsed in
             if (0 <? non_null) && (7 * non_null <=? 10 * parsed_non_null)
             then df_assign df col parsed
             else ret tt)
            (fun _ => ret tt)
      | _ => ret tt
      end
  end.

Definition _prepare_df_for_viz (df : nat) : M nat :=
  df <- df_copy df ;;
  t <- df_read df ;;
  for_each (df_columns t) (coerce_column df) ;;
  ret df.

(** The kind [get_column_datatype] gives one column: the body of its
    loop. The dtype test of the [elif] is evaluated before the name test,
    so its exception is raised whatever the name is. *)
Definition column_datatype (col : string) (s : series) : result kind :=
  if is_numeric_dtype (s_dtype s) then Ok numerical
  else
    match np_issubdtype (s_dtype s) issubdtype_datetime64 with
    | Raise e => Raise e
    | Ok is_datetime64 =>
        if is_datetime64
           || existsb (fun elem => str_contains elem (str_lower col))
                      ["date"; "time"]
        then Ok datetime
        else
          let count := series_count s in
          let unique := series_nunique s in
          if count =? unique then
            if str_contains "id" (str_lower col) then Ok primary_key
            else Ok distinct_categorical
          else
            if str_contains "id" (str_lower col) then Ok foreign_key
            else Ok categorical
    end.

(** The loop of [get_column_datatype] over the columns not yet seen. *)
Fixpoint datatype_loop (columns : table) (datatype : list (string * kind))
  : result (list (string * kind)) :=
  match columns with
  | [] => Ok datatype
  | c :: rest =>
      match column_datatype (col_name c) (col_data c) with
      | Raise e => Raise e
      | Ok k => datatype_loop rest (adict_set datatype (col_name c) k)
      end
  end.

Definition get_column_datatype (df : table) : result (list (string * kind)) :=
  datatype_loop df [].

(** [range(a, b)]. *)
Definition range (a b : nat) : list nat := seq a (b - a).

Definition generate_manual_suggestions (df : table) : result (list pydict) :=
  match get_column_datatype df with
  | Raise e => Raise e
  | Ok datatype =>
  let manual_sug :=
    flat_map
      (fun col =>
         match adict_get datatype col with
         | Some categorical =>
             [suggestion "bar" (PyStr col) PyNone (PyStr ("Count of " +:+ col))]
         | Some numerical =>
             [suggestion "histogram" (PyStr col) PyNone
                         (PyStr ("Distribution of " +:+ col))]
         | _ => []
         end)
      (df_columns df) in
  let numerical_ :=
    map fst (filter (fun kv => kind_eqb (snd kv) numerical = true) datatype) in
  let date :=
    map fst (filter (fun kv => kind_eqb (snd kv) datetime = true) datatype) in
  let scatters :=
    flat_map
      (fun i =>
         map (fun j =>
                let xi := nth i numerical_ "" in
                let xj := nth j numerical_ "" in
                suggestion "scatter" (PyStr xi) (PyStr xj)
                  (PyStr ("Relationship between " +:+ xi +:+ " and " +:+ xj)))
             (range (i + 1) (length numerical_)))
      (range 0 (length numerical_ - 1)) in
  let lines :=
    match date with
    | [date0] =>
        map (fun item =>
               suggestion "line" (PyStr date0) (PyStr item)
                 (PyStr ("Trend of " +:+ item +:+ " over date")))
            numerical_
    | _ => []
    end in
  Ok (manual_sug ++ scatters ++ lines)
  end.

Fixpoint clean_loop (cols : list string) (items : list pyvalue)
    (seen : list suggestion_key) (cleaned : list pydict)
  : result (list pydict) :=
  match items with
  | [] => Ok cleaned
  | item :: rest =>
      match validate_item cols seen item with
      | Raise e => Raise e
      | Ok None => clean_loop cols rest seen cleaned
      | Ok (Some (key, entry)) =>
          clean_loop cols rest (seen ++ [key]) (cleaned ++ [entry])
      end
  end.

Definition _clean_and_validate_suggestions (df : table) (raw_suggestions : pyvalue)
  : result (list pydict) :=
  match raw_suggestions with
  | PyList ((_ :: _) as items) => clean_loop (df_columns df) items [] []
  | _ => Ok []
  end.

Definition _get_viz_suggestions_for_df (df : nat) : M (list pydict) :=
  df_prepared <- _prepare_df_for_viz df ;;
  t <- df_read df_prepared ;;
  raw_suggestions <- lift (generate_manual_suggestions t) ;;
  lift (_clean_and_validate_suggestions t (PyList (map PyDict raw_suggestions))).

(** The [if]/[elif] chain inside the [try] of [generate_chart]: the seaborn
    call made, or [None] where the source prints UNKNOWN CHART TYPE and
    returns. [x] is a column of [df]; [y] is [None] or a column of [df]. *)
Definition draw (df : nat) (chart_type : pyvalue) (x : string)
    (y : option string) : M (option plot) :=
  t <- df_read df ;;
  match df_getitem t x with
  | None => raise (KeyError x)
  | Some sx =>
      if py_eqb chart_type (PyStr "histogram") then
        numeric <- lift (np_issubdtype (s_dtype sx) issubdtype_number) ;;
        if negb numeric then
          lift (sns_draw (countplot t x)) ;; ret (Some (countplot t x))
        else
          let values := filter (fun c => notna c = true) (s_values sx) in
          lift (sns_draw (histplot values)) ;; ret (Some (histplot values))
      else if py_eqb chart_type (PyStr "scatter") then
        lift (sns_draw (scatterplot t x y)) ;; ret (Some (scatterplot t x y))
      else if py_eqb chart_type (PyStr "bar") then
        match y with
        | Some (String _ _ as yname) =>
            lift (sns_draw (barplot t x yname)) ;; ret (Some (barplot t x yname))
        | _ =>
            temporal <- lift (np_issubdtype (s_dtype sx) issubdtype_datetime64) ;;
            if temporal then
              temp <- df_copy df ;;
              formatted <- lift (dt_strftime sx) ;;
              df_assign temp x formatted ;;
              t' <- df_read temp ;;
              lift (sns_draw (countplot t' x)) ;; ret (Some (countplot t' x))
            else
              lift (sns_draw (countplot t x)) ;; ret (Some (countplot t x))
        end
      else if py_eqb chart_type (PyStr "countplot") then
        lift (sns_draw (countplot t x)) ;; ret (Some (countplot t x))
      else if py_eqb chart_type (PyStr "line") then
        lift (sns_draw (lineplot t x y)) ;; ret (Some (lineplot t x y))
      else ret None
  end.

(** [y is not None and y not in df.columns]: [None] when it holds, else
    the column [y] names, if any. *)
Definition optional_member (y : pyvalue) (names : list string)
  : result (option (option string)) :=
  if is_none y then Ok (Some None)
  else match str_set_member y names with
       | Raise e => Raise e
       | Ok None => Ok None
       | Ok (Some n) => Ok (Some (Some n))
       end.

(** The body of the [try] of [generate_chart]. *)
Definition draw_and_save (df : nat) (chart_type : pyvalue) (x : string)
    (y : option string) : M (option string) :=
  drawn <- draw df chart_type x y ;;
  match drawn with
  | None => ret None
  | Some p =>
      img <- lift (savefig_png p) ;;
      plt_close ;;
      ret (Some img)
  end.

Definition generate_chart (df : nat) (chart_type x y : pyvalue)
  : M (option string) :=
  t <- df_read df ;;
  xm <- lift (str_set_member x (df_columns t)) ;;
  match xm with
  | None => ret None
  | Some x =>
      ym <- lift (optional_member y (df_columns t)) ;;
      match ym with
      | None => ret None
      | Some y =>
          plt_figure ;;
          try_except (draw_and_save df chart_type x y)
                     (fun e => plt_close ;; ret None)
      end
  end.

(** [(sheet_name, df, chart_type, x, y, description)]. *)
Record task := Task {
  t_sheet : string; t_df : nat;
  t_chart_type : pyvalue; t_x : pyvalue; t_y : pyvalue; t_desc : pyvalue
}.

(** [(sheet_name, chart_type, x, y, description, image_base64)]. *)
Record rendered := Rendered {
  r_sheet : string;
  r_chart_type : pyvalue; r_x : pyvalue; r_y : pyvalue; r_desc : pyvalue;
  r_img : option string
}.

Definition _render_chart_process (tk : task) : M rendered :=
  img <- generate_chart (t_df tk) (t_chart_type tk) (t_x tk) (t_y tk) ;;
  ret (Rendered (t_sheet tk) (t_chart_type tk) (t_x tk) (t_y tk) (t_desc tk) img).

(** [[s for s in suggestions if s.get("chart_type") in allowed_types]]. *)
Fixpoint filter_allowed (suggestions : list pydict) (allowed_types : list string)
  : result (list pydict) :=
  match suggestions with
  | [] => Ok []
  | s :: rest =>
      match str_set_member (dict_get s "chart_type" PyNone) allowed_types with
      | Raise e => Raise e
      | Ok m =>
          match filter_allowed rest allowed_types with
          | Raise e => Raise e
          | Ok kept => Ok (match m with Some _ => s :: kept | None => kept end)
          end
      end
  end.

(** Step 2 of [suggest_visualizations_for_all_sheets] for one sheet. *)
Definition build_tasks (user_filters : option (list (string * list string)))
    (tasks : list task) (sheet : string * nat) : M (list task) :=
  let '(sheet_name, df_raw) := sheet in
  df <- _prepare_df_for_viz df_raw ;;
  suggestions <- _get_viz_suggestions_for_df df ;;
  suggestions <-
    match user_filters with
    | Some ((_ :: _) as filters) =>
        match adict_get filters sheet_name with
        | Some allowed_types => lift (filter_allowed suggestions allowed_types)
        | None => ret suggestions
        end
    | _ => ret suggestions
    end ;;
  ret (tasks ++
       map (fun s => Task sheet_name df
                      (dict_get s "chart_type" PyNone) (dict_get s "x" PyNone)
                      (dict_get s "y" PyNone) (dict_get s "description" (PyStr "")))
           suggestions).

(** Step 4 for one result. *)
Definition collect (final_result : viz_map) (r : rendered) : M viz_map :=
  let final_result :=
    match adict_get final_result (r_sheet r) with
    | None => adict_set final_result (r_sheet r) []
    | Some _ => final_result
    end in
  v <- lift (VizConfig_init (r_chart_type r) (r_x r) (r_y r) (r_desc r) (r_img r)) ;;
  ret (adict_set final_result (r_sheet r)
         (default [] (adict_get final_result (r_sheet r)) ++ [v])).

Definition suggest_visualizations_for_all_sheets (session_id : string)
    (user_filters : option (list (string * list string))) : M viz_map :=
  cached <- viz_cache.get_cached_visualizations session_id "manual" ;;
  match cached with
  | Some ((_ :: _) as cached) => ret cached
  | _ =>
      sheet_dfs <- gets (fun w => EXCEL_CACHE w !! session_id) ;;
      match sheet_dfs with
      | Some ((_ :: _) as sheet_dfs) =>
          tasks <- for_fold sheet_dfs [] (build_tasks user_filters) ;;
          match tasks with
          | [] =>
              viz_cache.store_visualizations session_id [] None ;;
              ret []
          | _ :: _ =>
              results <- executor_map _render_chart_process tasks ;;
              final_result <- for_fold results [] collect ;;
              viz_cache.store_visualizations session_id final_result
                (Some "manual") ;;
              ret final_result
          end
      | _ => raise (KeyError "Sheets not loaded.")
      end
  end.

End with_platform.
End manual_viz_service.

(** ** services/viz_service.py *)

Module viz_service.
Section with_platform.
Context `{Platform}.

(** [client]: built at import time when the key is set and not empty. *)
Definition client : option string :=
  match GROQ_API_KEY with
  | Some (String _ _ as key) => Some key
  | _ => None
  end.

(** [_prepare_df_for_viz]: the same text as in manual_viz_service.py. *)
Definition _prepare_df_for_viz : nat -> M nat :=
  manual_viz_service._prepare_df_for_viz.

(** The JSON PARSING part of [ask_llm_for_visualizations] for a text;
    Python's [None] is [PyNone]. *)
Definition parse_response (raw : string) : pyvalue :=
  match json_loads raw with
  | Some v => v
  | None =>
      let start := str_find "[" raw in
      let end_ := str_rfind "]" raw in
      match (if negb (start =? -1) && negb (end_ =? -1)
             then json_loads (str_slice raw start (end_ + 1)) else None) with
      | Some v => v
      | None =>
          let start := str_find "{" raw in
          let end_ := str_rfind "}" raw in
          match (if negb (start =? -1) && negb (end_ =? -1)
                 then json_loads (str_slice raw start (end_ + 1)) else None) with
          | Some one_obj => PyList [one_obj]
          | None => PyNone
          end
      end
  end.

(** [response.choices[0]] raises for an answer without choices. For a null
    content, [json.loads(raw)] raises inside its [try], and [raw.find],
    which is in no [try], raises next. *)
Definition ask_llm_for_visualizations (df : nat) : M pyvalue :=
  match client with
  | None => ret PyNone
  | Some _ =>
      t <- df_read df ;;
      let schema :=
        map (fun c => (col_name c, dtype_name (s_dtype (col_data c)))) t in
      k <- gets oracle_calls ;;
      modify (set_oracle_calls (S k)) ;;
      match groq_chat k schema with
      | Raise _ => ret PyNone
      | Ok choices =>
          match choices with
          | [] => raise (IndexError "list index out of range")
          | None :: _ =>
              raise (AttributeError "'NoneType' object has no attribute 'find'")
          | Some raw :: _ => ret (parse_response raw)
          end
      end
  end.

(** [df.select_dtypes(include=...).columns.tolist()]. *)
Definition select_dtypes (df : table) (include : dtype -> bool) : list string :=
  map col_name (filter (fun c => include (s_dtype (col_data c)) = true) df).

(** [include=["object", "category"]]: no column of the model is of a
    categorical dtype. *)
Definition is_object (d : dtype) : bool :=
  match d with object_ => true | _ => false end.

(** [include=["datetime64[ns]", "datetime64[ns, UTC]"]]: pandas selects by
    the scalar type of the dtype, which is [Timestamp] for the
    timezone-aware dtype of every zone. *)
Definition is_datetime (d : dtype) : bool :=
  match d with datetime64 | datetime64tz _ => true | _ => false end.

Definition _fallback_suggestions (df : table) : list pydict :=
  let numeric_cols := select_dtypes df issubdtype_number in
  let cat_cols := select_dtypes df is_object in
  let date_cols := select_dtypes df is_datetime in
  let suggestions :=
    match date_cols, numeric_cols with
    | d0 :: _, n0 :: _ =>
        [suggestion "line" (PyStr d0) (PyStr n0)
           (PyStr ("Trend of '" +:+ n0 +:+ "' over time by '" +:+ d0 +:+ "'."))]
    | _, n0 :: _ =>
        [suggestion "histogram" (PyStr n0) PyNone
           (PyStr ("Distribution of numeric column '" +:+ n0 +:+ "'."))]
    | _, _ => []
    end in
  match cat_cols with
  | c0 :: _ =>
      suggestions ++
      [suggestion "countplot" (PyStr c0) PyNone
         (PyStr ("Category counts for '" +:+ c0 +:+ "'."))]
  | [] => suggestions
  end.

Fixpoint clean_loop (max_per_sheet : nat) (cols : list string)
    (items : list pyvalue) (seen : list suggestion_key) (cleaned : list pydict)
  : result (list pydict) :=
  match items with
  | [] => Ok cleaned
  | item :: rest =>
      match validate_item cols seen item with
      | Raise e => Raise e
      | Ok None => clean_loop max_per_sheet cols rest seen cleaned
      | Ok (Some (key, entry)) =>
          let cleaned := cleaned ++ [entry] in
          if (max_per_sheet <=? length cleaned)%nat then Ok cleaned
          else clean_loop max_per_sheet cols rest (seen ++ [key]) cleaned
      end
  end.

Definition _clean_and_validate_suggestions (df : table) (raw_suggestions : pyvalue)
    (max_per_sheet : nat) : result (list pydict) :=
  match raw_suggestions with
  | PyList ((_ :: _) as items) => clean_loop max_per_sheet (df_columns df) items [] []
  | _ => Ok []
  end.

Definition _get_viz_suggestions_for_df (df : nat) : M (list pydict) :=
  df_prepared <- _prepare_df_for_viz df ;;
  raw_suggestions <- ask_llm_for_visualizations df_prepared ;;
  t <- df_read df_prepared ;;
  let raw_suggestions :=
    if negb (truthy raw_suggestions)
    then PyList (map PyDict (_fallback_suggestions t))
    else raw_suggestions in
  cleaned <- lift (_clean_and_validate_suggestions t raw_suggestions 12) ;;
  match cleaned with
  | [] => ret (_fallback_suggestions t)
  | _ :: _ => ret cleaned
  end.

(** [generate_chart] and [_render_chart_process]: the same text as in
    manual_viz_service.py. *)
Definition generate_chart : nat -> pyvalue -> pyvalue -> pyvalue -> M (option string) :=
  manual_viz_service.generate_chart.

Definition _render_chart_process
  : manual_viz_service.task -> M manual_viz_service.rendered :=
  manual_viz_service._render_chart_process.

Definition suggest_visualizations (session_id sheet_name : string)
  : M (list VizConfig) :=
  df_raw <- get_sheet_df session_id sheet_name ;;
  df <- _prepare_df_for_viz df_raw ;;
  suggestions <- _get_viz_suggestions_for_df df ;;
  for_fold suggestions []
    (fun viz_results item =>
       let chart_type := dict_get item "chart_type" PyNone in
       let x := dict_get item "x" PyNone in
       let y := dict_get item "y" PyNone in
       let desc := dict_get item "description" (PyStr "") in
       img_base64 <- generate_chart df chart_type x y ;;
       v <- lift (VizConfig_init chart_type x y desc img_base64) ;;
       ret (viz_results ++ [v])).

(** Step 2 of [suggest_visualizations_for_all_sheets] for one sheet. *)
Definition build_tasks (user_filters : option (list (string * list string)))
    (tasks : list manual_viz_service.task) (sheet : string * nat)
  : M (list manual_viz_service.task) :=
  let '(sheet_name, df_raw) := sheet in
  df <- _prepare_df_for_viz df_raw ;;
  suggestions <- _get_viz_suggestions_for_df df ;;
  suggestions <-
    match user_filters with
    | Some ((_ :: _) as filters) =>
        match adict_get filters sheet_name with
        | Some allowed_types =>
            lift (manual_viz_service.filter_allowed suggestions allowed_types)
        | None => ret suggestions
        end
    | _ => ret suggestions
    end ;;
  ret (tasks ++
       map (fun s => manual_viz_service.Task sheet_name df
                      (dict_get s "chart_type" PyNone) (dict_get s "x" PyNone)
                      (dict_get s "y" PyNone) (dict_get s "description" (PyStr "")))
           suggestions).

Definition suggest_visualizations_for_all_sheets (session_id : string)
    (user_filters : option (list (string * list string))) : M viz_map :=
  cached <- viz_cache.get_cached_visualizations session_id "ai" ;;
  match cached with
  | Some ((_ :: _) as cached) => ret cached
  | _ =>
      sheet_dfs <- gets (fun w => EXCEL_CACHE w !! session_id) ;;
      match sheet_dfs with
      | Some ((_ :: _) as sheet_dfs) =>
          tasks <- for_fold sheet_dfs [] (build_tasks user_filters) ;;
          match tasks with
          | [] =>
              viz_cache.store_visualizations session_id [] None ;;
              ret []
          | _ :: _ =>
              results <- executor_map _render_chart_process tasks ;;
              final_result <- for_fold results [] manual_viz_service.collect ;;
              viz_cache.store_visualizations session_id final_result (Some "ai") ;;
              ret final_result
          end
      | _ => raise (KeyError "Sheets not loaded.")
      end
  end.

End with_platform.
End viz_service.

(** ** routers/data_router.py

    [/data/visualizations/all] serves the rule-based result,
    [/data/visualizations/ai] the oracle-assisted one; neither passes
    filters. *)

Inductive mode := manual | ai.

Definition mode_name (m : mode) : string :=
  match m with manual => "manual" | ai => "ai" end.

Definition suggest_all_sheets `{Platform} (m : mode) (session_id : string)
    (user_filters : option (list (string * list string))) : M viz_map :=
  match m with
  | manual =>
      manual_viz_service.suggest_visualizations_for_all_sheets session_id user_filters
  | ai => viz_service.suggest_visualizations_for_all_sheets session_id user_filters
  end.

(** ** services/stats_service.py *)

Module stats_service.

(** [summary[col]["type"]]. *)
Definition column_type (col : string) (s : series) : kind :=
  if is_numeric_dtype (s_dtype s) then numerical
  else
    let count := series_count s in
    let unique := series_nunique s in
    if count =? unique then
      if str_contains "id" (str_lower col) then primary_key
      else distinct_categorical
    else
      if str_contains "id" (str_lower col) then foreign_key
      else if str_contains "date" (str_lower col)
              || str_contains "time" (str_lower col) then datetime
      else categorical.

(** One entry of [summary]; the float fields (mean, min, max) and the most
    frequent value are left out, as are the percentages and the row count
    of the whole summary. *)
Record column_summary := ColumnSummary {
  type_ : kind;
  count_ : Z;
  unique_ : option Z
}.

Definition summarize_column (col : string) (s : series) : column_summary :=
  let k := column_type col s in
  ColumnSummary k (series_count s)
    (match k with
     | foreign_key | datetime | categorical => Some (series_nunique s)
     | _ => None
     end).

Record statistical_summary := StatisticalSummary {
  summary : list (string * column_summary);
  missing_count : list (string * Z);
  n_cols : Z
}.

Definition summarize (df : table) : statistical_summary :=
  StatisticalSummary
    (fold_left
       (fun summary c =>
          adict_set summary (col_name c) (summarize_column (col_name c) (col_data c)))
       df [])
    (fold_left
       (fun counts c =>
          adict_set counts (col_name c)
            (Z.of_nat (length (filter (fun v => notna v = false)
                                      (s_values (col_data c))))))
       df [])
    (Z.of_nat (length df)).

Definition get_statistical_summary (session_id sheet_name : string)
  : M statistical_summary :=
  df <- get_sheet_df session_id sheet_name ;;
  t <- df_read df ;;
  ret (summarize t).

End stats_service.

(** ** A platform to run examples on

    A reader for the JSON that has no escapes and no fractions, a date
    parser that knows the shape YYYY-MM-DD, a backend that draws everything,
    no credential. *)

Module sample.

Definition dquote : ascii := ascii_of_nat 34.

Definition quoted (s : string) : string :=
  String dquote s +:+ String dquote EmptyString.

Definition is_json_space (c : ascii) : bool :=
  let n := nat_of_ascii c in
  ((n =? 32) || (n =? 9) || (n =? 10) || (n =? 13))%nat.

Fixpoint skip_space (s : string) : string :=
  match s with
  | String c s' => if is_json_space c then skip_space s' else s
  | EmptyString => s
  end.

Definition is_digit (c : ascii) : bool :=
  let n := nat_of_ascii c in ((48 <=? n) && (n <=? 57))%nat.

(** The text of a string after its opening quote, and what follows it. *)
Fixpoint read_string (s : string) : option (string * string) :=
  match s with
  | EmptyString => None
  | String c s' =>
      if Ascii.eqb c dquote then Some (EmptyString, s')
      else if (nat_of_ascii c =? 92)%nat || (nat_of_ascii c <? 32)%nat then None
      else match read_string s' with
           | Some (text, rest) => Some (String c text, rest)
           | None => None
           end
  end.

Fixpoint read_digits (s : string) (acc : Z) : Z * string :=
  match s with
  | String c s' =>
      if is_digit c then read_digits s' (10 * acc + Z.of_nat (nat_of_ascii c) - 48)
      else (acc, s)
  | EmptyString => (acc, s)
  end.

(** An integer; a leading zero, a fraction or an exponent is refused. *)
Definition read_int (s : string) : option (Z * string) :=
  let '(negative, body) :=
    match s with
    | String "-" s' => (true, s')
    | _ => (false, s)
    end in
  match body with
  | String c body' =>
      if is_digit c && negb (Ascii.eqb c "0" && match body' with
                                                | String d _ => is_digit d
                                                | _ => false
                                                end)
      then
        let '(n, rest) := read_digits body 0 in
        match rest with
        | String "." _ | String "e" _ | String "E" _ => None
        | _ => Some (if negative then - n else n, rest)
        end
      else None
  | EmptyString => None
  end.

Definition drop_chars (n : nat) (s : string) : string :=
  String.substring n (String.length s - n) s.

Fixpoint read_value (fuel : nat) (s : string) : option (pyvalue * string) :=
  match fuel with
  | O => None
  | S fuel =>
      match skip_space s with
      | String "[" s' =>
          match skip_space s' with
          | String "]" rest => Some (PyList [], rest)
          | _ => read_elements fuel [] s'
          end
      | String "{" s' =>
          match skip_space s' with
          | String "}" rest => Some (PyDict [], rest)
          | _ => read_members fuel [] s'
          end
      | String c s' as s0 =>
          if Ascii.eqb c dquote then
            match read_string s' with
            | Some (text, rest) => Some (PyStr text, rest)
            | None => None
            end
          else if String.prefix "null" s0 then Some (PyNone, drop_chars 4 s0)
          else if String.prefix "true" s0 then Some (PyBool true, drop_chars 4 s0)
          else if String.prefix "false" s0 then Some (PyBool false, drop_chars 5 s0)
          else match read_int s0 with
               | Some (n, rest) => Some (PyInt n, rest)
               | None => None
               end
      | EmptyString => None
      end
  end
with read_elements (fuel : nat) (acc : list pyvalue) (s : string)
  : option (pyvalue * string) :=
  match fuel with
  | O => None
  | S fuel =>
      match read_value fuel s with
      | Some (v, rest) =>
          match skip_space rest with
          | String "," rest' => read_elements fuel (acc ++ [v]) rest'
          | String "]" rest' => Some (PyList (acc ++ [v]), rest')
          | _ => None
          end
      | None => None
      end
  end
with read_members (fuel : nat) (acc : pydict) (s : string)
  : option (pyvalue * string) :=
  match fuel with
  | O => None
  | S fuel =>
      match skip_space s with
      | String c s' =>
          if Ascii.eqb c dquote then
            match read_string s' with
            | Some (key, rest) =>
                match skip_space rest with
                | String ":" rest' =>
                    match read_value fuel rest' with
                    | Some (v, rest'') =>
                        match skip_space rest'' with
                        | String "," rest3 =>
                            read_members fuel (adict_set acc key v) rest3
                        | String "}" rest3 =>
                            Some (PyDict (adict_set acc key v), rest3)
                        | _ => None
                        end
                    | None => None
                    end
                | _ => None
                end
            | None => None
            end
          else None
      | EmptyString => None
      end
  end.

Definition loads (s : string) : option pyvalue :=
  match read_value (2 * String.length s + 2) s with
  | Some (v, rest) =>
      match skip_space rest with
      | EmptyString => Some v
      | _ => None
      end
  | None => None
  end.

Definition repr (v : pyvalue) : string :=
  match v with
  | PyNone => "None"
  | PyBool true => "True"
  | PyBool false => "False"
  | PyList [] => "[]"
  | PyDict [] => "{}"
  | _ => "<object>"
  end.

(** YYYY-MM-DD, read as the number YYYYMMDD. *)
Definition parse_date (c : cell) : cell :=
  match c with
  | Text s =>
      match String.length s, String.get 4 s, String.get 7 s with
      | 10%nat, Some "-"%char, Some "-"%char =>
          let digits := String.substring 0 4 s +:+ String.substring 5 2 s
                        +:+ String.substring 8 2 s in
          if forallb is_digit (list_ascii_of_string digits)
          then Stamp (fst (read_digits digits 0)) else NA
      | _, _, _ => NA
      end
  | Stamp ns => Stamp ns
  | _ => NA
  end.

Definition to_datetime (s : series) : result series :=
  Ok (Series datetime64 (map parse_date (s_values s))).

Definition strftime (s : series) : result series :=
  Ok (Series object_
        (map (fun c => match c with Stamp _ => Text "date" | _ => NA end)
             (s_values s))).

Definition platform : Platform := {|
  py_repr := repr;
  json_loads := loads;
  pd_to_datetime := to_datetime;
  dt_strftime := strftime;
  sns_draw := fun _ => Ok tt;
  savefig_png := fun _ => Ok "iVBORw0KGgo=";
  pydantic_coerce_str := fun _ => None;
  GROQ_API_KEY := None;
  groq_chat := fun _ _ => Raise (Exception "no service")
|}.

(** An oracle that wraps one suggestion in prose. *)
Definition object_text : string :=
  "{" +:+ quoted "chart_type" +:+ ":" +:+ quoted "bar" +:+ ","
      +:+ quoted "x" +:+ ":" +:+ quoted "region" +:+ ","
      +:+ quoted "y" +:+ ":null,"
      +:+ quoted "description" +:+ ":" +:+ quoted "counts" +:+ "}".

Definition answer : string :=
  "Here is the chart I would draw: " +:+ object_text +:+ " Hope this helps.".

(** An answer whose object has an object inside it: what is between the
    outer braces, and the answer. *)
Definition nested_members : string :=
  quoted "chart_type" +:+ ":" +:+ quoted "bar" +:+ ","
    +:+ quoted "x" +:+ ":" +:+ quoted "region" +:+ ","
    +:+ quoted "style" +:+ ":{" +:+ quoted "grid" +:+ ":true}".

Definition nested_answer : string :=
  "One chart: {" +:+ nested_members +:+ "} (draft).".

(** A platform whose oracle gives every request the one answer [text]. *)
Definition oracle (text : string) : Platform := {|
  py_repr := repr;
  json_loads := loads;
  pd_to_datetime := to_datetime;
  dt_strftime := strftime;
  sns_draw := fun _ => Ok tt;
  savefig_png := fun _ => Ok "iVBORw0KGgo=";
  pydantic_coerce_str := fun _ => None;
  GROQ_API_KEY := Some "gsk_example";
  groq_chat := fun _ _ => Ok [Some text]
|}.

Definition with_oracle : Platform := oracle answer.

(** A platform whose oracle answers with one choice of null content. *)
Definition null_oracle : Platform := {|
  py_repr := repr;
  json_loads := loads;
  pd_to_datetime := to_datetime;
  dt_strftime := strftime;
  sns_draw := fun _ => Ok tt;
  savefig_png := fun _ => Ok "iVBORw0KGgo=";
  pydantic_coerce_str := fun _ => None;
  GROQ_API_KEY := Some "gsk_example";
  groq_chat := fun _ _ => Ok [None]
|}.

End sample.

(** ** services/excel_reader_service.py: loading a workbook *)

Module excel_reader_service.

(** [models/common_models.py]: [SheetInfo]. *)
Record SheetInfo := mkSheetInfo {
  sheet_name : string;
  n_rows : Z;
  n_cols : Z
}.

(** [df.shape]: the rows are those of the first column (a frame read from
    a sheet is rectangular, and has no row when it has no column). *)
Definition df_n_rows (t : table) : Z :=
  match t with
  | [] => 0
  | c :: _ => Z.of_nat (length (s_values (col_data c)))
  end.

Definition df_n_cols (t : table) : Z := Z.of_nat (length t).

(** A DataFrame object made by the reader. *)
Definition df_new (t : table) : M nat :=
  fun w => (Ok (length (frames w)), set_frames (frames w ++ [t]) w).

Definition set_EXCEL_CACHE (c : gmap string (list (string * nat))) (w : world)
  : world :=
  World (frames w) c (VIZ_CACHE_MANUAL w) (VIZ_CACHE_AI w)
        (oracle_calls w) (open_figures w).

(** [load_excel_for_session], for the workbook [pd.ExcelFile(file_path)]
    opens: [xls] lists its sheets in order, each with the table
    [xls.parse(sheet_name)] reads. *)
Definition load_excel_for_session (session_id : string)
    (xls : list (string * table)) : M (list SheetInfo) :=
  loaded <- for_fold xls ([], [])
              (fun (acc : list SheetInfo * list (string * nat)) sheet =>
                 let '(sheet_infos, sheet_dfs) := acc in
                 let '(name, parsed) := sheet in
                 df <- df_new parsed ;;
                 ret (sheet_infos ++
                        [mkSheetInfo name (df_n_rows parsed) (df_n_cols parsed)],
                      adict_set sheet_dfs name df)) ;;
  let '(sheet_infos, sheet_dfs) := loaded in
  modify (fun w => set_EXCEL_CACHE (<[session_id := sheet_dfs]> (EXCEL_CACHE w)) w) ;;
  ret sheet_infos.

End excel_reader_service.

(** ** services/domain_logic_service.py *)

Module domain_logic_service.

Inductive DomainType := retail | manufacturing | education | unknown.

(** [" ".join(parts)]. *)
Fixpoint join_space (parts : list string) : string :=
  match parts with
  | [] => ""
  | [p] => p
  | p :: rest => p +:+ " " +:+ join_space rest
  end.

Definition retail_keys : list string :=
  ["product_id"; "sale_id"; "store_id"; "inventory_id"].

Definition manufacturing_keys : list string :=
  ["equipment_id"; "downtime_id"; "parts_replaced"; "techniciam_id"].

Definition education_keys : list string :=
  ["student_id"; "module_name"; "module_id"; "resource_type"].

(** [type(v).__name__]. *)
Definition type_name (v : pyvalue) : string :=
  match v with
  | PyNone => "NoneType" | PyBool _ => "bool" | PyInt _ => "int"
  | PyFloat _ _ => "float" | PyStr _ => "str" | PyList _ => "list"
  | PyDict _ => "dict"
  end.

(** [c.lower()] for a column label [c]: only a [str] has the method. *)
Definition label_lower (c : pyvalue) : result string :=
  match c with
  | PyStr s => Ok (str_lower s)
  | _ =>
      Raise (AttributeError
               ("'" +:+ type_name c +:+ "' object has no attribute 'lower'"))
  end.

(** [[c.lower() for c in columns]]. *)
Fixpoint lower_all (columns : list pyvalue) : result (list string) :=
  match columns with
  | [] => Ok []
  | c :: rest =>
      match label_lower c with
      | Raise e => Raise e
      | Ok lowered =>
          match lower_all rest with
          | Raise e => Raise e
          | Ok more => Ok (lowered :: more)
          end
      end
  end.

(** [columns] is any sequence of labels: a caller passes [df.columns],
    whose labels are the header cells of the sheet, numbers included. *)
Definition infer_domain_from_columns (columns : list pyvalue) : result DomainType :=
  match lower_all columns with
  | Raise e => Raise e
  | Ok lowered =>
      let cols_str := join_space lowered in
      Ok (if existsb (fun k => str_contains k cols_str) retail_keys then retail
          else if existsb (fun k => str_contains k cols_str) manufacturing_keys
          then manufacturing
          else if existsb (fun k => str_contains k cols_str) education_keys
          then education
          else unknown)
  end.

End domain_logic_service.

(** ** services/preview_service.py *)

Module preview_service.

(** [series.head(n)]: the first [n] cells, or all but the last [-n] for a
    negative [n]. *)
Definition head_cells (n : Z) (cells : list cell) : list cell :=
  if n <? 0 then take (Z.to_nat (Z.of_nat (length cells) + n)) cells
  else take (Z.to_nat n) cells.

(** [df.head(n)]. *)
Definition df_head (n : Z) (t : table) : table :=
  map (fun c => Column (col_name c)
                  (Series (s_dtype (col_data c)) (head_cells n (s_values (col_data c)))))
      t.

(** [df.to_dict(orient="records")]: one dict per row, from column name to
    the cell of that row; a later column of the same name replaces an
    earlier one. *)
Definition to_records (t : table) : list (list (string * cell)) :=
  map (fun i =>
         fold_left (fun record c =>
                      adict_set record (col_name c)
                                (nth i (s_values (col_data c)) NA))
                   t [])
      (seq 0 (Z.to_nat (excel_reader_service.df_n_rows t))).

Record preview := Preview {
  columns : list string;
  rows : list (list (string * cell))
}.

Definition get_preview_rows (session_id sheet_name : string) (n_rows : Z)
  : M preview :=
  df <- get_sheet_df session_id sheet_name ;;
  t <- df_read df ;;
  let preview_df := df_head n_rows t in
  ret (Preview (df_columns preview_df) (to_records preview_df)).

End preview_service.

(** * The vocabulary of the properties *)

(** ** The validator's output *)

(** What identifies a suggestion within a sheet. *)
Definition triple (e : pydict) : pyvalue * pyvalue * pyvalue :=
  (dict_get e "chart_type" PyNone, dict_get e "x" PyNone, dict_get e "y" PyNone).

(** [x] is a column of the table, and so is [y] unless it is [None]. *)
Definition references_columns (cols : list string) (e : pydict) : Prop :=
  (exists xn, dict_get e "x" PyNone = PyStr xn /\ xn ∈ cols) /\
  (dict_get e "y" PyNone = PyNone \/
   exists yn, dict_get e "y" PyNone = PyStr yn /\ yn ∈ cols).

(** [chart_type] is one of the five, and a scatter or line has a [y]. *)
Definition recognized_chart (e : pydict) : Prop :=
  exists ct, dict_get e "chart_type" PyNone = PyStr ct /\ ct ∈ chart_types /\
             (ct = "scatter" \/ ct = "line" -> dict_get e "y" PyNone <> PyNone).

Definition well_formed (cols : list string) (out : list pydict) : Prop :=
  Forall (fun e => references_columns cols e /\ recognized_chart e) out /\
  NoDup (map triple out).

Definition key_triple (k : suggestion_key) : pyvalue * pyvalue * pyvalue :=
  match k with (ct, vx, vy) => (PyStr ct, vx, vy) end.

(** What the loop maintains: the accepted entries are well formed and
    [seen] holds exactly their keys. *)
Definition loop_inv (cols : list string) (seen : list suggestion_key)
    (cleaned : list pydict) : Prop :=
  well_formed cols cleaned /\ map key_triple seen = map triple cleaned.

(** ** The date pre-pass as a function of the table *)

Section vocabulary.
Context `{Platform}.

(** What the pre-pass leaves in a column. *)
Definition coerced (s : series) : series :=
  match s_dtype s with
  | object_ =>
      match pd_to_datetime s with
      | Ok parsed =>
          if (0 <? series_count s) && (7 * series_count s <=? 10 * series_count parsed)
          then parsed else s
      | Raise _ => s
      end
  | _ => s
  end.

Definition coerce_step (t : table) (col : string) : table :=
  match df_getitem t col with
  | Some s => df_setitem t col (coerced s)
  | None => t
  end.

(** The table the copy holds when the pre-pass returns. *)
Definition prepared (t : table) : table := fold_left coerce_step (df_columns t) t.

(** A column after the pre-pass: the same name, and the parsed timestamps
    in place of its cells where the column was free-form and at least 70%
    of its non-missing cells parsed. *)
Definition coerced_column (c : column) : column :=
  Column (col_name c) (coerced (col_data c)).

End vocabulary.

(** ** What a call leaves of the state *)

(** [w'] has every object of [w], unchanged, and the same sheets. *)
Definition grows (w w' : world) : Prop :=
  frames w `prefix_of` frames w' /\ EXCEL_CACHE w' = EXCEL_CACHE w.

Definition frame_safe {A} (m : M A) : Prop := forall w, grows w (snd (m w)).

(** Every DataFrame object of [w] is in [w'] with the same columns and
    cells, and the sessions hold the same sheets. *)
Definition stored_tables_kept (w w' : world) : Prop :=
  (forall r t, frames w !! r = Some t -> frames w' !! r = Some t) /\
  EXCEL_CACHE w' = EXCEL_CACHE w.

(** Code that opens and closes no figure. *)
Definition figures_kept {A} (m : M A) : Prop :=
  forall w, open_figures (snd (m w)) = open_figures w.

Definition cache_of (m : mode) (w : world) : gmap string viz_map :=
  match m with
  | manual => VIZ_CACHE_MANUAL w
  | ai => VIZ_CACHE_AI w
  end.

(** ** The rule-based proposals *)

(** The timezone-aware dtype of pandas, which numpy has no dtype for, and
    the exception of numpy when it is given one. *)
Definition tz_aware (d : dtype) : bool :=
  match d with datetime64tz _ => true | _ => false end.

Definition cannot_interpret (d : dtype) : exn :=
  TypeError ("Cannot interpret '" +:+ dtype_name d +:+ "' as a data type").

(** The first column of a timezone-aware dtype, if there is one. *)
Definition first_tz_aware (t : table) : option column :=
  List.find (fun c => tz_aware (s_dtype (col_data c))) t.

(** The Type Inferencer gives the column the kind [k]. *)
Definition has_kind (k : kind) (c : column) : bool :=
  match manual_viz_service.column_datatype (col_name c) (col_data c) with
  | Ok k' => kind_eqb k' k
  | Raise _ => false
  end.

(** The kind of every column that is given one, in column order. *)
Definition kinds_of (t : table) : list (string * kind) :=
  omap (fun c =>
          match manual_viz_service.column_datatype (col_name c) (col_data c) with
          | Ok k => Some (col_name c, k)
          | Raise _ => None
          end) t.

(** The names of the columns of a kind, in column order. *)
Definition columns_of_kind (k : kind) (t : table) : list string :=
  map col_name (filter (fun c => has_kind k c = true) t).

(** A line proposal of the generator, and the test for one. *)
Definition line_suggestion (d n : string) : pydict :=
  suggestion "line" (PyStr d) (PyStr n) (PyStr ("Trend of " +:+ n +:+ " over date")).

Definition is_line (e : pydict) : bool :=
  py_eqb (dict_get e "chart_type" PyNone) (PyStr "line").

(** The table of the example: a date column read as text, and two numeric
    columns. *)
Definition orders : table :=
  [Column "order_date"
     (Series object_ [Text "2024-01-01"; Text "2024-01-02"; Text "2024-01-02"]);
   Column "amount" (Series float64 [Float 5 (-1); Int 2; NA]);
   Column "qty" (Series int64 [Int 1; Int 2; Int 3])].

Definition orders_proposals : list pydict :=
  [suggestion "histogram" (PyStr "amount") PyNone (PyStr "Distribution of amount");
   suggestion "histogram" (PyStr "qty") PyNone (PyStr "Distribution of qty");
   suggestion "scatter" (PyStr "amount") (PyStr "qty")
     (PyStr "Relationship between amount and qty");
   line_suggestion "order_date" "amount";
   line_suggestion "order_date" "qty"].

(** A table whose first column holds timestamps with a time zone. *)
Definition stamped : table :=
  [Column "when" (Series (datetime64tz "UTC") [Stamp 0; Stamp 86400000000000]);
   Column "qty" (Series int64 [Int 1; Int 2])].

(** ** The kinds of the summary *)



(** ** The oracle and the renderer *)

(** The schema sent to the oracle. *)
Definition schema_of (t : table) : list (string * string) :=
  map (fun c => (col_name c, dtype_name (s_dtype (col_data c)))) t.

(** The character [c] is in [s]. *)
Fixpoint occurs (c : ascii) (s : string) : bool :=
  match s with
  | EmptyString => false
  | String a s' => Ascii.eqb a c || occurs c s'
  end.

(** [s] is [pre], the character [a], [mid], the character [b] and [post],
    with no [a] in [pre] and no [b] in [post]: the [a] is the first one of
    [s] and the [b] its last one. *)
Definition between (a b : ascii) (s pre mid post : string) : Prop :=
  s = pre +:+ String a mid +:+ String b post /\
  occurs a pre = false /\ occurs b post = false.

(** The text has no list in brackets: it has no "[", or no "]", or what is
    between its first "[" and its last "]" is not JSON. *)
Definition no_bracketed_list `{Platform} (raw : string) : Prop :=
  occurs "[" raw = false \/ occurs "]" raw = false \/
  exists pre mid post,
    between "[" "]" raw pre mid post /\ json_loads ("[" +:+ mid +:+ "]") = None.

(** [y] as the caller passes it. *)
Definition py_optional (y : option string) : pyvalue :=
  match y with
  | Some s => PyStr s
  | None => PyNone
  end.

(** ** The fallback *)

(** The dtypes the specification calls numeric, datetime and text-like:
    integers and floats; timestamps, with a time zone or without; Python
    objects. *)
Inductive column_class := numeric_column | datetime_column | text_column.

Definition class_of (d : dtype) : option column_class :=
  match d with
  | int64 | float64 => Some numeric_column
  | datetime64 | datetime64tz _ => Some datetime_column
  | object_ => Some text_column
  | bool_ => None
  end.

(** The name of the first column of a class. *)
Fixpoint first_of (k : column_class) (t : table) : option string :=
  match t with
  | [] => None
  | c :: rest =>
      match class_of (s_dtype (col_data c)), k with
      | Some numeric_column, numeric_column
      | Some datetime_column, datetime_column
      | Some text_column, text_column => Some (col_name c)
      | _, _ => first_of k rest
      end
  end.

(** The fallback in the words of the specification: a line chart from the
    first datetime and the first numeric column if both exist, otherwise a
    histogram of the first numeric column, plus a countplot of the first
    text-like column if one exists. *)
Definition fallback_spec (t : table) : list pydict :=
  match first_of numeric_column t with
  | Some n =>
      match first_of datetime_column t with
      | Some d =>
          [suggestion "line" (PyStr d) (PyStr n)
             (PyStr ("Trend of '" +:+ n +:+ "' over time by '" +:+ d +:+ "'."))]
      | None =>
          [suggestion "histogram" (PyStr n) PyNone
             (PyStr ("Distribution of numeric column '" +:+ n +:+ "'."))]
      end
  | None => []
  end ++
  match first_of text_column t with
  | Some c =>
      [suggestion "countplot" (PyStr c) PyNone
         (PyStr ("Category counts for '" +:+ c +:+ "'."))]
  | None => []
  end.

(** The orders with the region of each: a text column that holds no
    dates. *)
Definition regional : table :=
  orders ++
  [Column "region" (Series object_ [Text "north"; Text "south"; Text "north"])].

(** ** Sessions *)

(** A workbook whose only sheet is empty. *)
Definition empty_book : world :=
  World [[]] {[ "s" := [("Sheet1", 0%nat)] ]} ∅ ∅ 0 0.

(** The same, with the empty mapping already in the rule-based cache. *)
Definition empty_book_cached : world :=
  set_VIZ_CACHE_MANUAL {[ "s" := [] ]} empty_book.

Definition missing_mode : exn :=
  TypeError "store_visualizations() missing 1 required positional argument: 'mode'".

(** A session whose workbook is the table [orders]. *)
Definition orders_book : world :=
  World [orders] {[ "s" := [("Sheet1", 0%nat)] ]} ∅ ∅ 0 0.

Definition regional_book : world :=
  World [regional] {[ "s" := [("Sheet1", 0%nat)] ]} ∅ ∅ 0 0.

Definition orders_book_after : world :=
  snd (@suggest_all_sheets sample.platform manual "s" None orders_book).

Definition png : option string := Some "iVBORw0KGgo=".

Definition orders_charts : viz_map :=
  [("Sheet1",
    [mkVizConfig "histogram" (Some "amount") None None "Distribution of amount" png;
     mkVizConfig "histogram" (Some "qty") None None "Distribution of qty" png;
     mkVizConfig "scatter" (Some "amount") (Some "qty") None
       "Relationship between amount and qty" png;
     mkVizConfig "line" (Some "order_date") (Some "amount") None
       "Trend of amount over date" png;
     mkVizConfig "line" (Some "order_date") (Some "qty") None
       "Trend of qty over date" png])].

(** ** Loading a workbook *)

(** The references the loader gives the sheets of a workbook when the
    store holds [n] objects. *)
Fixpoint refs_from (n : nat) (xls : list (string * table)) : list (string * nat) :=
  match xls with
  | [] => []
  | (name, _) :: rest => (name, n) :: refs_from (S n) rest
  end.

Definition sheet_info (sheet : string * table) : excel_reader_service.SheetInfo :=
  excel_reader_service.mkSheetInfo (fst sheet)
    (excel_reader_service.df_n_rows (snd sheet))
    (excel_reader_service.df_n_cols (snd sheet)).

(** ** Candidates of the validator *)

(** The exception of hashing a list or a dict. *)
Definition unhashable_error (e : exn) : Prop :=
  e = TypeError "unhashable type: 'list'" \/ e = TypeError "unhashable type: 'dict'".

(** The exception of reading an answer of the oracle that has no choice,
    or whose first choice has a null content. *)
Definition answer_error (e : exn) : Prop :=
  e = IndexError "list index out of range" \/
  e = AttributeError "'NoneType' object has no attribute 'find'".

(** A candidate the validator cannot look up: a dict with a chart type and
    an x, whose x is a list or a dict, or whose x is a column of the table
    and whose y is a list or a dict. *)
Definition unhashable_candidate `{Platform} (cols : list string) (item : pyvalue)
  : bool :=
  match item with
  | PyDict d =>
      let chart_type :=
        str_lower (str_strip (py_str (dict_get d "chart_type" (PyStr "")))) in
      let vx := dict_get d "x" PyNone in
      let vy := dict_get d "y" PyNone in
      negb (String.eqb chart_type "") && negb (is_none vx) &&
      (negb (hashable vx) ||
       match str_set_member vx cols with
       | Ok (Some _) => negb (hashable vy)
       | _ => false
       end)
  | _ => false
  end.

(** An entry as the validator and the generators write it: the four keys
    in order, a recognized chart type, a column as x, and as y a column or,
    unless the chart is a scatter or a line, None. *)
Definition generated (cols : list string) (e : pydict) : Prop :=
  exists ct c vy desc,
    e = suggestion ct (PyStr c) vy desc /\ ct ∈ chart_types /\ c ∈ cols /\
    ((vy = PyNone /\ ct <> "scatter" /\ ct <> "line") \/
     (exists n, vy = PyStr n /\ n ∈ cols)).

(** ** The rule-based proposals, column by column *)

(** All pairs of a list, the earlier element first. *)
Fixpoint pairs_of (l : list string) : list (string * string) :=
  match l with
  | [] => []
  | a :: rest => map (fun b => (a, b)) rest ++ pairs_of rest
  end.

Definition bar_suggestion (c : string) : pydict :=
  suggestion "bar" (PyStr c) PyNone (PyStr ("Count of " +:+ c)).

Definition histogram_suggestion (c : string) : pydict :=
  suggestion "histogram" (PyStr c) PyNone (PyStr ("Distribution of " +:+ c)).

Definition scatter_suggestion (p : string * string) : pydict :=
  suggestion "scatter" (PyStr (fst p)) (PyStr (snd p))
    (PyStr ("Relationship between " +:+ fst p +:+ " and " +:+ snd p)).

(** What one column contributes by itself. *)
Definition column_proposals (c : column) : list pydict :=
  match manual_viz_service.column_datatype (col_name c) (col_data c) with
  | Ok categorical => [bar_suggestion (col_name c)]
  | Ok numerical => [histogram_suggestion (col_name c)]
  | _ => []
  end.

(** The proposals of the rule-based strategy in closed form. *)
Definition proposals_spec (t : table) : list pydict :=
  flat_map column_proposals t ++
  map scatter_suggestion (pairs_of (columns_of_kind numerical t)) ++
  match columns_of_kind datetime t with
  | [d] => map (line_suggestion d) (columns_of_kind numerical t)
  | _ => []
  end.

(** Where an entry of the closed form comes from. *)
Inductive proposal_of (t : table) : pydict -> Prop :=
  | proposal_bar c :
      c ∈ columns_of_kind categorical t -> proposal_of t (bar_suggestion c)
  | proposal_histogram c :
      c ∈ columns_of_kind numerical t -> proposal_of t (histogram_suggestion c)
  | proposal_scatter a b :
      a ∈ columns_of_kind numerical t -> b ∈ columns_of_kind numerical t ->
      proposal_of t (scatter_suggestion (a, b))
  | proposal_line d n :
      d ∈ columns_of_kind datetime t -> n ∈ columns_of_kind numerical t ->
      proposal_of t (line_suggestion d n).

(** A drawing step that ends with a plot or with an exception, never at
    the branch that prints UNKNOWN CHART TYPE. *)
Definition draws_or_raises (m : M (option plot)) : Prop :=
  forall w w1, m w <> (Ok None, w1).

(** ** Previews and domains *)

(** A table as the reader makes it: every column has as many cells as the
    first one. *)
Definition rectangular (t : table) : Prop :=
  Forall (fun c => Z.of_nat (length (s_values (col_data c)))
                   = excel_reader_service.df_n_rows t) t.

(** The rows [head(n)] keeps of [r]. *)
Definition rows_kept (n r : Z) : Z :=
  if n <? 0 then Z.max 0 (r + n) else Z.min n r.

(** Some column name contains, in lower case, one of the keys. *)
Definition mentions (keys columns : list string) : Prop :=
  exists c k, c ∈ columns /\ k ∈ keys /\ str_contains k (str_lower c) = true.

(** A key that is not empty and has no space in it. *)
Fixpoint spaceless (k : string) : bool :=
  match k with
  | EmptyString => true
  | String c k' => negb (Ascii.eqb c " ") && spaceless k'
  end.

(** ** The tasks of a sheet *)

Section pipeline.
Context `{Platform}.

(** What the rule-based all-sheets call proposes for the DataFrame [df]: the
    pre-pass has run twice when the generator sees the table. *)
Definition sheet_proposals (F : list table) (df : nat) : result (list pydict) :=
  match F !! df with
  | Some t => manual_viz_service.generate_manual_suggestions (prepared (prepared t))
  | None => Ok []
  end.

(** The task of a suggestion. *)
Definition task_of (sheet_name : string) (df : nat) (s : pydict)
  : manual_viz_service.task :=
  manual_viz_service.Task sheet_name df
    (dict_get s "chart_type" PyNone) (dict_get s "x" PyNone)
    (dict_get s "y" PyNone) (dict_get s "description" (PyStr "")).

End pipeline.

(** A string, where the value is one. *)
Definition text_of (v : pyvalue) : option string :=
  match v with PyStr s => Some s | _ => None end.

(** The first label that is not a string, if there is one. *)
Definition first_non_text (labels : list pyvalue) : option pyvalue :=
  List.find (fun c => match c with PyStr _ => false | _ => true end) labels.

(** The exception of calling a method the object does not have. *)
Definition no_attribute (v : pyvalue) (method : string) : exn :=
  AttributeError
    ("'" +:+ domain_logic_service.type_name v +:+ "' object has no attribute '"
         +:+ method +:+ "'").

(** A chart entry of a recognized type whose x is a column and whose y,
    if any, is a column. *)
Definition chart_of_columns (cols : list string) (v : VizConfig) : Prop :=
  chart_type v ∈ chart_types /\
  (exists c, x v = Some c /\ c ∈ cols) /\
  (forall n, y v = Some n -> n ∈ cols).

(** The suggestions a filter lets through: those whose chart type is
    among the allowed ones, as written. *)
Definition allowed_only (allowed : list string) (suggestions : list pydict)
  : list pydict :=
  filter (fun s => default "" (text_of (dict_get s "chart_type" PyNone)) ∈ allowed)
         suggestions.

(** ** More sessions *)

(** A workbook with the table [orders] as its only sheet. *)
Definition orders_xls : list (string * table) := [("Sheet1", orders)].

(** A process that has loaded nothing. *)
Definition fresh : world := World [] ∅ ∅ ∅ 0 0.

(** A candidate as the validator writes it down when it accepts it: the
    chart type as text, stripped and in lower case, and x, y and the
    description as they came. *)
Definition normalized `{Platform} (item : pyvalue) : option pydict :=
  match item with
  | PyDict d =>
      Some (suggestion
              (str_lower (str_strip (py_str (dict_get d "chart_type" (PyStr "")))))
              (dict_get d "x" PyNone) (dict_get d "y" PyNone)
              (dict_get d "description" (PyStr "")))
  | _ => None
  end.

(** ** What a call never touches *)

(** Code that leaves the observation [f] of the state as it was, whatever
    it returns or raises. *)
Definition preserves {A B} (f : world -> B) (m : M A) : Prop :=
  forall w, f (snd (m w)) = f w.

(** Code that sends at most [n] requests to the oracle. *)
Definition asks_at_most (n : nat) {A} (m : M A) : Prop :=
  forall w, (oracle_calls w <= oracle_calls (snd (m w)) <= oracle_calls w + n)%nat.

(** * Properties *)

(** ** Running Python code *)

Lemma bind_ok {A B} (m : M A) (k : A -> M B) w a w' :
  m w = (Ok a, w') -> bind m k w = k a w'.
Proof. intros E. unfold bind. now rewrite E. Qed.

Lemma bind_raise {A B} (m : M A) (k : A -> M B) w e w' :
  m w = (Raise e, w') -> bind m k w = (Raise e, w').
Proof. intros E. unfold bind. now rewrite E. Qed.

Lemma bind_inv_ok {A B} (m : M A) (k : A -> M B) w b w' :
  bind m k w = (Ok b, w') ->
  exists a w1, m w = (Ok a, w1) /\ k a w1 = (Ok b, w').
Proof.
  unfold bind. destruct (m w) as [[a|e] w1]; intros E.
  - exists a, w1. split; [reflexivity | exact E].
  - discriminate.
Qed.

(** ** The validator keeps only well-formed suggestions *)

Lemma str_in_list_elem (s : string) (l : list string) :
  str_in_list s l = true <-> s ∈ l.
Proof.
  unfold str_in_list. rewrite existsb_exists. split.
  - intros (t & Hin & E). apply String.eqb_eq in E. subst t.
    now apply list_elem_of_In.
  - intros Hin. exists s. split; [now apply list_elem_of_In | apply String.eqb_refl].
Qed.

Lemma str_set_member_some (v : pyvalue) (names : list string) (n : string) :
  str_set_member v names = Ok (Some n) -> v = PyStr n /\ n ∈ names.
Proof.
  intros E. destruct v; simpl in E; try discriminate.
  case_bool_decide; inversion E; subst; auto.
Qed.

Section validator.
Context `{Platform}.

(** An accepted candidate: what its entry and its key are. *)
Lemma validate_item_accept cols seen item key entry :
  validate_item cols seen item = Ok (Some (key, entry)) ->
  exists ct vx vy desc,
    key = (ct, vx, vy) /\ entry = suggestion ct vx vy desc /\
    (exists xn, vx = PyStr xn /\ xn ∈ cols) /\
    (vy = PyNone \/ exists yn, vy = PyStr yn /\ yn ∈ cols) /\
    ct ∈ chart_types /\
    (ct = "scatter" \/ ct = "line" -> vy <> PyNone) /\
    existsb (key_eqb key) seen = false.
Proof.
  intros E. unfold validate_item in E.
  destruct item as [| | | | |l|d]; try discriminate.
  set (ct := str_lower (str_strip (py_str (dict_get d "chart_type" (PyStr ""))))) in E.
  set (vx := dict_get d "x" PyNone) in E. set (vy := dict_get d "y" PyNone) in E.
  set (desc := dict_get d "description" (PyStr "")) in E.
  destruct (String.eqb ct "" || is_none vx); [discriminate|].
  destruct (str_set_member vx cols) as [[xn|]|] eqn:Ex; try discriminate.
  apply str_set_member_some in Ex.
  destruct (is_none vy) eqn:Ny.
  - destruct (str_in_list ct ["scatter"; "line"]) eqn:Esl;
      cbn [andb negb] in E; [discriminate|].
    destruct (str_in_list ct chart_types) eqn:Ect; cbn [negb] in E; [|discriminate].
    destruct (existsb (key_eqb (ct, vx, vy)) seen) eqn:Eseen; [discriminate|].
    inversion E; subst key entry. exists ct, vx, vy, desc.
    repeat split; eauto.
    + left. destruct vy; try discriminate; reflexivity.
    + now apply str_in_list_elem.
    + intros Hsl. exfalso. assert (str_in_list ct ["scatter"; "line"] = true).
      { destruct Hsl as [Hsl|Hsl]; rewrite Hsl; reflexivity. }
      congruence.
  - destruct (str_set_member vy cols) as [[yn|]|] eqn:Ey; try discriminate.
    apply str_set_member_some in Ey. rewrite andb_false_r in E.
    destruct (str_in_list ct chart_types) eqn:Ect; cbn [negb] in E; [|discriminate].
    destruct (existsb (key_eqb (ct, vx, vy)) seen) eqn:Eseen; [discriminate|].
    inversion E; subst key entry. exists ct, vx, vy, desc.
    repeat split; eauto.
    + now apply str_in_list_elem.
    + intros _ Hn. rewrite Hn in Ny. discriminate.
Qed.

Lemma loop_inv_step cols seen cleaned item key entry :
  loop_inv cols seen cleaned ->
  validate_item cols seen item = Ok (Some (key, entry)) ->
  loop_inv cols (seen ++ [key]) (cleaned ++ [entry]).
Proof.
  intros [[Hall Hnd] Hseen] Hacc.
  apply validate_item_accept in Hacc
    as (ct & vx & vy & desc & -> & -> & Hx & Hy & Hct & Hsl & Hnew).
  assert (Ht : triple (suggestion ct vx vy desc) = (PyStr ct, vx, vy)) by reflexivity.
  repeat split.
  - apply Forall_app. split; [exact Hall|]. constructor; [|constructor]. split.
    + split; [exact Hx | exact Hy].
    + exists ct. repeat split; [exact Hct | exact Hsl].
  - rewrite map_app. simpl. rewrite Ht. apply NoDup_app. repeat split.
    + exact Hnd.
    + intros t Hin Hin'. apply list_elem_of_singleton in Hin'. subst t.
      rewrite <- Hseen in Hin. apply list_elem_of_fmap in Hin as ([[ct' vx'] vy'] & Ek & Hk).
      simpl in Ek. inversion Ek; subst ct' vx' vy'.
      assert (Hrefl : key_eqb (ct, vx, vy) (ct, vx, vy) = true).
      { simpl. rewrite String.eqb_refl. destruct Hx as (xn & -> & _). simpl.
        rewrite String.eqb_refl.
        destruct Hy as [-> | (yn & -> & _)]; simpl; [reflexivity | apply String.eqb_refl]. }
      assert (existsb (key_eqb (ct, vx, vy)) seen = true).
      { apply existsb_exists. exists (ct, vx, vy). split; [|exact Hrefl].
        now apply list_elem_of_In. }
      congruence.
    + apply NoDup_singleton.
  - rewrite !map_app. simpl. rewrite Ht, Hseen. reflexivity.
Qed.

Lemma manual_clean_loop_inv cols items seen cleaned :
  loop_inv cols seen cleaned ->
  match manual_viz_service.clean_loop cols items seen cleaned with
  | Ok out => well_formed cols out
  | Raise _ => True
  end.
Proof.
  revert seen cleaned. induction items as [|item rest IH]; intros seen cleaned Hinv.
  - simpl. apply Hinv.
  - simpl. destruct (validate_item cols seen item) as [[[key entry]|]|e] eqn:E.
    + apply IH. eapply loop_inv_step; eauto.
    + now apply IH.
    + exact I.
Qed.

Lemma ai_clean_loop_inv max_per_sheet cols items seen cleaned :
  loop_inv cols seen cleaned ->
  match viz_service.clean_loop max_per_sheet cols items seen cleaned with
  | Ok out => well_formed cols out
  | Raise _ => True
  end.
Proof.
  revert seen cleaned. induction items as [|item rest IH]; intros seen cleaned Hinv.
  - simpl. apply Hinv.
  - simpl. destruct (validate_item cols seen item) as [[[key entry]|]|e] eqn:E.
    + pose proof (loop_inv_step _ _ _ _ _ _ Hinv E) as Hstep.
      destruct (max_per_sheet <=? length (cleaned ++ [entry]))%nat.
      * apply Hstep.
      * now apply IH.
    + now apply IH.
    + exact I.
Qed.

Lemma loop_inv_nil cols : loop_inv cols [] [].
Proof. repeat split; simpl; constructor. Qed.

(** C1: whatever the raw candidates are, when the validator of either
    service returns a list, every entry of it names columns of the table
    (x, and y unless it is None), has one of the five chart types, has a y
    if it is a scatter or a line, and no two entries have the same
    (chart_type, x, y). *)
Theorem validated_suggestions_well_formed (t : table) (raw : pyvalue) :
  match manual_viz_service._clean_and_validate_suggestions t raw with
  | Ok out => well_formed (df_columns t) out
  | Raise _ => True
  end /\
  (forall max_per_sheet,
     match viz_service._clean_and_validate_suggestions t raw max_per_sheet with
     | Ok out => well_formed (df_columns t) out
     | Raise _ => True
     end).
Proof.
  assert (Hnil : well_formed (df_columns t) []) by apply loop_inv_nil.
  split; [|intros max_per_sheet];
    unfold manual_viz_service._clean_and_validate_suggestions,
           viz_service._clean_and_validate_suggestions;
    destruct raw as [| | | | |[|item items]|]; try exact Hnil.
  - apply manual_clean_loop_inv, loop_inv_nil.
  - apply ai_clean_loop_inv, loop_inv_nil.
Qed.

End validator.

(** ** The store of DataFrame objects *)

Lemma set_frames_id w : set_frames (frames w) w = w.
Proof. now destruct w. Qed.

Lemma df_read_some r t w : frames w !! r = Some t -> df_read r w = (Ok t, w).
Proof. intros E. unfold df_read. now rewrite E. Qed.

Lemma df_getitem_some_iff (t : table) (col : string) :
  col ∈ df_columns t <-> exists s, df_getitem t col = Some s.
Proof.
  induction t as [|c t IH]; simpl.
  - split; [intros Hin; inversion Hin | intros [s Hs]; discriminate].
  - destruct (String.eqb (col_name c) col) eqn:E.
    + apply String.eqb_eq in E. subst col. split; [eauto | intros _; left].
    + apply String.eqb_neq in E. rewrite elem_of_cons, IH.
      split; [intros [->|Hs]; [congruence | exact Hs] | auto].
Qed.

Lemma df_setitem_same (t : table) (col : string) (s : series) :
  df_getitem t col = Some s -> df_setitem t col s = t.
Proof.
  induction t as [|c t IH]; simpl; [discriminate|].
  destruct (String.eqb (col_name c) col) eqn:E.
  - apply String.eqb_eq in E. intros Hs. inversion Hs; subst. now destruct c.
  - intros Hs. now rewrite IH.
Qed.

Lemma df_setitem_columns (t : table) (col : string) (s : series) :
  col ∈ df_columns t -> df_columns (df_setitem t col s) = df_columns t.
Proof.
  induction t as [|c t IH]; simpl.
  - intros Hin. inversion Hin.
  - destruct (String.eqb (col_name c) col) eqn:E.
    + apply String.eqb_eq in E. now subst col.
    + apply String.eqb_neq in E. intros Hin. apply elem_of_cons in Hin.
      destruct Hin as [->|Hin]; [congruence|]. simpl. now rewrite IH.
Qed.

Lemma df_assign_run r col s t w :
  frames w !! r = Some t ->
  df_assign r col s w = (Ok tt, set_frames (<[r := df_setitem t col s]> (frames w)) w).
Proof. intros E. unfold df_assign. now rewrite (bind_ok _ _ _ _ _ (df_read_some _ _ _ E)). Qed.

Lemma df_copy_run r t w :
  frames w !! r = Some t ->
  df_copy r w = (Ok (length (frames w)), set_frames (frames w ++ [t]) w).
Proof. intros E. unfold df_copy. now rewrite (bind_ok _ _ _ _ _ (df_read_some _ _ _ E)). Qed.

Lemma df_copy_none r w :
  frames w !! r = None ->
  df_copy r w = (Raise (Exception "dangling DataFrame reference"), w).
Proof. intros E. unfold df_copy, bind, df_read. now rewrite E. Qed.

Lemma lookup_fresh (F : list table) (t : table) : (F ++ [t]) !! length F = Some t.
Proof. now rewrite list_lookup_middle. Qed.

Lemma insert_fresh (F : list table) (t t' : table) :
  <[length F := t']> (F ++ [t]) = F ++ [t'].
Proof.
  rewrite insert_app_r_alt by lia. now replace (length F - length F)%nat with 0%nat by lia.
Qed.

(** ** The date pre-pass, as a function of the table *)

Section prepare.
Context `{Platform}.

Lemma coerce_step_columns t col : df_columns (coerce_step t col) = df_columns t.
Proof.
  unfold coerce_step. destruct (df_getitem t col) eqn:E; [|reflexivity].
  apply df_setitem_columns, df_getitem_some_iff. eauto.
Qed.

Lemma fold_coerce_columns cols t :
  df_columns (fold_left coerce_step cols t) = df_columns t.
Proof.
  revert t. induction cols as [|c cols IH]; intros t; simpl; [reflexivity|].
  now rewrite IH, coerce_step_columns.
Qed.

Lemma prepared_columns t : df_columns (prepared t) = df_columns t.
Proof. apply fold_coerce_columns. Qed.

Lemma coerce_column_run df col t w :
  frames w !! df = Some t -> col ∈ df_columns t ->
  manual_viz_service.coerce_column df col w =
    (Ok tt, set_frames (<[df := coerce_step t col]> (frames w)) w).
Proof.
  intros Ht Hcol. apply df_getitem_some_iff in Hcol as [s Hs].
  assert (Hsame : (Ok tt, w) =
                  (Ok tt, set_frames (<[df := df_setitem t col s]> (frames w)) w)).
  { rewrite (df_setitem_same _ _ _ Hs), (list_insert_id _ _ _ Ht), set_frames_id.
    reflexivity. }
  unfold manual_viz_service.coerce_column, coerce_step, coerced.
  rewrite (bind_ok _ _ _ _ _ (df_read_some _ _ _ Ht)), Hs.
  destruct (s_dtype s); try exact Hsame.
  unfold try_except, bind, lift.
  destruct (pd_to_datetime s) as [parsed|e]; [|exact Hsame].
  destruct ((0 <? series_count s) && (7 * series_count s <=? 10 * series_count parsed)).
  - now rewrite (df_assign_run _ _ _ _ _ Ht).
  - exact Hsame.
Qed.

Lemma prepare_loop df cols : forall t w,
  frames w !! df = Some t -> (forall c, c ∈ cols -> c ∈ df_columns t) ->
  for_each cols (manual_viz_service.coerce_column df) w =
    (Ok tt, set_frames (<[df := fold_left coerce_step cols t]> (frames w)) w).
Proof.
  induction cols as [|c cols IH]; intros t w Ht Hcols; simpl.
  - unfold ret. now rewrite (list_insert_id _ _ _ Ht), set_frames_id.
  - assert (Hlt : (df < length (frames w))%nat) by (eapply lookup_lt_Some; eauto).
    rewrite (bind_ok _ _ _ _ _ (coerce_column_run df c t w Ht (Hcols c ltac:(left)))).
    rewrite (IH (coerce_step t c)).
    + simpl. now rewrite list_insert_insert_eq.
    + simpl. now apply list_lookup_insert_eq.
    + intros c' Hc'. rewrite coerce_step_columns. apply Hcols. now right.
Qed.

(** The pre-pass makes one new object, holding [prepared t], and returns
    it; nothing else changes. *)
Lemma prepare_run df t w :
  frames w !! df = Some t ->
  manual_viz_service._prepare_df_for_viz df w =
    (Ok (length (frames w)), set_frames (frames w ++ [prepared t]) w).
Proof.
  intros Ht. unfold manual_viz_service._prepare_df_for_viz.
  rewrite (bind_ok _ _ _ _ _ (df_copy_run _ _ _ Ht)).
  set (w1 := set_frames (frames w ++ [t]) w).
  assert (H1 : frames w1 !! length (frames w) = Some t) by apply lookup_fresh.
  rewrite (bind_ok _ _ _ _ _ (df_read_some _ _ _ H1)).
  rewrite (bind_ok _ _ _ _ _ (prepare_loop _ _ t w1 H1 (fun c Hc => Hc))).
  unfold ret, w1. simpl. now rewrite insert_fresh.
Qed.

Lemma prepare_dangling df w :
  frames w !! df = None ->
  manual_viz_service._prepare_df_for_viz df w =
    (Raise (Exception "dangling DataFrame reference"), w).
Proof.
  intros Ht. unfold manual_viz_service._prepare_df_for_viz.
  now rewrite (bind_raise _ _ _ _ _ (df_copy_none _ _ Ht)).
Qed.

End prepare.

(** ** Code that only adds DataFrame objects *)

Lemma grows_refl w : grows w w.
Proof. split; reflexivity. Qed.

Lemma grows_trans w1 w2 w3 : grows w1 w2 -> grows w2 w3 -> grows w1 w3.
Proof. intros [P1 E1] [P2 E2]. split; [now transitivity (frames w2) | congruence]. Qed.

Lemma frame_safe_ret {A} (a : A) : frame_safe (ret a).
Proof. intros w. apply grows_refl. Qed.

Lemma frame_safe_raise {A} e : frame_safe (@raise A e).
Proof. intros w. apply grows_refl. Qed.

Lemma frame_safe_lift {A} (r : result A) : frame_safe (lift r).
Proof. intros w. apply grows_refl. Qed.

Lemma frame_safe_gets {A} (f : world -> A) : frame_safe (gets f).
Proof. intros w. apply grows_refl. Qed.

Lemma frame_safe_bind {A B} (m : M A) (k : A -> M B) :
  frame_safe m -> (forall a, frame_safe (k a)) -> frame_safe (bind m k).
Proof.
  intros Hm Hk w. unfold bind. specialize (Hm w).
  destruct (m w) as [[a|e] w1]; simpl in *; [|exact Hm].
  eapply grows_trans; [exact Hm | apply Hk].
Qed.

Lemma frame_safe_try {A} (body : M A) (handler : exn -> M A) :
  frame_safe body -> (forall e, frame_safe (handler e)) ->
  frame_safe (try_except body handler).
Proof.
  intros Hm Hk w. unfold try_except. specialize (Hm w).
  destruct (body w) as [[a|e] w1]; simpl in *; [exact Hm|].
  eapply grows_trans; [exact Hm | apply Hk].
Qed.

Lemma frame_safe_for_each {A} (l : list A) (body : A -> M unit) :
  (forall a, frame_safe (body a)) -> frame_safe (for_each l body).
Proof.
  intros Hb. induction l as [|a l IH]; simpl.
  - apply frame_safe_ret.
  - apply frame_safe_bind; auto.
Qed.

Lemma frame_safe_for_fold {A S} (l : list A) (body : S -> A -> M S) :
  (forall s a, frame_safe (body s a)) -> forall s, frame_safe (for_fold l s body).
Proof.
  intros Hb. induction l as [|a l IH]; intros s; simpl.
  - apply frame_safe_ret.
  - apply frame_safe_bind; auto.
Qed.

Lemma frame_safe_in_worker {A} (m : M A) : frame_safe (in_worker m).
Proof. intros w. apply grows_refl. Qed.

Lemma frame_safe_executor_map {A B} (f : A -> M B) (tasks : list A) :
  frame_safe (executor_map f tasks).
Proof.
  induction tasks as [|task rest IH]; simpl.
  - apply frame_safe_ret.
  - apply frame_safe_bind; [apply frame_safe_in_worker|]. intros r.
    apply frame_safe_bind; [exact IH|]. intros rs. apply frame_safe_ret.
Qed.

Lemma frame_safe_modify (f : world -> world) :
  (forall w, frames (f w) = frames w /\ EXCEL_CACHE (f w) = EXCEL_CACHE w) ->
  frame_safe (modify f).
Proof. intros Hf w. simpl. destruct (Hf w) as [E1 E2]. split; [now rewrite E1 | exact E2]. Qed.

Lemma frame_safe_df_read r : frame_safe (df_read r).
Proof. intros w. unfold df_read. destruct (frames w !! r); apply grows_refl. Qed.

Lemma frame_safe_df_copy r : frame_safe (df_copy r).
Proof.
  intros w. destruct (frames w !! r) as [t|] eqn:E.
  - rewrite (df_copy_run _ _ _ E). split; [now apply prefix_app_r | reflexivity].
  - rewrite (df_copy_none _ _ E). apply grows_refl.
Qed.

Lemma frame_safe_plt_figure : frame_safe plt_figure.
Proof. apply frame_safe_modify. now intros w. Qed.

Lemma frame_safe_plt_close : frame_safe plt_close.
Proof. apply frame_safe_modify. now intros w. Qed.

Lemma frame_safe_get_cached sid mode :
  frame_safe (viz_cache.get_cached_visualizations sid mode).
Proof.
  unfold viz_cache.get_cached_visualizations.
  repeat case_match; (apply frame_safe_gets || apply frame_safe_ret).
Qed.

Lemma frame_safe_store sid data mode :
  frame_safe (viz_cache.store_visualizations sid data mode).
Proof.
  unfold viz_cache.store_visualizations.
  repeat case_match;
    first [apply frame_safe_raise | apply frame_safe_ret
          | apply frame_safe_modify; now intros w].
Qed.

Lemma frame_safe_get_sheet_df sid sheet : frame_safe (get_sheet_df sid sheet).
Proof.
  unfold get_sheet_df. apply frame_safe_bind; [apply frame_safe_gets|].
  intros sheets. repeat case_match; (apply frame_safe_raise || apply frame_safe_ret).
Qed.

Create HintDb frame discriminated.
#[export] Hint Resolve frame_safe_ret frame_safe_raise frame_safe_lift
  frame_safe_gets frame_safe_in_worker frame_safe_executor_map
  frame_safe_df_read frame_safe_df_copy frame_safe_plt_figure
  frame_safe_plt_close frame_safe_get_cached frame_safe_store
  frame_safe_get_sheet_df : frame.

(** One step through code made of binds, branches and loops. *)
Ltac frame_step :=
  match goal with
  | |- frame_safe (bind _ _) => apply frame_safe_bind; [|intros ?]
  | |- frame_safe (try_except _ _) => apply frame_safe_try; [|intros ?]
  | |- frame_safe (for_each _ _) => apply frame_safe_for_each; intros ?
  | |- frame_safe (for_fold _ _ _) => apply frame_safe_for_fold; intros ? ?
  | |- frame_safe (match ?v with _ => _ end) => destruct v
  | |- frame_safe _ => solve [auto with frame]
  end.

Section frames.
Context `{Platform}.

Lemma frame_safe_prepare df : frame_safe (manual_viz_service._prepare_df_for_viz df).
Proof.
  intros w. destruct (frames w !! df) as [t|] eqn:E.
  - rewrite (prepare_run _ _ _ E). split; [now apply prefix_app_r | reflexivity].
  - rewrite (prepare_dangling _ _ E). apply grows_refl.
Qed.

(** The one place where the renderer writes to a table: a copy made for
    the purpose. *)
Lemma frame_safe_format_copy df x sx (k : nat -> M (option plot)) :
  (forall temp, frame_safe (k temp)) ->
  frame_safe (temp <- df_copy df ;;
              formatted <- lift (dt_strftime sx) ;;
              df_assign temp x formatted ;;
              k temp).
Proof.
  intros Hk w. destruct (frames w !! df) as [t|] eqn:E.
  - rewrite (bind_ok _ _ _ _ _ (df_copy_run _ _ _ E)).
    set (w1 := set_frames (frames w ++ [t]) w).
    assert (G1 : grows w w1) by (split; [now apply prefix_app_r | reflexivity]).
    unfold bind at 1, lift. destruct (dt_strftime sx) as [formatted|e]; [|exact G1].
    assert (H1 : frames w1 !! length (frames w) = Some t) by apply lookup_fresh.
    rewrite (bind_ok _ _ _ _ _ (df_assign_run _ x formatted _ _ H1)).
    eapply grows_trans; [|apply Hk]. simpl. rewrite insert_fresh.
    split; [now apply prefix_app_r | reflexivity].
  - rewrite (bind_raise _ _ _ _ _ (df_copy_none _ _ E)). apply grows_refl.
Qed.

Lemma frame_safe_draw df ct x y : frame_safe (manual_viz_service.draw df ct x y).
Proof.
  unfold manual_viz_service.draw.
  apply frame_safe_bind; [auto with frame|]. intros t.
  destruct (df_getitem t x) as [sx|]; [|auto with frame].
  repeat match goal with
         | |- frame_safe (if ?b then _ else _) => destruct b
         | |- frame_safe (match ?v with _ => _ end) => destruct v
         | |- frame_safe (bind (df_copy _) _) =>
             apply frame_safe_format_copy; intros ?
         | |- _ => frame_step
         end.
Qed.

Lemma frame_safe_generate_chart df ct vx vy :
  frame_safe (manual_viz_service.generate_chart df ct vx vy).
Proof.
  pose proof frame_safe_draw.
  unfold manual_viz_service.generate_chart, manual_viz_service.draw_and_save.
  repeat frame_step.
Qed.

Lemma frame_safe_manual_suggestions df :
  frame_safe (manual_viz_service._get_viz_suggestions_for_df df).
Proof.
  pose proof frame_safe_prepare.
  unfold manual_viz_service._get_viz_suggestions_for_df. repeat frame_step.
Qed.

Lemma frame_safe_ask_llm df : frame_safe (viz_service.ask_llm_for_visualizations df).
Proof.
  unfold viz_service.ask_llm_for_visualizations.
  repeat first [apply frame_safe_modify; now intros w | frame_step].
Qed.

Lemma frame_safe_ai_suggestions df :
  frame_safe (viz_service._get_viz_suggestions_for_df df).
Proof.
  pose proof frame_safe_prepare. pose proof frame_safe_ask_llm.
  unfold viz_service._get_viz_suggestions_for_df, viz_service._prepare_df_for_viz.
  repeat frame_step.
Qed.

Lemma frame_safe_collect acc r : frame_safe (manual_viz_service.collect acc r).
Proof. unfold manual_viz_service.collect. repeat frame_step. Qed.

Lemma frame_safe_manual_all sid filters :
  frame_safe (manual_viz_service.suggest_visualizations_for_all_sheets sid filters).
Proof.
  pose proof frame_safe_prepare. pose proof frame_safe_manual_suggestions.
  pose proof frame_safe_collect.
  unfold manual_viz_service.suggest_visualizations_for_all_sheets,
         manual_viz_service.build_tasks.
  repeat frame_step.
Qed.

Lemma frame_safe_ai_all sid filters :
  frame_safe (viz_service.suggest_visualizations_for_all_sheets sid filters).
Proof.
  pose proof frame_safe_prepare. pose proof frame_safe_ai_suggestions.
  pose proof frame_safe_collect.
  unfold viz_service.suggest_visualizations_for_all_sheets,
         viz_service.build_tasks, viz_service._prepare_df_for_viz.
  repeat frame_step.
Qed.

Lemma frame_safe_ai_one sid sheet :
  frame_safe (viz_service.suggest_visualizations sid sheet).
Proof.
  pose proof frame_safe_prepare. pose proof frame_safe_ai_suggestions.
  pose proof frame_safe_generate_chart.
  unfold viz_service.suggest_visualizations, viz_service._prepare_df_for_viz,
         viz_service.generate_chart.
  repeat frame_step.
Qed.

End frames.

(** ** The copy and the stored tables *)

Lemma grows_kept w w' : grows w w' -> stored_tables_kept w w'.
Proof.
  intros [P E]. split; [|exact E]. intros r t Hr.
  eapply prefix_lookup_Some; eauto.
Qed.

Lemma df_getitem_app_skip (pre rest : table) (col : string) :
  col ∉ df_columns pre -> df_getitem (pre ++ rest) col = df_getitem rest col.
Proof.
  induction pre as [|c pre IH]; simpl; [reflexivity|]. intros Hnot.
  apply not_elem_of_cons in Hnot as [Hne Hnot].
  destruct (String.eqb (col_name c) col) eqn:E.
  - apply String.eqb_eq in E. congruence.
  - now apply IH.
Qed.

Lemma df_setitem_app_skip (pre rest : table) (col : string) (s : series) :
  col ∉ df_columns pre ->
  df_setitem (pre ++ rest) col s = pre ++ df_setitem rest col s.
Proof.
  induction pre as [|c pre IH]; simpl; [reflexivity|]. intros Hnot.
  apply not_elem_of_cons in Hnot as [Hne Hnot].
  destruct (String.eqb (col_name c) col) eqn:E.
  - apply String.eqb_eq in E. congruence.
  - now rewrite IH.
Qed.

Section copies.
Context `{Platform}.

Lemma fold_coerce_map (rest : table) : forall pre : table,
  NoDup (df_columns (pre ++ rest)) ->
  fold_left coerce_step (df_columns rest) (pre ++ rest) =
    pre ++ map coerced_column rest.
Proof.
  induction rest as [|c rest IH]; intros pre Hnd; simpl; [reflexivity|].
  assert (Hnot : col_name c ∉ df_columns pre).
  { unfold df_columns in Hnd. rewrite map_app in Hnd. simpl in Hnd.
    apply NoDup_app in Hnd as (_ & Hdisj & _). intros Hin.
    apply (Hdisj _ Hin). left. }
  assert (Hstep : coerce_step (pre ++ c :: rest) (col_name c) =
                  (pre ++ [coerced_column c]) ++ rest).
  { unfold coerce_step. rewrite df_getitem_app_skip by exact Hnot. simpl.
    rewrite String.eqb_refl, df_setitem_app_skip by exact Hnot. simpl.
    rewrite String.eqb_refl. now rewrite <- app_assoc. }
  rewrite Hstep, IH.
  - now rewrite <- app_assoc.
  - unfold df_columns in *. rewrite <- app_assoc. simpl.
    rewrite !map_app in *. exact Hnd.
Qed.

Lemma prepared_map (t : table) :
  NoDup (df_columns t) -> prepared t = map coerced_column t.
Proof. intros Hnd. apply (fold_coerce_map t []). exact Hnd. Qed.

(** C8: the pre-pass, the renderer and the suggestion calls of both
    services leave every DataFrame object that existed before the call with
    the columns and cells it had, and the sessions with the sheets they
    had, whatever the call returns or raises. The pre-pass returns a new
    object; for a table with distinct column names that copy holds, column
    by column, [coerced_column] of the stored table. *)
Theorem stored_tables_never_mutated (w : world) :
  (forall df, stored_tables_kept w
                (snd (manual_viz_service._prepare_df_for_viz df w))) /\
  (forall df, stored_tables_kept w (snd (viz_service._prepare_df_for_viz df w))) /\
  (forall df ct vx vy,
     stored_tables_kept w (snd (manual_viz_service.generate_chart df ct vx vy w))) /\
  (forall df ct vx vy,
     stored_tables_kept w (snd (viz_service.generate_chart df ct vx vy w))) /\
  (forall sid sheet,
     stored_tables_kept w (snd (viz_service.suggest_visualizations sid sheet w))) /\
  (forall m sid filters,
     stored_tables_kept w (snd (suggest_all_sheets m sid filters w))) /\
  (forall df t,
     frames w !! df = Some t -> NoDup (df_columns t) ->
     exists copy w',
       manual_viz_service._prepare_df_for_viz df w = (Ok copy, w') /\
       frames w !! copy = None /\
       frames w' !! copy = Some (map coerced_column t)).
Proof.
  split; [intros; apply grows_kept, frame_safe_prepare|].
  split; [intros; apply grows_kept, frame_safe_prepare|].
  split; [intros; apply grows_kept, frame_safe_generate_chart|].
  split; [intros; apply grows_kept, frame_safe_generate_chart|].
  split; [intros; apply grows_kept, frame_safe_ai_one|].
  split.
  - intros m sid filters. apply grows_kept.
    destruct m; [apply frame_safe_manual_all | apply frame_safe_ai_all].
  - intros df t Ht Hnd. eexists _, _. split; [apply (prepare_run _ _ _ Ht)|]. split.
    + apply lookup_ge_None. lia.
    + simpl. rewrite lookup_fresh. now rewrite prepared_map.
Qed.

End copies.

(** ** The render cache *)

Lemma get_cached_run (m : mode) sid w :
  viz_cache.get_cached_visualizations sid (mode_name m) w =
    (Ok (cache_of m w !! sid), w).
Proof. now destruct m. Qed.

Lemma store_run (m : mode) sid data w :
  exists w', viz_cache.store_visualizations sid data (Some (mode_name m)) w = (Ok tt, w') /\
             cache_of m w' !! sid = Some data.
Proof.
  destruct m; eexists; (split; [reflexivity|]); simpl; apply lookup_insert_eq.
Qed.

(** C10: for a mode other than "manual" and "ai",
    [get_cached_visualizations] returns [None] and [store_visualizations]
    returns without raising; both leave the world, and so both cache
    namespaces, as they were. *)
Theorem unknown_mode_is_noop (session_id mode : string) (data : viz_map)
    (w : world) :
  mode <> "manual" -> mode <> "ai" ->
  viz_cache.get_cached_visualizations session_id mode w = (Ok None, w) /\
  viz_cache.store_visualizations session_id data (Some mode) w = (Ok tt, w).
Proof.
  intros Hm Ha.
  unfold viz_cache.get_cached_visualizations, viz_cache.store_visualizations.
  apply String.eqb_neq in Hm, Ha. rewrite Hm, Ha. split; reflexivity.
Qed.

Lemma adict_set_nonempty {V} (d : list (string * V)) k v : adict_set d k v <> [].
Proof. destruct d as [|[k' v'] d]; simpl; [discriminate|]. now destruct (String.eqb k' k). Qed.

Lemma executor_map_length {A B} (f : A -> M B) (tasks : list A) w results w' :
  executor_map f tasks w = (Ok results, w') -> length results = length tasks.
Proof.
  revert w results w'. induction tasks as [|task rest IH]; intros w results w' E; simpl in E.
  - now inversion E.
  - apply bind_inv_ok in E as (r & w1 & _ & E).
    apply bind_inv_ok in E as (rs & w2 & Ers & E).
    inversion E; subst. simpl. f_equal. eauto.
Qed.

Section cache.
Context `{Platform}.

Lemma collect_nonempty acc r w final w' :
  manual_viz_service.collect acc r w = (Ok final, w') -> final <> [].
Proof.
  unfold manual_viz_service.collect. intros E.
  apply bind_inv_ok in E as (v & w1 & _ & E). inversion E.
  apply adict_set_nonempty.
Qed.

Lemma collect_all_nonempty results : forall acc w final w',
  for_fold results acc manual_viz_service.collect w = (Ok final, w') ->
  results <> [] \/ acc <> [] -> final <> [].
Proof.
  induction results as [|r results IH]; intros acc w final w' E Hne; simpl in E.
  - inversion E; subst. now destruct Hne.
  - apply bind_inv_ok in E as (acc' & w1 & Ec & E).
    eapply IH; [exact E|]. right. eapply collect_nonempty; eauto.
Qed.

(** Steps 3 to 5, and the branch for no task: a call that returns has
    stored what it returns, and that is not the empty mapping. *)
Lemma render_and_store_ok (m : mode) sid (tasks : list manual_viz_service.task)
    w r w' :
  match tasks with
  | [] => viz_cache.store_visualizations sid [] None ;; ret []
  | _ :: _ =>
      results <- executor_map manual_viz_service._render_chart_process tasks ;;
      final_result <- for_fold results [] manual_viz_service.collect ;;
      viz_cache.store_visualizations sid final_result (Some (mode_name m)) ;;
      ret final_result
  end w = (Ok r, w') ->
  r <> [] /\ cache_of m w' !! sid = Some r.
Proof.
  destruct tasks as [|task tasks]; intros E.
  - apply bind_inv_ok in E as (u & w1 & E & _). discriminate.
  - apply bind_inv_ok in E as (results & w1 & Er & E).
    apply bind_inv_ok in E as (final & w2 & Ef & E).
    apply bind_inv_ok in E as (u & w3 & Es & E). inversion E; subst. split.
    + eapply collect_all_nonempty; [exact Ef|]. left.
      apply executor_map_length in Er. destruct results; [discriminate | discriminate].
    + destruct (store_run m sid r w2) as (w4 & Es' & Hc).
      rewrite Es in Es'. inversion Es'; subst. exact Hc.
Qed.

Lemma all_sheets_ok_stored (m : mode) sid filters w r w' :
  suggest_all_sheets m sid filters w = (Ok r, w') ->
  r <> [] /\ cache_of m w' !! sid = Some r.
Proof.
  intros E. destruct m; simpl in E;
    [unfold manual_viz_service.suggest_visualizations_for_all_sheets in E
    |unfold viz_service.suggest_visualizations_for_all_sheets in E].
  all: apply bind_inv_ok in E as (cached & w1 & Ec & E).
  1: rewrite (get_cached_run manual) in Ec.
  2: rewrite (get_cached_run ai) in Ec.
  all: inversion Ec; subst cached w1; clear Ec.
  all: assert (Hcompute : forall (build : list manual_viz_service.task ->
                                           string * nat -> M (list manual_viz_service.task))
                                  (mm : mode),
      (sheet_dfs <- gets (fun w => EXCEL_CACHE w !! sid) ;;
       match sheet_dfs with
       | Some ((_ :: _) as sheet_dfs) =>
           tasks <- for_fold sheet_dfs [] build ;;
           match tasks with
           | [] => viz_cache.store_visualizations sid [] None ;; ret []
           | _ :: _ =>
               results <- executor_map manual_viz_service._render_chart_process tasks ;;
               final_result <- for_fold results [] manual_viz_service.collect ;;
               viz_cache.store_visualizations sid final_result (Some (mode_name mm)) ;;
               ret final_result
           end
       | _ => raise (KeyError "Sheets not loaded.")
       end) w = (Ok r, w') -> r <> [] /\ cache_of mm w' !! sid = Some r).
  1,3: intros build mm E'; apply bind_inv_ok in E' as (sheets & w1 & Es & E');
       destruct sheets as [[|sheet sheets]|]; try discriminate;
       apply bind_inv_ok in E' as (tasks & w2 & Et & E');
       now apply render_and_store_ok in E'.
  - destruct (VIZ_CACHE_MANUAL w !! sid) as [[|entry cached]|] eqn:Ecache.
    + now apply (Hcompute _ manual) in E.
    + inversion E; subst. split; [discriminate | exact Ecache].
    + now apply (Hcompute _ manual) in E.
  - destruct (VIZ_CACHE_AI w !! sid) as [[|entry cached]|] eqn:Ecache.
    + now apply (Hcompute _ ai) in E.
    + inversion E; subst. split; [discriminate | exact Ecache].
    + now apply (Hcompute _ ai) in E.
Qed.

Lemma all_sheets_cache_hit (m : mode) sid filters w r :
  r <> [] -> cache_of m w !! sid = Some r ->
  suggest_all_sheets m sid filters w = (Ok r, w).
Proof.
  intros Hne Hc. destruct r as [|entry r]; [congruence|]. destruct m; simpl;
    [unfold manual_viz_service.suggest_visualizations_for_all_sheets
    |unfold viz_service.suggest_visualizations_for_all_sheets].
  - now rewrite (bind_ok _ _ _ _ _ (get_cached_run manual sid w)), Hc.
  - now rewrite (bind_ok _ _ _ _ _ (get_cached_run ai sid w)), Hc.
Qed.

(** C3: when a call for a session and a mode returns a result, the next
    call for the same session and mode returns the same result and leaves
    the whole state as it found it: no DataFrame is copied, the oracle
    receives no request, no figure is opened. *)
Theorem second_call_is_cache_hit (m : mode) (sid : string)
    (filters filters' : option (list (string * list string)))
    (w w' : world) (r : viz_map) :
  suggest_all_sheets m sid filters w = (Ok r, w') ->
  suggest_all_sheets m sid filters' w' = (Ok r, w').
Proof.
  intros E. apply all_sheets_ok_stored in E as [Hne Hc].
  now apply all_sheets_cache_hit.
Qed.

End cache.

(** ** The rule-based generator *)

Lemma filter_none {A} (P : A -> Prop) `{forall a, Decision (P a)} (l : list A) :
  (forall a, a ∈ l -> ~ P a) -> filter P l = [].
Proof.
  induction l as [|a l IH]; intros Hl; [reflexivity|].
  rewrite filter_cons_False by (apply Hl; left). apply IH.
  intros b Hb. apply Hl. now right.
Qed.

Lemma filter_all {A} (P : A -> Prop) `{forall a, Decision (P a)} (l : list A) :
  (forall a, a ∈ l -> P a) -> filter P l = l.
Proof.
  induction l as [|a l IH]; intros Hl; [reflexivity|].
  rewrite filter_cons_True by (apply Hl; left). f_equal. apply IH.
  intros b Hb. apply Hl. now right.
Qed.

Lemma adict_set_fresh {V} (d : list (string * V)) (k : string) (v : V) :
  k ∉ map fst d -> adict_set d k v = d ++ [(k, v)].
Proof.
  induction d as [|[k' v'] d IH]; simpl; [reflexivity|]. intros Hnot.
  apply not_elem_of_cons in Hnot as [Hne Hnot].
  destruct (String.eqb k' k) eqn:E.
  - apply String.eqb_eq in E. congruence.
  - now rewrite IH.
Qed.

Lemma column_datatype_tz (col : string) (s : series) :
  tz_aware (s_dtype s) = true ->
  manual_viz_service.column_datatype col s = Raise (cannot_interpret (s_dtype s)).
Proof.
  unfold manual_viz_service.column_datatype. now destruct (s_dtype s).
Qed.

Lemma column_datatype_ok (col : string) (s : series) :
  tz_aware (s_dtype s) = false ->
  exists k, manual_viz_service.column_datatype col s = Ok k.
Proof.
  unfold manual_viz_service.column_datatype. intros Htz.
  destruct (s_dtype s); try discriminate; simpl; eauto;
    repeat match goal with
           | |- context [if ?b then _ else _] => destruct b
           end; eauto.
Qed.

Lemma column_datatype_raise (col : string) (s : series) (e : exn) :
  manual_viz_service.column_datatype col s = Raise e ->
  tz_aware (s_dtype s) = true /\ e = cannot_interpret (s_dtype s).
Proof.
  intros E. destruct (tz_aware (s_dtype s)) eqn:Htz.
  - rewrite (column_datatype_tz col s Htz) in E. split; congruence.
  - destruct (column_datatype_ok col s Htz) as [k Hk]. congruence.
Qed.

Lemma datatype_loop_run (rest : table) : forall acc : list (string * kind),
  NoDup (map fst acc ++ df_columns rest) ->
  manual_viz_service.datatype_loop rest acc =
    match first_tz_aware rest with
    | Some c => Raise (cannot_interpret (s_dtype (col_data c)))
    | None => Ok (acc ++ kinds_of rest)
    end.
Proof.
  unfold first_tz_aware.
  induction rest as [|c rest IH]; intros acc Hnd; simpl.
  - now rewrite app_nil_r.
  - simpl in Hnd. destruct (tz_aware (s_dtype (col_data c))) eqn:Htz.
    + now rewrite (column_datatype_tz _ _ Htz).
    + destruct (column_datatype_ok (col_name c) (col_data c) Htz) as [k Hk].
      rewrite Hk. rewrite adict_set_fresh.
      * rewrite IH.
        -- destruct (List.find _ rest); [reflexivity|]. now rewrite <- app_assoc.
        -- rewrite map_app. simpl. now rewrite <- app_assoc.
      * apply NoDup_app in Hnd as (_ & Hdisj & _). intros Hin.
        apply (Hdisj _ Hin). left.
Qed.

Lemma get_column_datatype_distinct (t : table) :
  NoDup (df_columns t) ->
  manual_viz_service.get_column_datatype t =
    match first_tz_aware t with
    | Some c => Raise (cannot_interpret (s_dtype (col_data c)))
    | None => Ok (kinds_of t)
    end.
Proof. intros Hnd. apply (datatype_loop_run t []). exact Hnd. Qed.

Lemma first_tz_aware_none (t : table) (c : column) :
  first_tz_aware t = None -> c ∈ t -> tz_aware (s_dtype (col_data c)) = false.
Proof.
  unfold first_tz_aware. intros Hf Hc. apply list_elem_of_In in Hc.
  exact (find_none _ _ Hf c Hc).
Qed.

Lemma first_tz_aware_some (t : table) (c : column) :
  first_tz_aware t = Some c -> c ∈ t /\ tz_aware (s_dtype (col_data c)) = true.
Proof.
  unfold first_tz_aware. intros Hf. apply find_some in Hf as [Hc Htz].
  split; [now apply list_elem_of_In | exact Htz].
Qed.

Lemma keys_of_kind (k : kind) (t : table) :
  map fst (filter (fun kv => kind_eqb (snd kv) k = true) (kinds_of t)) =
    columns_of_kind k t.
Proof.
  unfold columns_of_kind, kinds_of, has_kind. induction t as [|c t IH]; [reflexivity|].
  cbn [omap list_omap].
  destruct (manual_viz_service.column_datatype (col_name c) (col_data c)) as [k'|e] eqn:E.
  - destruct (decide (kind_eqb k' k = true)) as [Hk|Hk].
    + rewrite filter_cons_True by exact Hk.
      rewrite filter_cons_True by (now rewrite E). simpl. now rewrite IH.
    + rewrite filter_cons_False by exact Hk.
      rewrite filter_cons_False by (now rewrite E). exact IH.
  - rewrite filter_cons_False by (rewrite E; discriminate). exact IH.
Qed.

Lemma existsb_filter {A} (f : A -> bool) (l : list A) :
  existsb f l = true <-> filter (fun a => f a = true) l <> [].
Proof.
  induction l as [|a l IH]; simpl.
  - split; [discriminate | intros Hf; exfalso; apply Hf; reflexivity].
  - destruct (f a) eqn:E.
    + rewrite filter_cons_True by exact E. split; [discriminate | reflexivity].
    + rewrite filter_cons_False by (rewrite E; discriminate). exact IH.
Qed.

(** C4: take a table with distinct column names. When the Type Inferencer
    annotates it, that is when [get_column_datatype] returns, the generator
    returns a list of proposals whose line proposals are, when exactly one
    column is of kind datetime, one per numerical column, from that
    datetime column to it, in column order, and there is none when no
    column or more than one is of kind datetime; so a table with a
    numerical column gets a line proposal if and only if it has exactly one
    datetime column. When the Type Inferencer raises, which it does for a
    column of a timezone-aware dtype, the table has no annotation and the
    generator raises the same exception. On the table [orders] the
    generator returns the five proposals of [orders_proposals], no two of
    which have the same (chart_type, x, y). *)
Theorem line_proposals_need_one_datetime_column (t : table) :
  NoDup (df_columns t) ->
  match manual_viz_service.get_column_datatype t with
  | Ok _ =>
      exists proposals,
        manual_viz_service.generate_manual_suggestions t = Ok proposals /\
        filter (fun e => is_line e = true) proposals =
          match columns_of_kind datetime t with
          | [d] => map (line_suggestion d) (columns_of_kind numerical t)
          | _ => []
          end /\
        (columns_of_kind numerical t <> [] ->
         (existsb is_line proposals = true <->
          exists d, columns_of_kind datetime t = [d]))
  | Raise e =>
      manual_viz_service.generate_manual_suggestions t = Raise e /\
      exists c, c ∈ t /\ tz_aware (s_dtype (col_data c)) = true /\
                e = cannot_interpret (s_dtype (col_data c))
  end /\
  manual_viz_service.generate_manual_suggestions orders = Ok orders_proposals /\
  NoDup (map triple orders_proposals).
Proof.
  intros Hnd. split; [|split].
  - unfold manual_viz_service.generate_manual_suggestions.
    rewrite (get_column_datatype_distinct t Hnd).
    destruct (first_tz_aware t) as [c|] eqn:Ef.
    + split; [reflexivity|]. exists c.
      destruct (first_tz_aware_some t c Ef) as [Hc Htz]. now repeat split.
    + eexists. split; [reflexivity|].
      match goal with
      | |- ?f ?l = ?r /\ _ => assert (Hlines : f l = r)
      end.
      { rewrite !keys_of_kind, !filter_app.
        rewrite (filter_none _ (flat_map _ (df_columns t))), (filter_none _ (flat_map _ _)).
        - simpl. destruct (columns_of_kind datetime t) as [|d [|d' ds]]; try reflexivity.
          apply filter_all. intros e He. apply list_elem_of_fmap in He as (n & -> & _).
          reflexivity.
        - intros e He. apply list_elem_of_In, in_flat_map in He as (i & _ & He).
          apply list_elem_of_In, list_elem_of_fmap in He as (j & -> & _). discriminate.
        - intros e He. apply list_elem_of_In, in_flat_map in He as (col & _ & He).
          destruct (adict_get (kinds_of t) col) as [[]|]; simpl in He;
            try contradiction; destruct He as [<-|[]]; discriminate. }
      split; [exact Hlines|].
      intros Hnum. rewrite existsb_filter, Hlines.
      destruct (columns_of_kind datetime t) as [|d [|d' ds]].
      * split; [congruence | intros [d Hd]; discriminate].
      * split; [eauto|]. intros _.
        destruct (columns_of_kind numerical t); [congruence | discriminate].
      * split; [congruence | intros [d0 Hd]; discriminate].
  - reflexivity.
  - apply NoDup_ListNoDup. repeat constructor; simpl; intuition discriminate.
Qed.

(** ** The kinds of the statistical summary *)



(** ** Reading the oracle's answer *)

Lemma prefix_char (c : ascii) (s : string) :
  String.prefix (String c "") s =
    match s with String a _ => Ascii.eqb a c | EmptyString => false end.
Proof.
  destruct s as [|a s]; [reflexivity|]. simpl.
  destruct (ascii_dec c a) as [->|Hne].
  - rewrite Ascii.eqb_refl. now destruct s.
  - symmetry. apply Ascii.eqb_neq. congruence.
Qed.

Lemma find_absent (c : ascii) (s : string) : forall i,
  occurs c s = false -> str_find_from (String c "") s i = -1.
Proof.
  induction s as [|a s IH]; intros i Hs; cbn [str_find_from]; rewrite prefix_char.
  - reflexivity.
  - simpl in Hs. apply orb_false_iff in Hs as [-> Hs]. now apply IH.
Qed.

Lemma rfind_absent (c : ascii) (s : string) : forall i,
  occurs c s = false -> str_rfind_from (String c "") s i = -1.
Proof.
  induction s as [|a s IH]; intros i Hs; cbn [str_rfind_from]; rewrite prefix_char.
  - reflexivity.
  - simpl in Hs. apply orb_false_iff in Hs as [-> Hs]. now rewrite IH.
Qed.

Lemma append_nil (s : string) : "" +:+ s = s.
Proof. reflexivity. Qed.

Lemma append_cons (a : ascii) (s1 s2 : string) :
  String a s1 +:+ s2 = String a (s1 +:+ s2).
Proof. reflexivity. Qed.

Lemma find_first (c : ascii) (pre rest : string) : forall i,
  occurs c pre = false ->
  str_find_from (String c "") (pre +:+ String c rest) i
    = i + Z.of_nat (String.length pre).
Proof.
  induction pre as [|a pre IH]; intros i Hpre;
    rewrite ?append_nil, ?append_cons; cbn [str_find_from].
  all: rewrite prefix_char.
  - rewrite Ascii.eqb_refl. simpl. lia.
  - simpl in Hpre. apply orb_false_iff in Hpre as [-> Hpre].
    rewrite IH by exact Hpre. cbn [String.length]. lia.
Qed.

Lemma rfind_last (c : ascii) (pre post : string) : forall i,
  0 <= i -> occurs c post = false ->
  str_rfind_from (String c "") (pre +:+ String c post) i
    = i + Z.of_nat (String.length pre).
Proof.
  induction pre as [|a pre IH]; intros i Hi Hpost;
    rewrite ?append_nil, ?append_cons; cbn [str_rfind_from].
  - rewrite (rfind_absent c post (i + 1) Hpost), prefix_char, Ascii.eqb_refl.
    simpl. lia.
  - rewrite IH by (lia || exact Hpost).
    destruct (Z.eqb_spec (i + 1 + Z.of_nat (String.length pre)) (-1)); [lia|].
    cbn [String.length]. lia.
Qed.

Lemma substring_skip (pre s : string) (n : nat) :
  String.substring (String.length pre) n (pre +:+ s) = String.substring 0 n s.
Proof.
  induction pre as [|a pre IH]; [reflexivity|].
  rewrite append_cons. exact IH.
Qed.

Lemma substring_take (s rest : string) :
  String.substring 0 (String.length s) (s +:+ rest) = s.
Proof.
  induction s as [|a s IH]; [now destruct rest|].
  rewrite append_cons. simpl. now rewrite IH.
Qed.

Lemma length_append (s1 s2 : string) :
  String.length (s1 +:+ s2) = (String.length s1 + String.length s2)%nat.
Proof.
  induction s1 as [|a s1 IH]; [reflexivity|].
  rewrite append_cons. simpl. now rewrite IH.
Qed.

Lemma append_assoc (s1 s2 s3 : string) : (s1 +:+ s2) +:+ s3 = s1 +:+ (s2 +:+ s3).
Proof.
  induction s1 as [|a s1 IH]; [reflexivity|].
  rewrite !append_cons. now rewrite IH.
Qed.

(** The text between the first [a] and the last [b], as the parser cuts
    it out. *)
Lemma between_slice (a b : ascii) (s pre mid post : string) :
  between a b s pre mid post ->
  str_find (String a "") s = Z.of_nat (String.length pre) /\
  str_rfind (String b "") s = Z.of_nat (String.length pre + 1 + String.length mid) /\
  str_slice s (str_find (String a "") s) (str_rfind (String b "") s + 1)
    = String a mid +:+ String b "".
Proof.
  intros (-> & Hpre & Hpost).
  assert (Hf : str_find (String a "") (pre +:+ String a mid +:+ String b post)
               = Z.of_nat (String.length pre)).
  { unfold str_find. change (String a mid +:+ String b post)
      with (String a (mid +:+ String b post)).
    now rewrite find_first. }
  assert (Hr : str_rfind (String b "") (pre +:+ String a mid +:+ String b post)
               = Z.of_nat (String.length pre + 1 + String.length mid)).
  { unfold str_rfind.
    replace (pre +:+ String a mid +:+ String b post)
      with ((pre +:+ String a mid) +:+ String b post) by apply append_assoc.
    rewrite rfind_last by (lia || exact Hpost).
    rewrite length_append. cbn [String.length]. lia. }
  split; [exact Hf|]. split; [exact Hr|].
  rewrite Hf, Hr. unfold str_slice, slice_index.
  assert (Hlen : String.length (pre +:+ String a mid +:+ String b post)
                 = (String.length pre + (S (String.length mid) + S (String.length post)))%nat).
  { rewrite length_append, append_cons. cbn [String.length].
    rewrite length_append. reflexivity. }
  assert (Hcut : String.length (String a mid +:+ String b "")
                 = (String.length mid + 2)%nat).
  { rewrite append_cons. cbn [String.length]. rewrite length_append. simpl. lia. }
  rewrite Hlen.
  destruct (Z.ltb_spec (Z.of_nat (String.length pre)) 0); [lia|].
  destruct (Z.ltb_spec (Z.of_nat (String.length pre + 1 + String.length mid) + 1) 0);
    [lia|].
  match goal with
  | |- String.substring ?i ?n _ = _ =>
      replace i with (String.length pre) by lia;
      replace n with (String.length (String a mid +:+ String b "")) by lia
  end.
  rewrite substring_skip.
  replace (String a mid +:+ String b post)
    with ((String a mid +:+ String b "") +:+ post).
  - apply substring_take.
  - rewrite append_assoc. reflexivity.
Qed.

Section oracle.
Context `{Platform}.

(** C7: take an answer that is not JSON as a whole and has no list in
    brackets, and whose text from its first "{" to its last "}", that is
    "{", [mid] and "}" where the answer is [pre], "{", [mid], "}" and
    [post] with no "{" in [pre] and no "}" in [post], is the JSON of [obj].
    The parser returns the one-element list [[obj]], and so does
    [ask_llm_for_visualizations] for a configured client whose request is
    answered with that text as the content of the first choice. For the
    object of the specification's example between two sentences, read with
    the JSON reader of [Module sample], the list holds that suggestion. *)
Theorem brace_extraction_recovers_object (df : nat) (t : table) (w : world)
    (key raw pre mid post : string) (others : list (option string))
    (obj : pyvalue) :
  frames w !! df = Some t ->
  viz_service.client = Some key ->
  groq_chat (oracle_calls w) (schema_of t) = Ok (Some raw :: others) ->
  json_loads raw = None ->
  no_bracketed_list raw ->
  between "{" "}" raw pre mid post ->
  json_loads ("{" +:+ mid +:+ "}") = Some obj ->
  viz_service.parse_response raw = PyList [obj] /\
  viz_service.ask_llm_for_visualizations df w =
    (Ok (PyList [obj]), set_oracle_calls (S (oracle_calls w)) w) /\
  @viz_service.parse_response sample.platform sample.answer =
    PyList [PyDict (suggestion "bar" (PyStr "region") PyNone (PyStr "counts"))].
Proof.
  intros Ht Hclient Hchat Hwhole Hlist Hbrace Hobj.
  assert (Hparse : viz_service.parse_response raw = PyList [obj]).
  { unfold viz_service.parse_response. rewrite Hwhole.
    assert (Hb : (if negb (str_find "[" raw =? -1) && negb (str_rfind "]" raw =? -1)
                  then json_loads (str_slice raw (str_find "[" raw)
                                             (str_rfind "]" raw + 1))
                  else None) = None).
    { destruct Hlist as [E|[E|(p & m & q & Hb & E)]].
      - unfold str_find. now rewrite (find_absent _ _ 0 E).
      - unfold str_rfind. rewrite (rfind_absent _ _ 0 E). simpl.
        now rewrite andb_false_r.
      - destruct (between_slice _ _ _ _ _ _ Hb) as (_ & _ & ->).
        change (String "[" m +:+ "]") with ("[" +:+ m +:+ "]").
        rewrite E. now destruct (_ && _). }
    rewrite Hb.
    destruct (between_slice _ _ _ _ _ _ Hbrace) as (Hopen & Hclose & ->).
    rewrite Hopen, Hclose.
    destruct (Z.eqb_spec (Z.of_nat (String.length pre)) (-1)); [lia|].
    destruct (Z.eqb_spec (Z.of_nat (String.length pre + 1 + String.length mid)) (-1));
      [lia|].
    simpl andb. cbv iota.
    change (String "{" mid +:+ "}") with ("{" +:+ mid +:+ "}").
    now rewrite Hobj. }
  split; [exact Hparse|]. split; [|vm_compute; reflexivity].
  unfold viz_service.ask_llm_for_visualizations. rewrite Hclient.
  rewrite (bind_ok _ _ _ _ _ (df_read_some _ _ _ Ht)).
  unfold bind, gets, modify, ret. fold (schema_of t). rewrite Hchat.
  now rewrite Hparse.
Qed.

End oracle.

(** ** The chart renderer *)

Lemma figures_kept_ret {A} (a : A) : figures_kept (ret a).
Proof. now intros w. Qed.

Lemma figures_kept_raise {A} e : figures_kept (@raise A e).
Proof. now intros w. Qed.

Lemma figures_kept_lift {A} (r : result A) : figures_kept (lift r).
Proof. now intros w. Qed.

Lemma figures_kept_bind {A B} (m : M A) (k : A -> M B) :
  figures_kept m -> (forall a, figures_kept (k a)) -> figures_kept (bind m k).
Proof.
  intros Hm Hk w. unfold bind. specialize (Hm w).
  destruct (m w) as [[a|e] w1]; simpl in *; [|exact Hm].
  now rewrite Hk.
Qed.

Lemma figures_kept_df_read r : figures_kept (df_read r).
Proof. intros w. unfold df_read. now destruct (frames w !! r). Qed.

Lemma figures_kept_df_copy r : figures_kept (df_copy r).
Proof.
  unfold df_copy. apply figures_kept_bind; [apply figures_kept_df_read|].
  now intros t w.
Qed.

Lemma figures_kept_df_assign r col s : figures_kept (df_assign r col s).
Proof.
  unfold df_assign. apply figures_kept_bind; [apply figures_kept_df_read|].
  now intros t w.
Qed.

#[export] Hint Resolve figures_kept_ret figures_kept_raise figures_kept_lift
  figures_kept_df_read figures_kept_df_copy figures_kept_df_assign : frame.

Section renderer.
Context `{Platform}.

Lemma figures_kept_draw df ct x y :
  figures_kept (manual_viz_service.draw df ct x y).
Proof.
  unfold manual_viz_service.draw.
  repeat match goal with
         | |- figures_kept (bind _ _) => apply figures_kept_bind; [|intros ?]
         | |- figures_kept (if ?b then _ else _) => destruct b
         | |- figures_kept (match ?v with _ => _ end) => destruct v
         | |- figures_kept _ => solve [auto with frame]
         end.
Qed.

(** When the body of the [try] raises, the figure is still open. *)
Lemma draw_and_save_raise df ct x y w e w1 :
  manual_viz_service.draw_and_save df ct x y w = (Raise e, w1) ->
  open_figures w1 = open_figures w.
Proof.
  unfold manual_viz_service.draw_and_save, bind. intros E.
  pose proof (figures_kept_draw df ct x y w) as Hd.
  destruct (manual_viz_service.draw df ct x y w) as [[[p|]|e'] w2]; simpl in Hd.
  - unfold lift in E. destruct (savefig_png p); inversion E; subst. exact Hd.
  - discriminate.
  - inversion E; subst. exact Hd.
Qed.

(** C6: for a table and a chart type, an x and an optional y given as
    strings, [generate_chart] of either service returns an image or None
    and does not raise; and if the drawing raised, what it returns is None
    and as many figures are open after the call as before it. *)
Theorem chart_renderer_never_raises (df : nat) (t : table) (ct x : string)
    (y : option string) (w : world) :
  frames w !! df = Some t ->
  exists img w',
    manual_viz_service.generate_chart df (PyStr ct) (PyStr x) (py_optional y) w
      = (Ok img, w') /\
    viz_service.generate_chart df (PyStr ct) (PyStr x) (py_optional y) w
      = (Ok img, w') /\
    (forall e w1,
       manual_viz_service.draw_and_save df (PyStr ct) x y
         (set_open_figures (S (open_figures w)) w) = (Raise e, w1) ->
       img = None /\ open_figures w' = open_figures w).
Proof.
  intros Ht. unfold viz_service.generate_chart, manual_viz_service.generate_chart.
  rewrite (bind_ok _ _ _ _ _ (df_read_some _ _ _ Ht)).
  unfold bind at 1, lift. simpl str_set_member.
  destruct (bool_decide (x ∈ df_columns t)).
  2: { exists None, w. repeat split. }
  assert (Hbody : forall y',
    exists img w',
      (plt_figure ;;
       try_except (manual_viz_service.draw_and_save df (PyStr ct) x y')
                  (fun _ => plt_close ;; ret None)) w = (Ok img, w') /\
      (forall e w1,
         manual_viz_service.draw_and_save df (PyStr ct) x y'
           (set_open_figures (S (open_figures w)) w) = (Raise e, w1) ->
         img = None /\ open_figures w' = open_figures w)).
  { intros y'. unfold bind at 1, plt_figure, modify, try_except.
    destruct (manual_viz_service.draw_and_save df (PyStr ct) x y'
                (set_open_figures (S (open_figures w)) w)) as [[img|e] w1] eqn:E.
    - exists img, w1. split; [reflexivity|]. intros e' w1' E'. discriminate.
    - apply draw_and_save_raise in E. simpl in E.
      eexists _, _. split; [reflexivity|]. intros _ _ _. split; [reflexivity|].
      simpl. now rewrite E. }
  destruct y as [yn|]; simpl py_optional; unfold bind at 1, lift;
    unfold manual_viz_service.optional_member; simpl.
  - destruct (bool_decide (yn ∈ df_columns t)).
    + destruct (Hbody (Some yn)) as (img & w' & E & Hr). exists img, w'. auto.
    + exists None, w. repeat split.
  - destruct (Hbody None) as (img & w' & E & Hr). exists img, w'. auto.
Qed.

End renderer.

(** ** The fallback of the oracle-assisted path *)

(** The first name [select_dtypes] lists is the first column of the
    class. *)
Lemma head_select_dtypes (include : dtype -> bool) (k : column_class) (t : table) :
  (forall d, include d = true <-> class_of d = Some k) ->
  head (viz_service.select_dtypes t include) = first_of k t.
Proof.
  intros Hk. unfold viz_service.select_dtypes.
  induction t as [|c t IH]; [reflexivity|].
  cbn [first_of]. specialize (Hk (s_dtype (col_data c))).
  destruct (include (s_dtype (col_data c))) eqn:Ei.
  - rewrite filter_cons_True by exact Ei.
    rewrite (proj1 Hk eq_refl). now destruct k.
  - rewrite filter_cons_False by (rewrite Ei; discriminate). rewrite IH.
    destruct (class_of (s_dtype (col_data c))) as [k'|]; [|reflexivity].
    destruct k', k; try reflexivity; destruct Hk as [_ Hk];
      specialize (Hk eq_refl); discriminate.
Qed.

Lemma fallback_is_spec (t : table) :
  viz_service._fallback_suggestions t = fallback_spec t.
Proof.
  unfold viz_service._fallback_suggestions, fallback_spec.
  rewrite <- (head_select_dtypes issubdtype_number numeric_column t),
          <- (head_select_dtypes viz_service.is_datetime datetime_column t),
          <- (head_select_dtypes viz_service.is_object text_column t);
    try (intros []; simpl; split; congruence).
  destruct (viz_service.select_dtypes t issubdtype_number);
    destruct (viz_service.select_dtypes t viz_service.is_datetime);
    destruct (viz_service.select_dtypes t viz_service.is_object); reflexivity.
Qed.

Lemma first_of_elem k t c : first_of k t = Some c -> c ∈ df_columns t.
Proof.
  induction t as [|col t IH]; [discriminate|]. cbn [first_of df_columns map].
  destruct (class_of (s_dtype (col_data col))) as [[]|], k;
    intros E; try (right; now apply IH); inversion E; left.
Qed.

Lemma fallback_length (t : table) : (length (fallback_spec t) <= 2)%nat.
Proof.
  unfold fallback_spec.
  destruct (first_of numeric_column t); destruct (first_of datetime_column t);
    destruct (first_of text_column t); simpl; lia.
Qed.

Section fallback.
Context `{Platform}.

(** The validator accepts a candidate built like the generators build
    them, unless its key was seen. *)
Lemma validate_item_generated cols seen ct c vy desc :
  ct ∈ chart_types -> c ∈ cols ->
  (vy = PyNone /\ ct <> "scatter" /\ ct <> "line") \/
  (exists n, vy = PyStr n /\ n ∈ cols) ->
  validate_item cols seen (PyDict (suggestion ct (PyStr c) vy desc)) =
    Ok (if existsb (key_eqb (ct, PyStr c, vy)) seen then None
        else Some ((ct, PyStr c, vy), suggestion ct (PyStr c) vy desc)).
Proof.
  intros Hct Hc Hy. unfold validate_item, suggestion.
  cbn [dict_get String.eqb Ascii.eqb Bool.eqb py_str is_none orb str_set_member].
  rewrite (bool_decide_eq_true_2 _ Hc).
  assert (Hnorm : str_lower (str_strip ct) = ct /\ String.eqb ct "" = false /\
                  str_in_list ct chart_types = true).
  { unfold chart_types in Hct.
    repeat (apply elem_of_cons in Hct as [->|Hct]); [..|inversion Hct];
      repeat split; reflexivity. }
  destruct Hnorm as (-> & -> & Hin). rewrite Hin. cbn [negb].
  destruct Hy as [(-> & Hs & Hl) | (n & -> & Hn)].
  - cbn [is_none]. replace (str_in_list ct ["scatter"; "line"]) with false.
    + cbn [orb andb]. now destruct (existsb _ seen).
    + symmetry. apply not_true_is_false. intros Hsl. apply str_in_list_elem in Hsl.
      repeat (apply elem_of_cons in Hsl as [->|Hsl]); [congruence..|inversion Hsl].
  - cbn [is_none str_set_member]. rewrite (bool_decide_eq_true_2 _ Hn).
    rewrite andb_false_r. cbn [orb]. now destruct (existsb _ seen).
Qed.

(** The validator returns the fallback as it is. *)
Lemma fallback_validates (t : table) entry rest :
  fallback_spec t = entry :: rest ->
  viz_service._clean_and_validate_suggestions t
    (PyList (map PyDict (fallback_spec t))) 12 = Ok (fallback_spec t).
Proof.
  unfold fallback_spec. intros _.
  destruct (first_of numeric_column t) as [n|] eqn:En;
    [apply first_of_elem in En|];
    (destruct (first_of text_column t) as [c|] eqn:Ec;
     [apply first_of_elem in Ec|]);
    try (destruct (first_of datetime_column t) as [d|] eqn:Ed;
         [apply first_of_elem in Ed|]);
    unfold viz_service._clean_and_validate_suggestions; cbn [map app];
    try reflexivity;
    repeat (cbn [viz_service.clean_loop];
            rewrite validate_item_generated;
            [ cbn [existsb key_eqb String.eqb Ascii.eqb Bool.eqb andb orb
                   app length Nat.leb]
            | apply str_in_list_elem; reflexivity
            | assumption
            | first [ left; split; [reflexivity | split; discriminate]
                    | right; eexists; split; [reflexivity | assumption] ] ]);
    reflexivity.
Qed.

Lemma ask_llm_unavailable df t w :
  frames w !! df = Some t ->
  viz_service.client = None \/
  is_ok (groq_chat (oracle_calls w) (schema_of t)) = false ->
  exists w', viz_service.ask_llm_for_visualizations df w = (Ok PyNone, w') /\
             frames w' = frames w.
Proof.
  intros Ht Hun. unfold viz_service.ask_llm_for_visualizations.
  destruct viz_service.client as [key|] eqn:Ek.
  - destruct Hun as [Hun|Hun]; [discriminate|].
    rewrite (bind_ok _ _ _ _ _ (df_read_some _ _ _ Ht)).
    unfold bind, gets, modify, ret. unfold schema_of in Hun.
    destruct (groq_chat (oracle_calls w) _); [discriminate|].
    eexists. split; reflexivity.
  - exists w. split; reflexivity.
Qed.

(** C5: when no client is configured, or the request to the oracle, made
    for the schema of the date-coerced copy of the table [t] behind [df],
    raises, the oracle-assisted path returns the fallback of that copy: the
    list [fallback_spec] describes, of at most two suggestions; it does not
    raise. For the table [regional] without a client, that is a line chart
    of amount over order_date and a countplot of region. *)
Theorem fallback_when_oracle_unavailable (df : nat) (t : table) (w : world) :
  frames w !! df = Some t ->
  viz_service.client = None \/
  is_ok (groq_chat (oracle_calls w) (schema_of (prepared t))) = false ->
  (exists w',
     viz_service._get_viz_suggestions_for_df df w =
       (Ok (fallback_spec (prepared t)), w')) /\
  (length (fallback_spec (prepared t)) <= 2)%nat /\
  fallback_spec (@prepared sample.platform regional) =
    [suggestion "line" (PyStr "order_date") (PyStr "amount")
       (PyStr "Trend of 'amount' over time by 'order_date'.");
     suggestion "countplot" (PyStr "region") PyNone
       (PyStr "Category counts for 'region'.")].
Proof.
  intros Ht Hun. split; [|split; [apply fallback_length | reflexivity]].
  unfold viz_service._get_viz_suggestions_for_df, viz_service._prepare_df_for_viz.
  rewrite (bind_ok _ _ _ _ _ (prepare_run _ _ _ Ht)).
  set (w1 := set_frames (frames w ++ [prepared t]) w).
  assert (H1 : frames w1 !! length (frames w) = Some (prepared t)) by apply lookup_fresh.
  destruct (ask_llm_unavailable _ _ w1 H1 Hun) as (w2 & Eask & Hfr).
  rewrite (bind_ok _ _ _ _ _ Eask).
  assert (H2 : frames w2 !! length (frames w) = Some (prepared t)) by now rewrite Hfr.
  rewrite (bind_ok _ _ _ _ _ (df_read_some _ _ _ H2)).
  cbv beta. cbn [truthy negb]. rewrite !fallback_is_spec.
  exists w2.
  assert (Hv : viz_service._clean_and_validate_suggestions (prepared t)
                 (PyList (map PyDict (fallback_spec (prepared t)))) 12
               = Ok (fallback_spec (prepared t))).
  { destruct (fallback_spec (prepared t)) as [|entry rest] eqn:Ef;
      [reflexivity|]. rewrite <- Ef. eapply fallback_validates. exact Ef. }
  unfold bind, lift. rewrite Hv.
  now destruct (fallback_spec (prepared t)).
Qed.

End fallback.

(** ** A session with nothing to draw *)

(** C2, as the code runs: for the workbook with one empty sheet the
    rule-based call builds no task and then raises TypeError, on every
    platform, and nothing is stored for the session; with the empty mapping
    already stored the call does its work again (it copies the sheet) and
    raises the same; the oracle-assisted call raises too (shown without a
    credential). *)
Theorem no_task_call_raises (P : Platform) :
  (exists w', suggest_all_sheets manual "s" None empty_book = (Raise missing_mode, w') /\
              VIZ_CACHE_MANUAL w' !! "s" = None) /\
  (exists w', suggest_all_sheets manual "s" None empty_book_cached
                = (Raise missing_mode, w') /\
              (length (frames empty_book_cached) < length (frames w'))%nat) /\
  (exists w', @suggest_all_sheets sample.platform ai "s" None empty_book
                = (Raise missing_mode, w') /\
              VIZ_CACHE_AI w' !! "s" = None).
Proof.
  split; [|split]; eexists; (split; [vm_compute; reflexivity|]).
  - reflexivity.
  - simpl. lia.
  - reflexivity.
Qed.

(** * Further properties *)

(** ** The cache, the loader and the sheets *)

(** X1: what [store_visualizations] stores under a mode for a session is
    what [get_cached_visualizations] then returns for them; the entries of
    other sessions, the other namespace, the tables and the sheets are as
    before. *)
Theorem stored_result_is_found (m : mode) (sid : string) (data : viz_map)
    (w : world) :
  exists w',
    viz_cache.store_visualizations sid data (Some (mode_name m)) w = (Ok tt, w') /\
    viz_cache.get_cached_visualizations sid (mode_name m) w' = (Ok (Some data), w') /\
    (forall sid', sid' <> sid -> cache_of m w' !! sid' = cache_of m w !! sid') /\
    (forall m', m' <> m -> cache_of m' w' = cache_of m' w) /\
    frames w' = frames w /\ EXCEL_CACHE w' = EXCEL_CACHE w.
Proof.
  destruct (store_run m sid data w) as (w' & Es & Hc). exists w'.
  split; [exact Es|]. split; [now rewrite get_cached_run, Hc|].
  destruct m; inversion Es; subst w'; simpl; repeat split.
  - intros sid' Hne. now apply lookup_insert_ne.
  - intros [] Hne; [congruence | reflexivity].
  - intros sid' Hne. now apply lookup_insert_ne.
  - intros [] Hne; [reflexivity | congruence].
Qed.

Lemma refs_from_keys n xls : map fst (refs_from n xls) = map fst xls.
Proof.
  revert n. induction xls as [|[name t] xls IH]; intros n; simpl; [reflexivity|].
  now rewrite IH.
Qed.

Lemma refs_from_lookup xls : forall n i name t,
  NoDup (map fst xls) -> xls !! i = Some (name, t) ->
  adict_get (refs_from n xls) name = Some (n + i)%nat.
Proof.
  induction xls as [|[name0 t0] xls IH]; intros n i name t Hnd Hi; [inversion Hi|].
  simpl in Hnd. apply NoDup_cons in Hnd as [Hnot Hnd].
  destruct i as [|i]; simpl in *.
  - inversion Hi; subst. rewrite String.eqb_refl. f_equal. lia.
  - destruct (String.eqb name0 name) eqn:E.
    + apply String.eqb_eq in E. subst name0. exfalso. apply Hnot.
      apply list_elem_of_fmap. exists (name, t). split; [reflexivity|].
      eapply list_elem_of_lookup_2; eauto.
    + rewrite (IH (S n) i name t Hnd Hi). f_equal. lia.
Qed.

Lemma adict_get_none {V} (d : list (string * V)) (k : string) :
  k ∉ map fst d -> adict_get d k = None.
Proof.
  induction d as [|[k' v] d IH]; simpl; [reflexivity|]. intros Hnot.
  apply not_elem_of_cons in Hnot as [Hne Hnot].
  destruct (String.eqb k' k) eqn:E; [apply String.eqb_eq in E; congruence | auto].
Qed.

Lemma load_loop xls : forall infos dfs w,
  NoDup (map fst dfs ++ map fst xls) ->
  for_fold xls (infos, dfs)
    (fun (acc : list excel_reader_service.SheetInfo * list (string * nat)) sheet =>
       let '(sheet_infos, sheet_dfs) := acc in
       let '(name, parsed) := sheet in
       df <- excel_reader_service.df_new parsed ;;
       ret (sheet_infos ++
              [excel_reader_service.mkSheetInfo name
                 (excel_reader_service.df_n_rows parsed)
                 (excel_reader_service.df_n_cols parsed)],
            adict_set sheet_dfs name df)) w
  = (Ok (infos ++ map sheet_info xls, dfs ++ refs_from (length (frames w)) xls),
     set_frames (frames w ++ map snd xls) w).
Proof.
  induction xls as [|[name t] xls IH]; intros infos dfs w Hnd; simpl.
  - unfold ret. now rewrite !app_nil_r, set_frames_id.
  - unfold bind at 1, bind at 1, excel_reader_service.df_new, ret. cbv beta iota.
    rewrite adict_set_fresh.
    2:{ apply NoDup_app in Hnd as (_ & Hdisj & _). intros Hin.
        apply (Hdisj _ Hin). left. }
    rewrite IH.
    + simpl. rewrite length_app. simpl.
      replace (length (frames w) + 1)%nat with (S (length (frames w))) by lia.
      now rewrite <- !app_assoc.
    + rewrite map_app. simpl. rewrite <- app_assoc. exact Hnd.
Qed.

(** X2: after [load_excel_for_session] for a workbook whose sheets have
    distinct names, [get_sheet_df] returns for each sheet an object holding
    the table read for it and raises KeyError for any other name; the
    sheet infos name the sheets in workbook order; objects that existed,
    other sessions and both caches are unchanged. *)
Theorem loaded_sheets_are_found (sid : string) (xls : list (string * table))
    (w : world) :
  NoDup (map fst xls) ->
  exists w',
    excel_reader_service.load_excel_for_session sid xls w
      = (Ok (map sheet_info xls), w') /\
    (forall name t, (name, t) ∈ xls ->
       exists df, get_sheet_df sid name w' = (Ok df, w') /\
                  frames w !! df = None /\ frames w' !! df = Some t) /\
    (forall name, name ∉ map fst xls ->
       exists msg, get_sheet_df sid name w' = (Raise (KeyError msg), w')) /\
    frames w `prefix_of` frames w' /\
    (forall sid', sid' <> sid -> EXCEL_CACHE w' !! sid' = EXCEL_CACHE w !! sid') /\
    VIZ_CACHE_MANUAL w' = VIZ_CACHE_MANUAL w /\ VIZ_CACHE_AI w' = VIZ_CACHE_AI w.
Proof.
  intros Hnd. unfold excel_reader_service.load_excel_for_session.
  rewrite (bind_ok _ _ _ _ _ (load_loop xls [] [] w Hnd)).
  eexists. split; [reflexivity|]. simpl.
  repeat split.
  - intros name t Hin. apply list_elem_of_lookup in Hin as [i Hi].
    exists (length (frames w) + i)%nat. split; [|split].
    + unfold get_sheet_df, bind, gets. simpl. rewrite lookup_insert_eq.
      now rewrite (refs_from_lookup _ _ _ _ _ Hnd Hi).
    + apply lookup_ge_None. lia.
    + rewrite lookup_app_r by lia.
      replace (length (frames w) + i - length (frames w))%nat with i by lia.
      rewrite list_lookup_fmap, Hi. reflexivity.
  - intros name Hnot. unfold get_sheet_df, bind, gets. simpl.
    rewrite lookup_insert_eq, adict_get_none; [eexists; reflexivity|].
    now rewrite refs_from_keys.
  - now apply prefix_app_r.
  - intros sid' Hne. now apply lookup_insert_ne.
Qed.

(** ** More on the validator *)

Lemma key_eqb_triple ct c vy (k : suggestion_key) :
  vy = PyNone \/ (exists n, vy = PyStr n) ->
  key_eqb (ct, PyStr c, vy) k = true -> key_triple k = (PyStr ct, PyStr c, vy).
Proof.
  destruct k as [[ct' vx'] vy']. simpl. intros Hy Hk.
  apply andb_prop in Hk as [Hk Hvy]. apply andb_prop in Hk as [Hct Hvx].
  apply String.eqb_eq in Hct. subst ct'.
  assert (vx' = PyStr c) as ->.
  { destruct vx'; simpl in Hvx; try discriminate. apply String.eqb_eq in Hvx. now subst. }
  assert (vy' = vy) as ->; [|reflexivity].
  destruct Hy as [->|[n ->]]; destruct vy'; simpl in Hvy; try discriminate;
    [reflexivity | apply String.eqb_eq in Hvy; now subst].
Qed.

Section validator_more.
Context `{Platform}.

Lemma validate_item_raise cols seen item :
  match validate_item cols seen item with
  | Raise e => unhashable_candidate cols item = true /\ unhashable_error e
  | Ok _ => unhashable_candidate cols item = false
  end.
Proof.
  unfold validate_item, unhashable_candidate.
  destruct item as [| | | | |l|d]; try reflexivity.
  set (ct := str_lower (str_strip (py_str (dict_get d "chart_type" (PyStr ""))))).
  set (vx := dict_get d "x" PyNone). set (vy := dict_get d "y" PyNone).
  destruct (String.eqb ct ""); [reflexivity|].
  destruct vx as [| | | |c|lx|dx]; cbn [is_none orb negb andb hashable str_set_member];
    try reflexivity;
    try (split; [reflexivity | first [left; reflexivity | right; reflexivity]]).
  destruct (bool_decide (c ∈ cols)); [|reflexivity].
  destruct vy as [| | | |n|ly|dy]; cbn [is_none orb negb andb hashable str_set_member];
    try (split; [reflexivity | first [left; reflexivity | right; reflexivity]]);
    try (destruct (bool_decide (n ∈ cols)));
    repeat match goal with
           | |- context [if ?b then _ else _] => destruct b
           end; reflexivity.
Qed.

Lemma manual_loop_ok cols items : forall seen cleaned,
  is_ok (manual_viz_service.clean_loop cols items seen cleaned)
    = negb (existsb (unhashable_candidate cols) items).
Proof.
  induction items as [|item items IH]; intros seen cleaned; simpl; [reflexivity|].
  pose proof (validate_item_raise cols seen item) as Hv.
  destruct (validate_item cols seen item) as [[[key entry]|]|e].
  - rewrite Hv. simpl. apply IH.
  - rewrite Hv. simpl. apply IH.
  - destruct Hv as [-> _]. reflexivity.
Qed.

Lemma manual_loop_raise cols items : forall seen cleaned e,
  manual_viz_service.clean_loop cols items seen cleaned = Raise e ->
  unhashable_error e.
Proof.
  induction items as [|item items IH]; intros seen cleaned e; simpl; [discriminate|].
  pose proof (validate_item_raise cols seen item) as Hv.
  destruct (validate_item cols seen item) as [[[key entry]|]|e']; eauto.
  intros E. inversion E; subst. apply Hv.
Qed.

Lemma ai_loop_ok max_per_sheet cols items : forall seen cleaned,
  match viz_service.clean_loop max_per_sheet cols items seen cleaned with
  | Ok _ => True
  | Raise e => existsb (unhashable_candidate cols) items = true /\
               unhashable_error e
  end.
Proof.
  induction items as [|item items IH]; intros seen cleaned; simpl; [exact I|].
  pose proof (validate_item_raise cols seen item) as Hv.
  destruct (validate_item cols seen item) as [[[key entry]|]|e].
  - destruct (max_per_sheet <=? length (cleaned ++ [entry]))%nat; [exact I|].
    specialize (IH (seen ++ [key]) (cleaned ++ [entry])).
    destruct (viz_service.clean_loop _ _ _ _ _); [exact I|].
    destruct IH as [-> He]. now rewrite orb_true_r.
  - specialize (IH seen cleaned).
    destruct (viz_service.clean_loop _ _ _ _ _); [exact I|].
    destruct IH as [-> He]. now rewrite orb_true_r.
  - destruct Hv as [-> He]. split; [reflexivity | exact He].
Qed.

(** X3: the validators raise nothing but the TypeError of an unhashable x
    or y. The rule-based validator raises exactly when some candidate is
    an [unhashable_candidate]; the oracle-assisted one only when some
    candidate is, and so returns a list for every other input. *)
Theorem validator_raises_only_on_unhashable (t : table) (items : list pyvalue) :
  is_ok (manual_viz_service._clean_and_validate_suggestions t (PyList items))
    = negb (existsb (unhashable_candidate (df_columns t)) items) /\
  (forall max_per_sheet,
     match viz_service._clean_and_validate_suggestions t (PyList items)
             max_per_sheet with
     | Ok _ => True
     | Raise e => existsb (unhashable_candidate (df_columns t)) items = true /\
                  unhashable_error e
     end) /\
  (forall raw e,
     manual_viz_service._clean_and_validate_suggestions t raw = Raise e ->
     unhashable_error e).
Proof.
  split; [|split].
  - unfold manual_viz_service._clean_and_validate_suggestions.
    destruct items as [|item items]; [reflexivity|]. apply manual_loop_ok.
  - intros max_per_sheet. unfold viz_service._clean_and_validate_suggestions.
    destruct items as [|item items]; [exact I|]. apply ai_loop_ok.
  - intros raw e. unfold manual_viz_service._clean_and_validate_suggestions.
    destruct raw as [| | | | |[|item' items']|]; try discriminate.
    apply manual_loop_raise.
Qed.

Lemma accepted_is_generated cols seen item key entry :
  validate_item cols seen item = Ok (Some (key, entry)) -> generated cols entry.
Proof.
  intros Ev. apply validate_item_accept in Ev
    as (ct & vx & vy & desc & _ & -> & (xn & -> & Hx) & Hy & Hct & Hsl & _).
  exists ct, xn, vy, desc. repeat split; try assumption.
  destruct Hy as [->|Hy]; [left|right; exact Hy].
  repeat split; intros ->; now apply Hsl; auto.
Qed.

(** The rule-based loop only appends, and what it appends is [generated]. *)
Lemma manual_loop_extends cols items : forall seen cleaned out,
  manual_viz_service.clean_loop cols items seen cleaned = Ok out ->
  exists more, out = cleaned ++ more /\ Forall (generated cols) more.
Proof.
  induction items as [|item items IH]; intros seen cleaned out; simpl.
  - intros E. inversion E. exists []. split; [now rewrite app_nil_r | constructor].
  - destruct (validate_item cols seen item) as [[[key entry]|]|e] eqn:Ev;
      [| apply IH | discriminate].
    intros E. apply IH in E as (more & -> & Hmore).
    exists (entry :: more). split; [now rewrite <- app_assoc|].
    constructor; [|exact Hmore]. eapply accepted_is_generated; eauto.
Qed.

Lemma ai_loop_generated max_per_sheet cols items : forall seen cleaned out,
  viz_service.clean_loop max_per_sheet cols items seen cleaned = Ok out ->
  Forall (generated cols) cleaned -> Forall (generated cols) out.
Proof.
  induction items as [|item items IH]; intros seen cleaned out; simpl.
  - intros E Hc. now inversion E; subst.
  - destruct (validate_item cols seen item) as [[[key entry]|]|e] eqn:Ev;
      [| apply IH | discriminate].
    assert (Hg : Forall (generated cols) cleaned ->
                 Forall (generated cols) (cleaned ++ [entry])).
    { intros Hc. apply Forall_app. split; [exact Hc|].
      constructor; [|constructor]. eapply accepted_is_generated; eauto. }
    destruct (max_per_sheet <=? length (cleaned ++ [entry]))%nat.
    + intros E Hc. inversion E; subst. now apply Hg.
    + intros E Hc. eapply IH; [exact E | now apply Hg].
Qed.

(** The oracle-assisted loop stops at the cap; until then it is the
    rule-based loop. *)
Lemma ai_loop_truncates max_per_sheet cols items : forall seen cleaned out,
  manual_viz_service.clean_loop cols items seen cleaned = Ok out ->
  (length cleaned < Nat.max 1 max_per_sheet)%nat ->
  viz_service.clean_loop max_per_sheet cols items seen cleaned
    = Ok (take (Nat.max 1 max_per_sheet) out).
Proof.
  induction items as [|item items IH]; intros seen cleaned out; simpl.
  - intros E Hlen. inversion E; subst. now rewrite take_ge by lia.
  - destruct (validate_item cols seen item) as [[[key entry]|]|e] eqn:Ev;
      [| apply IH | discriminate].
    intros E Hlen. destruct (Nat.leb_spec max_per_sheet (length (cleaned ++ [entry]))) as [Hcap|Hcap].
    + apply manual_loop_extends in E as (more & -> & _).
      rewrite length_app in Hcap. simpl in Hcap.
      rewrite take_app_length'; [reflexivity|]. rewrite length_app. simpl. lia.
    + apply IH; [exact E|]. lia.
Qed.

(** X4: on the same table and candidates, what the oracle-assisted
    validator returns is what the rule-based validator returns, cut after
    [max_per_sheet] entries (after one entry when [max_per_sheet] is 0):
    the two validators differ by the cap alone. *)
Theorem ai_validator_truncates_manual (t : table) (raw : pyvalue)
    (max_per_sheet : nat) (out : list pydict) :
  manual_viz_service._clean_and_validate_suggestions t raw = Ok out ->
  viz_service._clean_and_validate_suggestions t raw max_per_sheet
    = Ok (take (Nat.max 1 max_per_sheet) out).
Proof.
  unfold manual_viz_service._clean_and_validate_suggestions,
         viz_service._clean_and_validate_suggestions.
  destruct raw as [| | | | |[|item items]|]; intros E;
    try (inversion E; now rewrite take_nil).
  apply ai_loop_truncates; [exact E | simpl; lia].
Qed.

Lemma ai_loop_bounded max_per_sheet cols items : forall seen cleaned,
  (length cleaned < Nat.max 1 max_per_sheet)%nat ->
  match viz_service.clean_loop max_per_sheet cols items seen cleaned with
  | Ok out => (length out <= Nat.max 1 max_per_sheet)%nat
  | Raise _ => True
  end.
Proof.
  induction items as [|item items IH]; intros seen cleaned Hlen; simpl; [lia|].
  destruct (validate_item cols seen item) as [[[key entry]|]|e]; [| now apply IH | exact I].
  destruct (Nat.leb_spec max_per_sheet (length (cleaned ++ [entry]))) as [Hcap|Hcap].
  - rewrite length_app. simpl. lia.
  - apply IH. lia.
Qed.

(** X5: the oracle-assisted validator returns at most [max_per_sheet]
    entries, whatever the candidates (at most one when [max_per_sheet] is
    0); with the default, at most 12. *)
Theorem ai_validator_bounded (t : table) (raw : pyvalue) (max_per_sheet : nat) :
  match viz_service._clean_and_validate_suggestions t raw max_per_sheet with
  | Ok out => (length out <= Nat.max 1 max_per_sheet)%nat
  | Raise _ => True
  end /\
  match viz_service._clean_and_validate_suggestions t raw 12 with
  | Ok out => (length out <= 12)%nat
  | Raise _ => True
  end.
Proof.
  assert (Hb : forall m,
    match viz_service._clean_and_validate_suggestions t raw m with
    | Ok out => (length out <= Nat.max 1 m)%nat
    | Raise _ => True
    end).
  { intros m. unfold viz_service._clean_and_validate_suggestions.
    destruct raw as [| | | | |[|item items]|]; simpl length; try lia.
    apply ai_loop_bounded. simpl. lia. }
  split; [apply Hb | apply (Hb 12%nat)].
Qed.

(** Entries that are [generated], with different triples, none seen
    before: the loop keeps them all. *)
Lemma manual_loop_keeps cols l : forall seen cleaned,
  Forall (generated cols) l -> NoDup (map triple l) ->
  (forall e k, e ∈ l -> k ∈ seen -> key_triple k <> triple e) ->
  manual_viz_service.clean_loop cols (map PyDict l) seen cleaned = Ok (cleaned ++ l).
Proof.
  induction l as [|e l IH]; intros seen cleaned Hgen Hnd Hseen;
    cbn [map manual_viz_service.clean_loop].
  - now rewrite app_nil_r.
  - apply Forall_cons in Hgen as [(ct & c & vy & desc & -> & Hct & Hc & Hy) Hgen].
    cbn [map] in Hnd. apply NoDup_cons in Hnd as [Hnew Hnd].
    rewrite (validate_item_generated _ seen _ _ _ _ Hct Hc Hy).
    assert (Hfresh : existsb (key_eqb (ct, PyStr c, vy)) seen = false).
    { apply not_true_is_false. intros Hex. apply existsb_exists in Hex as (k & Hk & Hkey).
      apply key_eqb_triple in Hkey.
      - apply (Hseen (suggestion ct (PyStr c) vy desc) k); [left | now apply list_elem_of_In | exact Hkey].
      - destruct Hy as [(-> & _)|(n & -> & _)]; eauto. }
    rewrite Hfresh, IH; [now rewrite <- app_assoc | exact Hgen | exact Hnd |].
    intros e k He Hk. apply elem_of_app in Hk as [Hk|Hk].
    + apply Hseen; [now right | exact Hk].
    + apply list_elem_of_singleton in Hk. subst k. simpl. intros Heq. apply Hnew.
      change (triple (suggestion ct (PyStr c) vy desc)) with (PyStr ct, PyStr c, vy).
      rewrite Heq. now apply list_elem_of_fmap_2.
Qed.

Lemma manual_validator_keeps t l :
  Forall (generated (df_columns t)) l -> NoDup (map triple l) ->
  manual_viz_service._clean_and_validate_suggestions t (PyList (map PyDict l)) = Ok l.
Proof.
  intros Hgen Hnd. unfold manual_viz_service._clean_and_validate_suggestions.
  destruct l as [|e l]; [reflexivity|].
  change (map PyDict (e :: l)) with (PyDict e :: map PyDict l).
  change (PyDict e :: map PyDict l) with (map PyDict (e :: l)).
  rewrite (manual_loop_keeps _ (e :: l) [] [] Hgen Hnd); [reflexivity|].
  intros e' k _ Hk. inversion Hk.
Qed.

(** X6: validating what a validator returned gives it back unchanged, for
    both validators: a validated list is a fixed point. *)
Theorem validation_is_idempotent (t : table) (raw : pyvalue)
    (max_per_sheet : nat) :
  match manual_viz_service._clean_and_validate_suggestions t raw with
  | Ok out =>
      manual_viz_service._clean_and_validate_suggestions t (PyList (map PyDict out))
        = Ok out
  | Raise _ => True
  end /\
  match viz_service._clean_and_validate_suggestions t raw max_per_sheet with
  | Ok out =>
      viz_service._clean_and_validate_suggestions t (PyList (map PyDict out))
        max_per_sheet = Ok out
  | Raise _ => True
  end.
Proof.
  split.
  - unfold manual_viz_service._clean_and_validate_suggestions at 1.
    destruct raw as [| | | | |[|item items]|]; try reflexivity.
    pose proof (manual_clean_loop_inv (df_columns t) (item :: items) [] []
                  (loop_inv_nil _)) as Hwf.
    destruct (manual_viz_service.clean_loop (df_columns t) (item :: items) [] [])
      as [out|e] eqn:E; [|exact I].
    apply manual_loop_extends in E as (more & -> & Hmore).
    apply manual_validator_keeps; [exact Hmore | apply Hwf].
  - unfold viz_service._clean_and_validate_suggestions at 1.
    destruct raw as [| | | | |[|item items]|]; try reflexivity.
    pose proof (ai_clean_loop_inv max_per_sheet (df_columns t) (item :: items) [] []
                  (loop_inv_nil _)) as Hwf.
    pose proof (ai_loop_bounded max_per_sheet (df_columns t) (item :: items) [] []
                  ltac:(simpl; lia)) as Hlen.
    destruct (viz_service.clean_loop max_per_sheet (df_columns t) (item :: items) [] [])
      as [out|e] eqn:E; [|exact I].
    apply ai_loop_generated in E; [|constructor].
    unfold viz_service._clean_and_validate_suggestions.
    destruct out as [|entry out]; [reflexivity|].
    change (map PyDict (entry :: out)) with (PyDict entry :: map PyDict out).
    change (PyDict entry :: map PyDict out) with (map PyDict (entry :: out)).
    rewrite (ai_loop_truncates max_per_sheet _ _ [] [] (entry :: out)).
    + now rewrite take_ge by exact Hlen.
    + rewrite (manual_loop_keeps _ (entry :: out) [] [] E (proj2 Hwf)); [reflexivity|].
      intros e' k _ Hk. inversion Hk.
    + simpl. lia.
Qed.

End validator_more.

(** ** The validator keeps the order of the candidates *)

Section validator_order.
Context `{Platform}.

Lemma validate_item_normalized cols seen item key entry :
  validate_item cols seen item = Ok (Some (key, entry)) ->
  normalized item = Some entry.
Proof.
  intros E. unfold validate_item in E. destruct item; try discriminate.
  unfold normalized.
  repeat match type of E with
         | context [if ?b then _ else _] => destruct b
         | context [match ?v with _ => _ end] => destruct v
         end; try discriminate; inversion E; reflexivity.
Qed.

Lemma manual_loop_sublist cols items : forall seen cleaned,
  match manual_viz_service.clean_loop cols items seen cleaned with
  | Ok out => exists more, out = cleaned ++ more /\
                           sublist more (omap normalized items)
  | Raise _ => True
  end.
Proof.
  induction items as [|item items IH]; intros seen cleaned; simpl.
  - exists []. split; [now rewrite app_nil_r | constructor].
  - destruct (validate_item cols seen item) as [[[key entry]|]|e] eqn:Ev; [| |exact I].
    + rewrite (validate_item_normalized _ _ _ _ _ Ev).
      specialize (IH (seen ++ [key]) (cleaned ++ [entry])).
      destruct (manual_viz_service.clean_loop _ _ _ _); [|exact I].
      destruct IH as (more & -> & Hsub). exists (entry :: more).
      split; [now rewrite <- app_assoc | now constructor].
    + specialize (IH seen cleaned).
      destruct (manual_viz_service.clean_loop _ _ _ _); [|exact I].
      destruct IH as (more & -> & Hsub). exists more. split; [reflexivity|].
      destruct (normalized item); [now constructor | exact Hsub].
Qed.

Lemma ai_loop_sublist max_per_sheet cols items : forall seen cleaned,
  match viz_service.clean_loop max_per_sheet cols items seen cleaned with
  | Ok out => exists more, out = cleaned ++ more /\
                           sublist more (omap normalized items)
  | Raise _ => True
  end.
Proof.
  induction items as [|item items IH]; intros seen cleaned; simpl.
  - exists []. split; [now rewrite app_nil_r | constructor].
  - destruct (validate_item cols seen item) as [[[key entry]|]|e] eqn:Ev; [| |exact I].
    + rewrite (validate_item_normalized _ _ _ _ _ Ev).
      destruct (max_per_sheet <=? length (cleaned ++ [entry]))%nat.
      * exists [entry]. split; [reflexivity|]. constructor. apply sublist_nil_l.
      * specialize (IH (seen ++ [key]) (cleaned ++ [entry])).
        destruct (viz_service.clean_loop _ _ _ _ _); [|exact I].
        destruct IH as (more & -> & Hsub). exists (entry :: more).
        split; [now rewrite <- app_assoc | now constructor].
    + specialize (IH seen cleaned).
      destruct (viz_service.clean_loop _ _ _ _ _); [|exact I].
      destruct IH as (more & -> & Hsub). exists more. split; [reflexivity|].
      destruct (normalized item); [now constructor | exact Hsub].
Qed.

(** X22: the validators only select. What either of them returns for a
    list of candidates is a subsequence of the candidates as the validator
    writes them down ([normalized]): nothing is invented, nothing is
    reordered, and x, y and the description of an entry are those of its
    candidate. *)
Theorem validator_keeps_candidate_order (t : table) (items : list pyvalue)
    (max_per_sheet : nat) :
  match manual_viz_service._clean_and_validate_suggestions t (PyList items) with
  | Ok out => sublist out (omap normalized items)
  | Raise _ => True
  end /\
  match viz_service._clean_and_validate_suggestions t (PyList items) max_per_sheet with
  | Ok out => sublist out (omap normalized items)
  | Raise _ => True
  end.
Proof.
  unfold manual_viz_service._clean_and_validate_suggestions,
         viz_service._clean_and_validate_suggestions.
  destruct items as [|item items]; [split; constructor|].
  pose proof (manual_loop_sublist (df_columns t) (item :: items) [] []) as Hm.
  pose proof (ai_loop_sublist max_per_sheet (df_columns t) (item :: items) [] []) as Ha.
  split.
  - destruct (manual_viz_service.clean_loop _ _ _ _); [|exact I].
    now destruct Hm as (more & -> & Hsub).
  - destruct (viz_service.clean_loop _ _ _ _ _); [|exact I].
    now destruct Ha as (more & -> & Hsub).
Qed.

End validator_order.

(** ** More on the rule-based generator *)

Lemma nth_seq_id (l : list string) (d : string) :
  map (fun j => nth j l d) (seq 0 (length l)) = l.
Proof.
  induction l as [|a l IH]; [reflexivity|].
  simpl. f_equal. rewrite <- seq_shift, map_map. exact IH.
Qed.

Lemma scatter_loops {A} (mk : string -> string -> A) (l : list string) :
  flat_map
    (fun i => map (fun j => mk (nth i l "") (nth j l ""))
                  (manual_viz_service.range (i + 1) (length l)))
    (manual_viz_service.range 0 (length l - 1))
  = map (fun p => mk (fst p) (snd p)) (pairs_of l).
Proof.
  unfold manual_viz_service.range. induction l as [|a l IH]; [reflexivity|].
  cbn [length pairs_of]. rewrite map_app, map_map. cbn [fst snd].
  replace (S (length l) - 1 - 0)%nat with (length l) by lia.
  destruct l as [|b l]; [reflexivity|].
  cbn [length] in *. cbn [seq flat_map]. f_equal.
  - replace (S (S (length l)) - (0 + 1))%nat with (S (length l)) by lia.
    cbn [Nat.add]. rewrite <- seq_shift, map_map.
    change (S (length l)) with (length (b :: l)).
    rewrite <- (nth_seq_id (b :: l) "") at 2. rewrite map_map. reflexivity.
  - rewrite <- IH.
    replace (S (length l) - 1 - 0)%nat with (length l) by lia.
    rewrite <- seq_shift, flat_map_concat_map, map_map, <- flat_map_concat_map.
    apply flat_map_ext. intros i.
    replace (S (S (length l)) - (S i + 1))%nat with (S (length l) - (i + 1))%nat by lia.
    replace (S i + 1)%nat with (S (i + 1)) by lia.
    rewrite <- seq_shift, map_map. reflexivity.
Qed.

Lemma kinds_of_lookup (t : table) (c : column) (k : kind) :
  NoDup (df_columns t) -> c ∈ t ->
  manual_viz_service.column_datatype (col_name c) (col_data c) = Ok k ->
  adict_get (kinds_of t) (col_name c) = Some k.
Proof.
  induction t as [|c0 t IH]; intros Hnd Hin Hk; [inversion Hin|].
  simpl in Hnd. apply NoDup_cons in Hnd as [Hnot Hnd].
  unfold kinds_of. cbn [omap list_omap]. fold (kinds_of t).
  apply elem_of_cons in Hin as [->|Hin].
  - rewrite Hk. simpl. now rewrite String.eqb_refl.
  - destruct (manual_viz_service.column_datatype (col_name c0) (col_data c0));
      [|now apply IH].
    simpl. destruct (String.eqb (col_name c0) (col_name c)) eqn:E; [|now apply IH].
    apply String.eqb_eq in E. exfalso. apply Hnot. rewrite E.
    now apply list_elem_of_fmap_2.
Qed.

Lemma flat_map_columns {A B} (f g : A -> list B) (l : list A) :
  (forall a, a ∈ l -> f a = g a) -> flat_map f l = flat_map g l.
Proof.
  induction l as [|a l IH]; intros Hfg; [reflexivity|]. simpl.
  rewrite (Hfg a) by left. f_equal. apply IH. intros b Hb. apply Hfg. now right.
Qed.

Lemma proposals_closed_form (t : table) :
  NoDup (df_columns t) ->
  manual_viz_service.generate_manual_suggestions t =
    match first_tz_aware t with
    | Some c => Raise (cannot_interpret (s_dtype (col_data c)))
    | None => Ok (proposals_spec t)
    end.
Proof.
  intros Hnd. unfold manual_viz_service.generate_manual_suggestions, proposals_spec.
  rewrite (get_column_datatype_distinct t Hnd).
  destruct (first_tz_aware t) as [c0|] eqn:Ef; [reflexivity|].
  rewrite !keys_of_kind. f_equal. f_equal; [|f_equal].
  - unfold df_columns. rewrite flat_map_concat_map, map_map, <- flat_map_concat_map.
    apply flat_map_columns. intros c Hc.
    destruct (column_datatype_ok (col_name c) (col_data c)
                (first_tz_aware_none t c Ef Hc)) as [k Hk].
    rewrite (kinds_of_lookup t c k Hnd Hc Hk).
    unfold column_proposals. rewrite Hk. now destruct k.
  - apply (scatter_loops (fun a b => scatter_suggestion (a, b))).
Qed.

(** X7: for a table with distinct column names the rule-based generator
    raises the TypeError of numpy for the first column of a timezone-aware
    dtype, and when there is no such column it returns [proposals_spec]: a
    bar per categorical and a histogram per numerical column in column
    order, then a scatter for every pair of numerical columns with the
    earlier column as x, then the line proposals. *)
Theorem rule_based_proposals_closed_form (t : table) :
  NoDup (df_columns t) ->
  manual_viz_service.generate_manual_suggestions t =
    match first_tz_aware t with
    | Some c => Raise (cannot_interpret (s_dtype (col_data c)))
    | None =>
        Ok (flat_map column_proposals t ++
            map scatter_suggestion (pairs_of (columns_of_kind numerical t)) ++
            match columns_of_kind datetime t with
            | [d] => map (line_suggestion d) (columns_of_kind numerical t)
            | _ => []
            end)
    end.
Proof. apply proposals_closed_form. Qed.

Lemma pairs_of_length (l : list string) :
  (2 * length (pairs_of l) = length l * (length l - 1))%nat.
Proof.
  induction l as [|a l IH]; [reflexivity|].
  cbn [pairs_of length]. rewrite length_app, length_map.
  replace (S (length l) - 1)%nat with (length l) by lia.
  destruct l as [|b l]; [reflexivity|]. cbn [length] in *.
  replace (S (length l) - 1)%nat with (length l) in IH by lia. nia.
Qed.

Lemma column_proposals_length (t : table) :
  length (flat_map column_proposals t)
    = (length (columns_of_kind categorical t) + length (columns_of_kind numerical t))%nat.
Proof.
  unfold columns_of_kind. rewrite !length_map.
  induction t as [|c t IH]; [reflexivity|].
  cbn [flat_map]. rewrite length_app, IH, !filter_cons.
  unfold column_proposals, has_kind.
  destruct (manual_viz_service.column_datatype (col_name c) (col_data c)) as [[]|];
    repeat case_decide; simpl in *; try discriminate; try congruence; lia.
Qed.

(** X8: for a table with distinct column names and no column of a
    timezone-aware dtype, with [c] categorical, [n] numerical and [d]
    datetime columns, the rule-based generator returns a list of
    c + n + n(n-1)/2 proposals, and of n more when d is 1. *)
Theorem rule_based_proposal_count (t : table) :
  NoDup (df_columns t) ->
  first_tz_aware t = None ->
  let c := length (columns_of_kind categorical t) in
  let n := length (columns_of_kind numerical t) in
  let d := length (columns_of_kind datetime t) in
  exists proposals,
    manual_viz_service.generate_manual_suggestions t = Ok proposals /\
    length proposals
      = (c + n + n * (n - 1) / 2 + (if (d =? 1)%nat then n else 0))%nat.
Proof.
  intros Hnd Htz c n d. rewrite (proposals_closed_form t Hnd), Htz.
  eexists. split; [reflexivity|]. unfold proposals_spec.
  rewrite !length_app, column_proposals_length, length_map.
  fold c n. pose proof (pairs_of_length (columns_of_kind numerical t)) as Hp. fold n in Hp.
  assert (Hs : length (pairs_of (columns_of_kind numerical t)) = (n * (n - 1) / 2)%nat).
  { rewrite <- Hp. rewrite Nat.mul_comm. now rewrite Nat.div_mul by lia. }
  rewrite Hs. unfold d.
  destruct (columns_of_kind datetime t) as [|d0 [|d1 ds]]; simpl length;
    try rewrite length_map; simpl; fold n; lia.
Qed.

Lemma columns_of_kind_in k t n : n ∈ columns_of_kind k t -> n ∈ df_columns t.
Proof.
  unfold columns_of_kind, df_columns. intros Hn.
  apply list_elem_of_fmap in Hn as (c & -> & Hc).
  apply list_elem_of_filter in Hc as [_ Hc]. now apply list_elem_of_fmap_2.
Qed.

Lemma columns_of_kind_nodup k t : NoDup (df_columns t) -> NoDup (columns_of_kind k t).
Proof.
  induction t as [|c t IH]; intros Hnd; [constructor|].
  simpl in Hnd. apply NoDup_cons in Hnd as [Hnot Hnd].
  unfold columns_of_kind. rewrite filter_cons. case_decide.
  - simpl. apply NoDup_cons. split; [|now apply IH].
    intros Hin. apply Hnot. exact (columns_of_kind_in k t _ Hin).
  - now apply IH.
Qed.

Lemma pairs_of_in l a b : (a, b) ∈ pairs_of l -> a ∈ l /\ b ∈ l.
Proof.
  induction l as [|c l IH]; simpl; intros Hin; [inversion Hin|].
  apply elem_of_app in Hin as [Hin|Hin].
  - apply list_elem_of_fmap in Hin as (b' & E & Hb). inversion E; subst.
    split; [left | now right].
  - destruct (IH Hin). split; now right.
Qed.

Lemma pairs_of_nodup l : NoDup l -> NoDup (pairs_of l).
Proof.
  induction l as [|c l IH]; intros Hnd; [constructor|].
  apply NoDup_cons in Hnd as [Hnot Hnd]. simpl. apply NoDup_app.
  split; [|split; [|now apply IH]].
  - apply NoDup_fmap_2_strong; [|exact Hnd]. intros x y _ _ E. now inversion E.
  - intros [a b] Hin Hin'. apply list_elem_of_fmap in Hin as (b' & E & _).
    inversion E; subst. apply pairs_of_in in Hin' as [Ha _]. now apply Hnot.
Qed.

Lemma pairs_of_differ l a b : NoDup l -> (a, b) ∈ pairs_of l -> a <> b.
Proof.
  induction l as [|c l IH]; simpl; intros Hnd Hin; [inversion Hin|].
  apply NoDup_cons in Hnd as [Hnot Hnd].
  apply elem_of_app in Hin as [Hin|Hin]; [|now apply IH].
  apply list_elem_of_fmap in Hin as (b' & E & Hb). inversion E; subst.
  intros ->. now apply Hnot.
Qed.

Lemma column_proposals_of t c e :
  c ∈ t -> e ∈ column_proposals c ->
  (e = bar_suggestion (col_name c) /\ col_name c ∈ columns_of_kind categorical t) \/
  (e = histogram_suggestion (col_name c) /\ col_name c ∈ columns_of_kind numerical t).
Proof.
  intros Hc He. unfold column_proposals in He.
  destruct (manual_viz_service.column_datatype (col_name c) (col_data c))
    as [[]|] eqn:E;
    try (inversion He; fail); apply list_elem_of_singleton in He as ->;
    [right | left]; (split; [reflexivity|]);
    unfold columns_of_kind; apply list_elem_of_fmap_2, list_elem_of_filter;
    (split; [unfold has_kind; now rewrite E | exact Hc]).
Qed.

Lemma proposals_spec_of t e : e ∈ proposals_spec t -> proposal_of t e.
Proof.
  unfold proposals_spec. intros He.
  apply elem_of_app in He as [He|He]; [|apply elem_of_app in He as [He|He]].
  - apply list_elem_of_In, in_flat_map in He as (c & Hc & He).
    apply list_elem_of_In in Hc, He.
    destruct (column_proposals_of t c e Hc He) as [[-> H]|[-> H]]; now constructor.
  - apply list_elem_of_fmap in He as ([a b] & -> & Hab).
    apply pairs_of_in in Hab as [Ha Hb]. now constructor.
  - destruct (columns_of_kind datetime t) as [|d [|d' ds]] eqn:E;
      try (inversion He; fail).
    apply list_elem_of_fmap in He as (n & -> & Hn).
    constructor; [rewrite E; left | exact Hn].
Qed.

Lemma proposal_generated t e : proposal_of t e -> generated (df_columns t) e.
Proof.
  intros [c Hc|c Hc|a b Ha Hb|d n Hd Hn];
    apply columns_of_kind_in in Hc || (apply columns_of_kind_in in Ha, Hb)
      || (apply columns_of_kind_in in Hd, Hn).
  - exists "bar", c, PyNone, (PyStr ("Count of " +:+ c)).
    split; [reflexivity|]. split; [apply str_in_list_elem; reflexivity|].
    split; [exact Hc|]. left. repeat split; discriminate.
  - exists "histogram", c, PyNone, (PyStr ("Distribution of " +:+ c)).
    split; [reflexivity|]. split; [apply str_in_list_elem; reflexivity|].
    split; [exact Hc|]. left. repeat split; discriminate.
  - exists "scatter", a, (PyStr b),
      (PyStr ("Relationship between " +:+ a +:+ " and " +:+ b)).
    split; [reflexivity|]. split; [apply str_in_list_elem; reflexivity|].
    split; [exact Ha|]. right. now exists b.
  - exists "line", d, (PyStr n), (PyStr ("Trend of " +:+ n +:+ " over date")).
    split; [reflexivity|]. split; [apply str_in_list_elem; reflexivity|].
    split; [exact Hd|]. right. now exists n.
Qed.

Lemma column_proposals_shape c e :
  e ∈ column_proposals c ->
  e = bar_suggestion (col_name c) \/ e = histogram_suggestion (col_name c).
Proof.
  intros He. assert (Hc : c ∈ [c]) by left.
  destruct (column_proposals_of [c] c e Hc He) as [[-> _]|[-> _]]; [now left | now right].
Qed.

Lemma column_proposals_distinct t :
  NoDup (df_columns t) -> NoDup (map triple (flat_map column_proposals t)).
Proof.
  induction t as [|c t IH]; intros Hnd; [constructor|].
  simpl in Hnd. apply NoDup_cons in Hnd as [Hnot Hnd].
  cbn [flat_map]. rewrite map_app. apply NoDup_app. split; [|split; [|now apply IH]].
  - unfold column_proposals.
    destruct (manual_viz_service.column_datatype (col_name c) (col_data c)) as [[]|];
      simpl; first [apply NoDup_singleton | apply NoDup_nil_2].
  - intros x Hx Hx'. apply Hnot.
    apply list_elem_of_fmap in Hx as (e & -> & He).
    apply list_elem_of_fmap in Hx' as (e' & E & He').
    apply list_elem_of_In, in_flat_map in He' as (c' & Hc' & He').
    apply list_elem_of_In in Hc', He'.
    assert (Hn : col_name c = col_name c').
    { destruct (column_proposals_shape c e He) as [->| ->];
        destruct (column_proposals_shape c' e' He') as [->| ->];
        unfold triple in E; simpl in E; congruence. }
    rewrite Hn. now apply list_elem_of_fmap_2.
Qed.

Lemma proposals_distinct t :
  NoDup (df_columns t) -> NoDup (map triple (proposals_spec t)).
Proof.
  intros Hnd. unfold proposals_spec. rewrite !map_app.
  pose proof (columns_of_kind_nodup numerical t Hnd) as Hnum.
  apply NoDup_app. split; [now apply column_proposals_distinct|].
  split; [|apply NoDup_app; split; [|split]].
  - intros x Hx Hx'. apply list_elem_of_fmap in Hx as (e & -> & He).
    apply list_elem_of_In, in_flat_map in He as (c & _ & He).
    apply list_elem_of_In, column_proposals_shape in He.
    apply elem_of_app in Hx' as [Hx'|Hx'].
    + apply list_elem_of_fmap in Hx' as (e' & E & He').
      apply list_elem_of_fmap in He' as (ab & -> & _).
      destruct He as [->| ->]; unfold triple in E; simpl in E; congruence.
    + destruct (columns_of_kind datetime t) as [|d [|d' ds]];
        try (inversion Hx'; fail).
      apply list_elem_of_fmap in Hx' as (e' & E & He').
      apply list_elem_of_fmap in He' as (n & -> & _).
      destruct He as [->| ->]; unfold triple in E; simpl in E; congruence.
  - rewrite map_map. apply NoDup_fmap_2_strong; [|now apply pairs_of_nodup].
    intros [a b] [a' b'] _ _ E. unfold triple in E. simpl in E. congruence.
  - intros x Hx Hx'. apply list_elem_of_fmap in Hx as (e & -> & He).
    apply list_elem_of_fmap in He as (ab & -> & _).
    destruct (columns_of_kind datetime t) as [|d [|d' ds]];
      try (inversion Hx'; fail).
    apply list_elem_of_fmap in Hx' as (e' & E & He').
    apply list_elem_of_fmap in He' as (n & -> & _).
    unfold triple in E; simpl in E; congruence.
  - destruct (columns_of_kind datetime t) as [|d [|d' ds]]; try apply NoDup_nil_2.
    rewrite map_map. apply NoDup_fmap_2_strong; [|exact Hnum].
    intros n n' _ _ E. unfold triple in E. simpl in E. congruence.
Qed.

Lemma proposals_generated t : Forall (generated (df_columns t)) (proposals_spec t).
Proof.
  apply Forall_forall. intros e He. now apply proposal_generated, proposals_spec_of.
Qed.

Section generator_more.
Context `{Platform}.

Lemma manual_suggestions_run (df : nat) (t : table) (w : world) :
  frames w !! df = Some t -> NoDup (df_columns t) ->
  manual_viz_service._get_viz_suggestions_for_df df w =
    (manual_viz_service.generate_manual_suggestions (prepared t),
     set_frames (frames w ++ [prepared t]) w).
Proof.
  intros Ht Hnd. unfold manual_viz_service._get_viz_suggestions_for_df.
  rewrite (bind_ok _ _ _ _ _ (prepare_run _ _ _ Ht)).
  assert (Hr : df_read (length (frames w)) (set_frames (frames w ++ [prepared t]) w)
                 = (Ok (prepared t), set_frames (frames w ++ [prepared t]) w)).
  { unfold df_read, gets. simpl. rewrite lookup_app_r by lia.
    now rewrite Nat.sub_diag. }
  rewrite (bind_ok _ _ _ _ _ Hr). cbv beta zeta.
  assert (Hnd' : NoDup (df_columns (prepared t))) by now rewrite prepared_columns.
  rewrite (proposals_closed_form _ Hnd').
  destruct (first_tz_aware (prepared t)); [reflexivity|].
  unfold bind, lift.
  rewrite (manual_validator_keeps (prepared t) (proposals_spec (prepared t))
             (proposals_generated _) (proposals_distinct _ Hnd')).
  reflexivity.
Qed.

(** X9: on a sheet with distinct column names the rule-based suggestion call
    ends as the generator does on the date-coerced copy: it returns exactly
    the proposals the generator returns, the validator dropping nothing and
    changing nothing, or raises the exception the generator raises; the
    only effect is the copy made by the pre-pass. *)
Theorem rule_based_proposals_pass_validation (df : nat) (t : table) (w : world) :
  frames w !! df = Some t -> NoDup (df_columns t) ->
  manual_viz_service._get_viz_suggestions_for_df df w =
    (manual_viz_service.generate_manual_suggestions (prepared t),
     set_frames (frames w ++ [prepared t]) w).
Proof. apply manual_suggestions_run. Qed.

End generator_more.

(** X10: a column that the type inference calls primary_key, foreign_key or
    distinct_categorical is never the x or the y of a rule-based proposal:
    every column a proposal names is categorical, numerical or datetime in
    the kinds [get_column_datatype] returns. *)
Theorem key_columns_are_never_proposed (t : table) (proposals : list pydict)
    (e : pydict) (n : string) :
  NoDup (df_columns t) ->
  manual_viz_service.generate_manual_suggestions t = Ok proposals ->
  e ∈ proposals ->
  dict_get e "x" PyNone = PyStr n \/ dict_get e "y" PyNone = PyStr n ->
  exists datatype k,
    manual_viz_service.get_column_datatype t = Ok datatype /\
    adict_get datatype n = Some k /\
    (k = categorical \/ k = numerical \/ k = datetime).
Proof.
  intros Hnd Hg He Hn. rewrite (proposals_closed_form t Hnd) in Hg.
  rewrite (get_column_datatype_distinct t Hnd).
  destruct (first_tz_aware t) as [c0|] eqn:Ef; [discriminate|].
  inversion Hg; subst proposals. clear Hg.
  exists (kinds_of t).
  assert (Hk : forall k m, m ∈ columns_of_kind k t ->
                 adict_get (kinds_of t) m = Some k).
  { intros k m Hm. unfold columns_of_kind in Hm.
    apply list_elem_of_fmap in Hm as (c & -> & Hc).
    apply list_elem_of_filter in Hc as [Hkc Hc]. unfold has_kind in Hkc.
    destruct (manual_viz_service.column_datatype (col_name c) (col_data c))
      as [k'|] eqn:E; [|discriminate].
    rewrite (kinds_of_lookup t c k' Hnd Hc E). f_equal.
    destruct k', k; (reflexivity || discriminate). }
  destruct (proposals_spec_of t e He) as [c Hc|c Hc|a b Ha Hb|d m Hd Hm];
    simpl in Hn; destruct Hn as [Hn|Hn]; inversion Hn; subst.
  - exists categorical. split; [reflexivity|]. split; [now apply Hk | now left].
  - exists numerical. split; [reflexivity|]. split; [now apply Hk | right; now left].
  - exists numerical. split; [reflexivity|]. split; [now apply Hk | right; now left].
  - exists numerical. split; [reflexivity|]. split; [now apply Hk | right; now left].
  - exists datetime. split; [reflexivity|]. split; [now apply Hk | right; now right].
  - exists numerical. split; [reflexivity|]. split; [now apply Hk | right; now left].
Qed.

(** ** The figures of the renderer *)

Section renderer_more.
Context `{Platform}.

Lemma draws_or_raises_bind {A} (m : M A) (k : A -> M (option plot)) :
  (forall a, draws_or_raises (k a)) -> draws_or_raises (bind m k).
Proof.
  intros Hk w w1. unfold bind. destruct (m w) as [[a|e] w2]; [apply Hk | discriminate].
Qed.

Lemma draw_known df ct x y :
  ct ∈ chart_types -> draws_or_raises (manual_viz_service.draw df (PyStr ct) x y).
Proof.
  intros Hct. unfold manual_viz_service.draw.
  apply draws_or_raises_bind; intros t.
  destruct (df_getitem t x); [|intros w w1; discriminate].
  repeat match goal with
         | |- draws_or_raises (bind _ _) => apply draws_or_raises_bind; intros ?
         | |- draws_or_raises (ret (Some _)) => intros ? ?; discriminate
         | |- draws_or_raises (if ?b then _ else _) => destruct b eqn:?
         | |- draws_or_raises (match ?v with _ => _ end) => destruct v
         end.
  exfalso. unfold chart_types in Hct.
  repeat (apply elem_of_cons in Hct as [->|Hct]; [simpl in *; discriminate|]).
  inversion Hct.
Qed.

Lemma draw_unknown df t ct x y w :
  ct ∉ chart_types -> frames w !! df = Some t -> x ∈ df_columns t ->
  manual_viz_service.draw df (PyStr ct) x y w = (Ok None, w).
Proof.
  intros Hct Ht Hx. unfold manual_viz_service.draw.
  rewrite (bind_ok _ _ _ _ _ (df_read_some _ _ _ Ht)).
  apply df_getitem_some_iff in Hx as [sx ->].
  assert (Hne : forall s, s ∈ chart_types -> py_eqb (PyStr ct) (PyStr s) = false).
  { intros s Hs. simpl. apply String.eqb_neq. intros ->. now apply Hct. }
  rewrite !Hne by (apply str_in_list_elem; reflexivity). reflexivity.
Qed.

Lemma generate_chart_accounting (df : nat) (t : table) (ct x : string)
    (y : option string) (w : world) :
  frames w !! df = Some t ->
  exists img w',
    manual_viz_service.generate_chart df (PyStr ct) (PyStr x) (py_optional y) w
      = (Ok img, w') /\
    (ct ∈ chart_types -> open_figures w' = open_figures w) /\
    (x ∉ df_columns t \/ (exists n, y = Some n /\ n ∉ df_columns t) ->
     img = None /\ w' = w) /\
    (ct ∉ chart_types -> x ∈ df_columns t ->
     (forall n, y = Some n -> n ∈ df_columns t) ->
     img = None /\ w' = set_open_figures (S (open_figures w)) w).
Proof.
  intros Ht. unfold manual_viz_service.generate_chart.
  rewrite (bind_ok _ _ _ _ _ (df_read_some _ _ _ Ht)).
  unfold bind at 1, lift. simpl str_set_member.
  destruct (bool_decide (x ∈ df_columns t)) eqn:Ex.
  2: { apply bool_decide_eq_false in Ex. exists None, w.
       split; [reflexivity|]. split; [reflexivity|]. split; [auto|].
       intros _ Hx. contradiction. }
  apply bool_decide_eq_true in Ex.
  assert (Hbody : forall y',
    exists img w',
      (plt_figure ;;
       try_except (manual_viz_service.draw_and_save df (PyStr ct) x y')
                  (fun _ => plt_close ;; ret None)) w = (Ok img, w') /\
      (ct ∈ chart_types -> open_figures w' = open_figures w) /\
      (ct ∉ chart_types ->
       img = None /\ w' = set_open_figures (S (open_figures w)) w)).
  { intros y'. unfold bind at 1, plt_figure, modify, try_except.
    destruct (decide (ct ∈ chart_types)) as [Hct|Hct].
    - destruct (manual_viz_service.draw_and_save df (PyStr ct) x y'
                  (set_open_figures (S (open_figures w)) w)) as [[img|e] w1] eqn:E.
      + exists img, w1. split; [reflexivity|]. split; [|contradiction]. intros _.
        unfold manual_viz_service.draw_and_save in E.
        apply bind_inv_ok in E as (drawn & w2 & Ed & E).
        pose proof (figures_kept_draw df (PyStr ct) x y'
                      (set_open_figures (S (open_figures w)) w)) as Hk.
        rewrite Ed in Hk. simpl in Hk.
        destruct drawn as [p|]; [|exfalso; exact (draw_known df ct x y' Hct _ _ Ed)].
        apply bind_inv_ok in E as (img' & w3 & Es & E).
        unfold lift in Es. inversion Es; subst.
        unfold bind, plt_close, modify, ret in E. inversion E; subst.
        simpl. now rewrite Hk.
      + apply draw_and_save_raise in E. simpl in E.
        eexists _, _. split; [reflexivity|]. split; [|contradiction].
        intros _. simpl. now rewrite E.
    - unfold manual_viz_service.draw_and_save.
      rewrite (bind_ok _ _ _ _ _
                 (draw_unknown df t ct x y' (set_open_figures (S (open_figures w)) w)
                    Hct Ht Ex)).
      exists None, (set_open_figures (S (open_figures w)) w).
      split; [reflexivity|]. split; [contradiction|]. intros _. now split. }
  destruct y as [yn|]; simpl py_optional; unfold bind at 1, lift;
    unfold manual_viz_service.optional_member; simpl.
  - destruct (bool_decide (yn ∈ df_columns t)) eqn:Ey.
    + apply bool_decide_eq_true in Ey.
      destruct (Hbody (Some yn)) as (img & w' & E & Hk & Hu). exists img, w'.
      split; [exact E|]. split; [exact Hk|]. split.
      * intros [Hx|(n & En & Hn)]; [contradiction|]. inversion En; subst. contradiction.
      * intros Hct _ _. now apply Hu.
    + apply bool_decide_eq_false in Ey. exists None, w.
      split; [reflexivity|]. split; [reflexivity|]. split; [auto|].
      intros _ _ Hy. exfalso. apply Ey. now apply Hy.
  - destruct (Hbody None) as (img & w' & E & Hk & Hu). exists img, w'.
    split; [exact E|]. split; [exact Hk|]. split.
    + intros [Hx|(n & En & _)]; [contradiction | discriminate].
    + intros Hct _ _. now apply Hu.
Qed.

(** X11: the figures [generate_chart] leaves open. With a recognized chart
    type as many figures are open after the call as before, whatever the
    drawing does. When x or y is not a column nothing happens at all. With
    any other chart type and columns that exist the call returns None and
    the figure it opened stays open; nothing else changes. *)
Theorem renderer_figure_accounting (df : nat) (t : table) (ct x : string)
    (y : option string) (w : world) :
  frames w !! df = Some t -> NoDup (df_columns t) ->
  exists img w',
    manual_viz_service.generate_chart df (PyStr ct) (PyStr x) (py_optional y) w
      = (Ok img, w') /\
    (ct ∈ chart_types -> open_figures w' = open_figures w) /\
    (x ∉ df_columns t \/ (exists n, y = Some n /\ n ∉ df_columns t) ->
     img = None /\ w' = w) /\
    (ct ∉ chart_types -> x ∈ df_columns t ->
     (forall n, y = Some n -> n ∈ df_columns t) ->
     img = None /\ w' = set_open_figures (S (open_figures w)) w).
Proof. intros Ht _. now apply generate_chart_accounting. Qed.

End renderer_more.

(** ** The statistical summary *)

Lemma adict_fold_distinct {A V} (key : A -> string) (val : A -> V) (rest : list A) :
  forall acc : list (string * V),
  NoDup (map fst acc ++ map key rest) ->
  fold_left (fun d a => adict_set d (key a) (val a)) rest acc
    = acc ++ map (fun a => (key a, val a)) rest.
Proof.
  induction rest as [|a rest IH]; intros acc Hnd; simpl.
  - now rewrite app_nil_r.
  - simpl in Hnd. rewrite adict_set_fresh.
    + rewrite IH; [now rewrite <- app_assoc|].
      rewrite map_app. simpl. now rewrite <- app_assoc.
    + apply NoDup_app in Hnd as (_ & Hdisj & _). intros Hin.
      apply (Hdisj _ Hin). left.
Qed.

Lemma adict_get_map {A V} (key : A -> string) (val : A -> V) (l : list A) (a : A) :
  NoDup (map key l) -> a ∈ l ->
  adict_get (map (fun a => (key a, val a)) l) (key a) = Some (val a).
Proof.
  induction l as [|a0 l IH]; intros Hnd Hin; [inversion Hin|].
  simpl in Hnd. apply NoDup_cons in Hnd as [Hnot Hnd]. simpl.
  apply elem_of_cons in Hin as [->|Hin].
  - now rewrite String.eqb_refl.
  - destruct (String.eqb (key a0) (key a)) eqn:E; [|now apply IH].
    apply String.eqb_eq in E. exfalso. apply Hnot. rewrite E.
    now apply list_elem_of_fmap_2.
Qed.

Lemma distinct_cells_le l : forall seen,
  (length (distinct_cells l seen)
     <= length seen + length (filter (fun c => notna c = true) l))%nat.
Proof.
  induction l as [|c l IH]; intros seen; simpl; [lia|].
  destruct (notna c) eqn:Ec; simpl.
  - rewrite filter_cons_True by exact Ec. simpl.
    destruct (existsb (cell_eqb c) seen); simpl.
    + specialize (IH seen). lia.
    + specialize (IH (seen ++ [c])). rewrite length_app in IH. simpl in IH. lia.
  - rewrite filter_cons_False by congruence. apply IH.
Qed.

Lemma distinct_cells_ge l : forall seen,
  (length seen <= length (distinct_cells l seen))%nat.
Proof.
  induction l as [|c l IH]; intros seen; simpl; [lia|].
  destruct (notna c && negb (existsb (cell_eqb c) seen)); [|apply IH].
  specialize (IH (seen ++ [c])). rewrite length_app in IH. simpl in IH. lia.
Qed.

Lemma distinct_cells_pos l :
  filter (fun c => notna c = true) l <> [] ->
  (1 <= length (distinct_cells l []))%nat.
Proof.
  induction l as [|c l IH]; intros Hl; [contradiction|]. simpl.
  destruct (notna c) eqn:Ec; simpl.
  - apply (distinct_cells_ge l [c]).
  - apply IH. now rewrite filter_cons_False in Hl by congruence.
Qed.

Lemma missing_and_present (l : list cell) :
  (length (filter (fun c => notna c = true) l)
   + length (filter (fun c => notna c = false) l) = length l)%nat.
Proof.
  induction l as [|c l IH]; [reflexivity|].
  destruct (notna c) eqn:Ec.
  - rewrite filter_cons_True by exact Ec.
    rewrite (filter_cons_False (fun c => notna c = false)) by congruence.
    simpl. lia.
  - rewrite filter_cons_False by congruence.
    rewrite (filter_cons_True (fun c => notna c = false)) by exact Ec.
    simpl. lia.
Qed.

(** X12: the statistical summary of a table with distinct column names has
    one entry per column, in column order; for every column the count of
    present values and the count of missing values add up to the number of
    cells, and when an entry reports [unique], some value repeats:
    1 <= unique < count. *)
Theorem summary_counts_add_up (t : table) (c : column) :
  NoDup (df_columns t) -> c ∈ t ->
  map fst (stats_service.summary (stats_service.summarize t)) = df_columns t /\
  exists e m,
    adict_get (stats_service.summary (stats_service.summarize t)) (col_name c)
      = Some e /\
    adict_get (stats_service.missing_count (stats_service.summarize t)) (col_name c)
      = Some m /\
    stats_service.count_ e + m = Z.of_nat (length (s_values (col_data c))) /\
    0 <= m /\
    (forall u, stats_service.unique_ e = Some u -> 1 <= u < stats_service.count_ e).
Proof.
  intros Hnd Hc. unfold stats_service.summarize. simpl.
  rewrite (adict_fold_distinct col_name
             (fun c => stats_service.summarize_column (col_name c) (col_data c)) t [])
    by exact Hnd.
  rewrite (adict_fold_distinct col_name
             (fun c => Z.of_nat (length (filter (fun v => notna v = false)
                                           (s_values (col_data c))))) t [])
    by exact Hnd.
  simpl. split; [now rewrite map_map|].
  rewrite (adict_get_map col_name _ t c Hnd Hc).
  rewrite (adict_get_map col_name _ t c Hnd Hc).
  eexists _, _. split; [reflexivity|]. split; [reflexivity|].
  pose proof (missing_and_present (s_values (col_data c))) as Hsum.
  split; [|split; [lia|]].
  - unfold stats_service.summarize_column, series_count. simpl. lia.
  - intros u Hu. unfold stats_service.summarize_column in Hu. simpl in Hu.
    pose proof (distinct_cells_le (s_values (col_data c)) []) as Hle.
    assert (Hne : (series_count (col_data c) =? series_nunique (col_data c)) = false).
    { unfold stats_service.column_type in Hu.
      destruct (is_numeric_dtype (s_dtype (col_data c))); [discriminate|].
      destruct (series_count (col_data c) =? series_nunique (col_data c));
        [|reflexivity].
      destruct (str_contains "id" (str_lower (col_name c))); discriminate. }
    assert (Eu : u = series_nunique (col_data c)).
    { destruct (stats_service.column_type (col_name c) (col_data c));
        inversion Hu; reflexivity. }
    apply Z.eqb_neq in Hne. subst u. simpl.
    unfold series_count, series_nunique in *. simpl in Hle.
    assert (Hpos : filter (fun c => notna c = true) (s_values (col_data c)) <> []).
    { intros E. rewrite E in Hne, Hle. simpl in Hne, Hle.
      apply Hne. f_equal. lia. }
    pose proof (distinct_cells_pos _ Hpos). lia.
Qed.

(** ** The preview *)

Lemma nth_take {A} (l : list A) (d : A) : forall i k,
  (i < k)%nat -> nth i (take k l) d = nth i l d.
Proof.
  induction l as [|a l IH]; intros i k Hik; [now destruct k, i|].
  destruct k as [|k]; [lia|]. destruct i as [|i]; [reflexivity|].
  simpl. apply IH. lia.
Qed.

Lemma head_cells_length n cells :
  Z.of_nat (length (preview_service.head_cells n cells))
    = rows_kept n (Z.of_nat (length cells)).
Proof.
  unfold preview_service.head_cells, rows_kept.
  destruct (n <? 0) eqn:En; rewrite length_take; [apply Z.ltb_lt in En | apply Z.ltb_ge in En]; lia.
Qed.

Lemma df_head_columns n t : df_columns (preview_service.df_head n t) = df_columns t.
Proof. unfold preview_service.df_head, df_columns. now rewrite map_map. Qed.

Lemma df_head_rows n t :
  excel_reader_service.df_n_rows (preview_service.df_head n t)
    = rows_kept n (excel_reader_service.df_n_rows t).
Proof.
  destruct t as [|c t]; simpl.
  - unfold rows_kept. destruct (n <? 0) eqn:En;
      [apply Z.ltb_lt in En | apply Z.ltb_ge in En]; lia.
  - apply head_cells_length.
Qed.

(** X13: the preview of a rectangular sheet with distinct column names
    lists the columns of the sheet and has the rows [head(n)] keeps: the
    first n of them, or all but the last -n when n is negative; row i maps
    every column name to the cell of that column in row i of the sheet.
    The call changes nothing. *)
Theorem preview_rows_are_sheet_rows (sid name : string) (n : Z) (df : nat)
    (t : table) (w : world) :
  get_sheet_df sid name w = (Ok df, w) -> frames w !! df = Some t ->
  NoDup (df_columns t) -> rectangular t ->
  exists p,
    preview_service.get_preview_rows sid name n w = (Ok p, w) /\
    preview_service.columns p = df_columns t /\
    Z.of_nat (length (preview_service.rows p))
      = rows_kept n (excel_reader_service.df_n_rows t) /\
    forall i row, preview_service.rows p !! i = Some row ->
      map fst row = df_columns t /\
      forall c, c ∈ t ->
        adict_get row (col_name c) = Some (nth i (s_values (col_data c)) NA).
Proof.
  intros Hs Ht Hnd Hrect. unfold preview_service.get_preview_rows.
  rewrite (bind_ok _ _ _ _ _ Hs), (bind_ok _ _ _ _ _ (df_read_some _ _ _ Ht)).
  eexists. split; [reflexivity|]. simpl.
  split; [apply df_head_columns|].
  unfold preview_service.to_records. rewrite length_map, length_seq, df_head_rows.
  split.
  { assert (0 <= excel_reader_service.df_n_rows t) by (destruct t; simpl; lia).
    unfold rows_kept.
    destruct (n <? 0) eqn:En; [apply Z.ltb_lt in En | apply Z.ltb_ge in En]; lia. }
  intros i row Hrow. rewrite list_lookup_fmap in Hrow.
  destruct (seq 0 _ !! i) as [j|] eqn:Ej; [|discriminate].
  apply lookup_seq in Ej as [-> Hi]. simpl in Hrow, Hi. inversion Hrow as [Er]. clear Hrow.
  assert (Hnd' : NoDup (map fst (@nil (string * cell))
                        ++ map col_name (preview_service.df_head n t))).
  { simpl. fold (df_columns (preview_service.df_head n t)).
    now rewrite df_head_columns. }
  rewrite (adict_fold_distinct col_name
             (fun c => nth i (s_values (col_data c)) NA)
             (preview_service.df_head n t) [] Hnd').
  simpl. split.
  { rewrite map_map. simpl. apply df_head_columns. }
  intros c Hc.
  unfold preview_service.df_head at 1. rewrite map_map. simpl.
  rewrite (adict_get_map col_name
             (fun c => nth i (preview_service.head_cells n (s_values (col_data c))) NA)
             t c Hnd Hc).
  f_equal. unfold rectangular in Hrect.
  rewrite Forall_forall in Hrect. specialize (Hrect c Hc).
  unfold preview_service.head_cells, rows_kept in *.
  destruct (n <? 0) eqn:En; [apply Z.ltb_lt in En | apply Z.ltb_ge in En];
    apply nth_take; lia.
Qed.

(** ** The domain of a workbook *)

Lemma prefix_before_space k : forall a b,
  spaceless k = true ->
  String.prefix k (a +:+ String " " b) = String.prefix k a.
Proof.
  induction k as [|c k IH]; intros a b Hk; [now destruct a|].
  simpl in Hk. apply andb_true_iff in Hk as [Hc Hk].
  destruct a as [|x a]; simpl.
  - destruct (ascii_dec c " ") as [->|]; [discriminate | reflexivity].
  - destruct (ascii_dec c x); [now apply IH | reflexivity].
Qed.

Lemma contains_across_space k a b :
  spaceless k = true -> k <> "" ->
  str_contains k (a +:+ String " " b) = str_contains k a || str_contains k b.
Proof.
  intros Hk Hne. induction a as [|x a IH].
  - destruct k as [|c k]; [contradiction|]. simpl in Hk.
    apply andb_true_iff in Hk as [Hc Hk]. simpl.
    destruct (ascii_dec c " ") as [->|]; [discriminate | reflexivity].
  - change (String x a +:+ String " " b) with (String x (a +:+ String " " b)).
    cbn [str_contains]. rewrite IH.
    change (String x (a +:+ String " " b)) with (String x a +:+ String " " b).
    rewrite (prefix_before_space k (String x a) b Hk). now rewrite orb_assoc.
Qed.

Lemma join_contains k l :
  spaceless k = true -> k <> "" ->
  str_contains k (domain_logic_service.join_space l) = existsb (str_contains k) l.
Proof.
  intros Hk Hne. induction l as [|p l IH].
  - destruct k; [contradiction | reflexivity].
  - destruct l as [|q rest].
    + simpl. now rewrite orb_false_r.
    + change (domain_logic_service.join_space (p :: q :: rest))
        with (p +:+ String " " (domain_logic_service.join_space (q :: rest))).
      rewrite (contains_across_space k _ _ Hk Hne), IH. reflexivity.
Qed.

Lemma any_key_mentions keys cols :
  Forall (fun k => spaceless k = true /\ k <> "") keys ->
  existsb (fun k => str_contains k
                      (domain_logic_service.join_space (map str_lower cols))) keys = true
  <-> mentions keys cols.
Proof.
  intros Hkeys. rewrite Forall_forall in Hkeys. rewrite existsb_exists. split.
  - intros (k & Hk & E). apply list_elem_of_In in Hk.
    destruct (Hkeys k Hk) as [Hs Hne]. rewrite (join_contains k _ Hs Hne) in E.
    apply existsb_exists in E as (c' & Hc' & E).
    apply in_map_iff in Hc' as (c & <- & Hc). exists c, k.
    split; [now apply list_elem_of_In|]. now split.
  - intros (c & k & Hc & Hk & E). exists k. split; [now apply list_elem_of_In|].
    destruct (Hkeys k Hk) as [Hs Hne]. rewrite (join_contains k _ Hs Hne).
    apply existsb_exists. exists (str_lower c). split; [|exact E].
    apply in_map. now apply list_elem_of_In.
Qed.

Lemma lower_all_run (labels : list pyvalue) :
  domain_logic_service.lower_all labels =
    match first_non_text labels with
    | Some c => Raise (no_attribute c "lower")
    | None => Ok (map str_lower (omap text_of labels))
    end /\
  (first_non_text labels = None -> labels = map PyStr (omap text_of labels)).
Proof.
  unfold first_non_text. induction labels as [|c labels [IH Htext]]; [now split|].
  destruct c; cbn [domain_logic_service.lower_all domain_logic_service.label_lower
                   List.find]; try (split; [reflexivity | discriminate]).
  rewrite IH. destruct (List.find _ labels).
  - split; [reflexivity | discriminate].
  - split; [reflexivity|]. intros _. cbn [omap list_omap text_of map].
    f_equal. now apply Htext.
Qed.

(** X14: the domain guessed from the column labels. When every label is a
    string, it is the domain of the first key group, in the order retail,
    manufacturing, education, of which some key occurs inside one column
    name in lower case, and unknown when there is none: joining the names
    with spaces never makes a key match across two columns. When some
    label is not a string, the call raises the AttributeError of the first
    such label, which has no method [lower]. *)
Theorem domain_is_first_mentioned_group (labels : list pyvalue) :
  match first_non_text labels with
  | Some c =>
      domain_logic_service.infer_domain_from_columns labels
        = Raise (no_attribute c "lower")
  | None =>
      exists cols d,
        labels = map PyStr cols /\
        domain_logic_service.infer_domain_from_columns labels = Ok d /\
        let r := mentions domain_logic_service.retail_keys cols in
        let m := mentions domain_logic_service.manufacturing_keys cols in
        let e := mentions domain_logic_service.education_keys cols in
        (d = domain_logic_service.retail <-> r) /\
        (d = domain_logic_service.manufacturing <-> ~ r /\ m) /\
        (d = domain_logic_service.education <-> ~ r /\ ~ m /\ e) /\
        (d = domain_logic_service.unknown <-> ~ r /\ ~ m /\ ~ e)
  end.
Proof.
  destruct (lower_all_run labels) as [Erun Htext].
  unfold domain_logic_service.infer_domain_from_columns. rewrite Erun.
  destruct (first_non_text labels) as [c|]; [reflexivity|].
  set (cols := omap text_of labels) in *.
  eexists cols, _. split; [now apply Htext|]. split; [reflexivity|].
  assert (Hkeys : forall keys,
            keys = domain_logic_service.retail_keys \/
            keys = domain_logic_service.manufacturing_keys \/
            keys = domain_logic_service.education_keys ->
            Forall (fun k => spaceless k = true /\ k <> "") keys).
  { intros keys [->|[->| ->]]; repeat constructor; discriminate. }
  pose proof (any_key_mentions _ cols (Hkeys _ (or_introl eq_refl))) as Hr.
  pose proof (any_key_mentions _ cols (Hkeys _ (or_intror (or_introl eq_refl)))) as Hm.
  pose proof (any_key_mentions _ cols (Hkeys _ (or_intror (or_intror eq_refl)))) as He.
  cbv zeta.
  destruct (existsb _ domain_logic_service.retail_keys);
    destruct (existsb _ domain_logic_service.manufacturing_keys);
    destruct (existsb _ domain_logic_service.education_keys);
    intuition (discriminate || auto).
Qed.

(** ** The oracle-assisted suggestions, whatever the oracle answers *)

Section oracle_more.
Context `{Platform}.

Lemma ai_validator_shape (t : table) (raw : pyvalue) (max_per_sheet : nat) :
  match viz_service._clean_and_validate_suggestions t raw max_per_sheet with
  | Ok out => well_formed (df_columns t) out /\
              (length out <= Nat.max 1 max_per_sheet)%nat
  | Raise e => unhashable_error e
  end.
Proof.
  unfold viz_service._clean_and_validate_suggestions.
  assert (Hnil : well_formed (df_columns t) [] /\ (length (@nil pydict) <= Nat.max 1 max_per_sheet)%nat).
  { split; [apply (loop_inv_nil (df_columns t)) | simpl; lia]. }
  destruct raw as [| | | | |[|item items]|]; try exact Hnil.
  pose proof (ai_clean_loop_inv max_per_sheet (df_columns t) (item :: items) [] []
                (loop_inv_nil _)) as Hwf.
  pose proof (ai_loop_bounded max_per_sheet (df_columns t) (item :: items) [] []) as Hb.
  pose proof (ai_loop_ok max_per_sheet (df_columns t) (item :: items) [] []) as Hok.
  destruct (viz_service.clean_loop max_per_sheet (df_columns t) (item :: items) [] []).
  - split; [exact Hwf | apply Hb; simpl; lia].
  - apply Hok.
Qed.

Lemma fallback_well_formed (t : table) :
  well_formed (df_columns t) (fallback_spec t) /\ (length (fallback_spec t) <= 2)%nat.
Proof.
  split.
  - destruct (fallback_spec t) as [|e rest] eqn:E; [apply (loop_inv_nil (df_columns t))|].
    pose proof (fallback_validates t e rest E) as Hv.
    pose proof (ai_validator_shape t (PyList (map PyDict (fallback_spec t))) 12) as Hs.
    rewrite Hv in Hs. rewrite <- E. apply Hs.
  - apply fallback_length.
Qed.

Lemma ask_llm_total df t w :
  frames w !! df = Some t ->
  exists r w2,
    viz_service.ask_llm_for_visualizations df w = (r, w2) /\
    frames w2 = frames w /\ open_figures w2 = open_figures w /\
    (oracle_calls w <= oracle_calls w2 <= S (oracle_calls w))%nat /\
    (forall e, r = Raise e -> answer_error e).
Proof.
  intros Ht. unfold viz_service.ask_llm_for_visualizations.
  destruct viz_service.client as [key|].
  - rewrite (bind_ok _ _ _ _ _ (df_read_some _ _ _ Ht)).
    unfold bind, gets, modify, ret, raise.
    destruct (groq_chat (oracle_calls w) _) as [[|[raw|] others]|];
      eexists _, _; (split; [reflexivity|]); simpl;
      (split; [reflexivity|]); (split; [reflexivity|]); (split; [lia|]);
      intros e' E; inversion E; subst; unfold answer_error; auto.
  - exists (Ok PyNone), w. split; [reflexivity|]. split; [reflexivity|].
    split; [reflexivity|]. split; [lia | discriminate].
Qed.

Lemma ai_suggestions_shape (df : nat) (t : table) (w : world) :
  frames w !! df = Some t ->
  exists r w',
    viz_service._get_viz_suggestions_for_df df w = (r, w') /\
    frames w' = frames w ++ [prepared t] /\ open_figures w' = open_figures w /\
    (oracle_calls w <= oracle_calls w' <= S (oracle_calls w))%nat /\
    match r with
    | Ok out =>
        (length out <= 12)%nat /\ well_formed (df_columns t) out /\
        (out = [] -> fallback_spec (prepared t) = [])
    | Raise e => unhashable_error e \/ answer_error e
    end.
Proof.
  intros Ht. unfold viz_service._get_viz_suggestions_for_df,
                    viz_service._prepare_df_for_viz.
  rewrite (bind_ok _ _ _ _ _ (prepare_run _ _ _ Ht)).
  set (w1 := set_frames (frames w ++ [prepared t]) w).
  assert (H1 : frames w1 !! length (frames w) = Some (prepared t)) by apply lookup_fresh.
  destruct (ask_llm_total _ _ w1 H1) as (r0 & w2 & Eask & Hfr & Hfig & Hcalls & Hans).
  destruct r0 as [raw|e0].
  2: { exists (Raise e0), w2. split.
       - unfold bind at 1. now rewrite Eask.
       - split; [exact Hfr|]. split; [exact Hfig|]. split; [exact Hcalls|].
         right. now apply Hans. }
  rewrite (bind_ok _ _ _ _ _ Eask).
  assert (H2 : frames w2 !! length (frames w) = Some (prepared t)) by now rewrite Hfr.
  rewrite (bind_ok _ _ _ _ _ (df_read_some _ _ _ H2)).
  cbv beta zeta. rewrite !fallback_is_spec.
  destruct (fallback_well_formed (prepared t)) as [Hfwf Hflen].
  rewrite prepared_columns in Hfwf.
  set (raw' := if negb (truthy raw)
               then PyList (map PyDict (fallback_spec (prepared t))) else raw).
  pose proof (ai_validator_shape (prepared t) raw' 12) as Hs.
  rewrite prepared_columns in Hs.
  unfold bind at 1, lift.
  destruct (viz_service._clean_and_validate_suggestions (prepared t) raw' 12)
    as [[|e out]|e];
    eexists _, w2; (split; [reflexivity|]); (split; [exact Hfr|]);
    (split; [exact Hfig|]); (split; [exact Hcalls|]).
  - split; [lia|]. split; [exact Hfwf | auto].
  - destruct Hs as [Hwf Hlen]. split; [exact Hlen|]. split; [exact Hwf | discriminate].
  - left. exact Hs.
Qed.

(** X15: whatever the oracle answers, the oracle-assisted suggestion call
    for a stored table asks the oracle at most once and either raises, or
    returns at most 12 suggestions, well formed for the columns of the
    table; the list is empty only when the fallback for the date-coerced
    table is empty. What it raises is the TypeError of an unhashable x or
    y, or the exception of an answer that has no choice (IndexError) or a
    null content (AttributeError). *)
Theorem ai_suggestions_for_any_answer (df : nat) (t : table) (w : world) :
  frames w !! df = Some t ->
  exists r w',
    viz_service._get_viz_suggestions_for_df df w = (r, w') /\
    (oracle_calls w <= oracle_calls w' <= S (oracle_calls w))%nat /\
    match r with
    | Ok out =>
        (length out <= 12)%nat /\ well_formed (df_columns t) out /\
        (out = [] -> fallback_spec (prepared t) = [])
    | Raise e => unhashable_error e \/ answer_error e
    end.
Proof.
  intros Ht.
  destruct (ai_suggestions_shape df t w Ht) as (r & w' & E & _ & _ & Hcalls & Hr).
  now exists r, w'.
Qed.

End oracle_more.

(** ** The date pre-pass, applied twice *)

Section prepare_more.
Context `{Platform}.

Lemma coerced_twice (s : series) :
  (forall s0 parsed, pd_to_datetime s0 = Ok parsed -> s_dtype parsed <> object_) ->
  coerced (coerced s) = coerced s.
Proof.
  intros Hdt. unfold coerced at 2 3.
  destruct (s_dtype s) eqn:Ed; try (unfold coerced; now rewrite Ed).
  destruct (pd_to_datetime s) as [parsed|e] eqn:Ep;
    [|unfold coerced; now rewrite Ed, Ep].
  destruct ((0 <? series_count s) && (7 * series_count s <=? 10 * series_count parsed))
    eqn:Ec; [|unfold coerced; now rewrite Ed, Ep, Ec].
  specialize (Hdt s parsed Ep). unfold coerced.
  destruct (s_dtype parsed); try reflexivity. contradiction.
Qed.

Lemma prepared_twice (t : table) :
  (forall s parsed, pd_to_datetime s = Ok parsed -> s_dtype parsed <> object_) ->
  NoDup (df_columns t) ->
  prepared (prepared t) = prepared t.
Proof.
  intros Hdt Hnd.
  assert (Hnd' : NoDup (df_columns (prepared t))) by now rewrite prepared_columns.
  rewrite (prepared_map (prepared t) Hnd'), (prepared_map t Hnd), map_map.
  apply map_ext. intros c. unfold coerced_column. simpl.
  now rewrite (coerced_twice _ Hdt).
Qed.

(** X16: the date pre-pass is idempotent when the date parser never returns
    a free-form ([object]) column: running [_prepare_df_for_viz] on the copy
    it returned, as the all-sheets calls do (once for the table the charts
    are drawn from, once more for the table the suggestions are made for),
    gives a second copy with the same columns and cells as the first. *)
Theorem prepass_is_idempotent (df : nat) (t : table) (w : world) :
  (forall s parsed, pd_to_datetime s = Ok parsed -> s_dtype parsed <> object_) ->
  frames w !! df = Some t -> NoDup (df_columns t) ->
  exists d1 w1 d2 w2,
    manual_viz_service._prepare_df_for_viz df w = (Ok d1, w1) /\
    manual_viz_service._prepare_df_for_viz d1 w1 = (Ok d2, w2) /\
    d1 <> d2 /\
    frames w2 !! d1 = Some (prepared t) /\
    frames w2 !! d2 = Some (prepared t).
Proof.
  intros Hdt Ht Hnd.
  pose proof (prepare_run df t w Ht) as E1.
  set (w1 := set_frames (frames w ++ [prepared t]) w) in *.
  assert (H1 : frames w1 !! length (frames w) = Some (prepared t)) by apply lookup_fresh.
  pose proof (prepare_run _ _ w1 H1) as E2.
  rewrite (prepared_twice t Hdt Hnd) in E2.
  eexists _, _, _, _. split; [exact E1|]. split; [exact E2|].
  simpl. rewrite length_app. simpl. split; [lia|]. split.
  - rewrite lookup_app_l by (rewrite length_app; simpl; lia). exact H1.
  - replace (length (frames w) + 1)%nat with (length (frames w ++ [prepared t]))
      by (rewrite length_app; reflexivity).
    apply lookup_fresh.
Qed.

End prepare_more.

(** ** The calls of the services *)

Section pipeline_more.
Context `{Platform}.

Lemma proposal_plain t e :
  proposal_of t e ->
  exists ct c vy d, e = suggestion ct (PyStr c) vy (PyStr d) /\
                    (vy = PyNone \/ exists n, vy = PyStr n).
Proof.
  intros [c Hc|c Hc|a b Ha Hb|d n Hd Hn]; eexists _, _, _, _;
    (split; [reflexivity|]); eauto.
Qed.

Lemma generator_plain t proposals s :
  NoDup (df_columns t) ->
  manual_viz_service.generate_manual_suggestions t = Ok proposals ->
  s ∈ proposals ->
  exists ct c vy d, s = suggestion ct (PyStr c) vy (PyStr d) /\
                    (vy = PyNone \/ exists n, vy = PyStr n).
Proof.
  intros Hnd Hg Hs. rewrite (proposals_closed_form _ Hnd) in Hg.
  destruct (first_tz_aware t); [discriminate|]. inversion Hg; subst.
  eapply proposal_plain, proposals_spec_of, Hs.
Qed.

Lemma sheet_proposals_plain F df t proposals s :
  F !! df = Some t -> NoDup (df_columns t) ->
  sheet_proposals F df = Ok proposals -> s ∈ proposals ->
  exists ct c vy d, s = suggestion ct (PyStr c) vy (PyStr d) /\
                    (vy = PyNone \/ exists n, vy = PyStr n).
Proof.
  intros Ht Hnd Hg Hs. unfold sheet_proposals in Hg. rewrite Ht in Hg.
  apply (generator_plain (prepared (prepared t)) proposals); [|exact Hg|exact Hs].
  now rewrite !prepared_columns.
Qed.

(** X17: an all-sheets call, in either mode and whatever the filters, for
    a session with no rendered result in the cache of its mode (none, or an
    empty one) and no workbook in memory (none, or one without sheets)
    raises KeyError "Sheets not loaded." and changes nothing. *)
Theorem all_sheets_without_workbook_raises (m : mode) (sid : string)
    (filters : option (list (string * list string))) (w : world) :
  cache_of m w !! sid = None \/ cache_of m w !! sid = Some [] ->
  EXCEL_CACHE w !! sid = None \/ EXCEL_CACHE w !! sid = Some [] ->
  suggest_all_sheets m sid filters w = (Raise (KeyError "Sheets not loaded."), w).
Proof.
  intros Hc Hx. destruct m; unfold suggest_all_sheets;
    [unfold manual_viz_service.suggest_visualizations_for_all_sheets;
     rewrite (bind_ok _ _ _ _ _ (get_cached_run manual sid w))
    |unfold viz_service.suggest_visualizations_for_all_sheets;
     rewrite (bind_ok _ _ _ _ _ (get_cached_run ai sid w))];
    unfold bind, gets, raise;
    destruct Hc as [-> | ->]; destruct Hx as [-> | ->]; reflexivity.
Qed.

Lemma field_str_raise v e :
  field_str v = Raise e -> exists msg, e = ValidationError msg.
Proof.
  unfold field_str. destruct v; try destruct (pydantic_coerce_str _);
    intros E; inversion E; eauto.
Qed.

Lemma render_loop cols df t' suggestions : forall acc w,
  Forall (fun e => references_columns cols e /\ recognized_chart e) suggestions ->
  frames w !! df = Some t' ->
  exists r w',
    for_fold suggestions acc
      (fun viz_results item =>
         let chart_type := dict_get item "chart_type" PyNone in
         let x := dict_get item "x" PyNone in
         let y := dict_get item "y" PyNone in
         let desc := dict_get item "description" (PyStr "") in
         img_base64 <- viz_service.generate_chart df chart_type x y ;;
         v <- lift (VizConfig_init chart_type x y desc img_base64) ;;
         ret (viz_results ++ [v])) w = (r, w') /\
    open_figures w' = open_figures w /\
    match r with
    | Ok vs => exists new, vs = acc ++ new /\ length new = length suggestions /\
                           Forall (chart_of_columns cols) new
    | Raise e => exists msg, e = ValidationError msg
    end.
Proof.
  induction suggestions as [|e rest IH]; intros acc w Hwf Ht.
  - exists (Ok acc), w. split; [reflexivity|]. split; [reflexivity|].
    exists []. now rewrite app_nil_r.
  - apply Forall_cons in Hwf as [[[(xn & Ex & Hx) Hy] (ct & Ect & Hct & _)] Hwf].
    assert (Hyo : exists yo, dict_get e "y" PyNone = py_optional yo /\
                             forall n, yo = Some n -> n ∈ cols).
    { destruct Hy as [Ey|(yn & Ey & Hyn)].
      - exists None. split; [exact Ey | discriminate].
      - exists (Some yn). split; [exact Ey|]. intros n E. now inversion E; subst. }
    destruct Hyo as (yo & Ey & Hyo).
    cbn [for_fold]. cbv zeta. rewrite Ex, Ey, Ect.
    destruct (generate_chart_accounting df t' ct xn yo w Ht)
      as (img & w1 & E & Hfig & _ & _).
    specialize (Hfig Hct).
    assert (Ht1 : frames w1 !! df = Some t').
    { pose proof (frame_safe_generate_chart df (PyStr ct) (PyStr xn) (py_optional yo) w)
        as [Hpre _].
      rewrite E in Hpre. simpl in Hpre. eapply prefix_lookup_Some; eauto. }
    unfold viz_service.generate_chart.
    unfold bind at 1. rewrite (bind_ok _ _ _ _ _ E).
    unfold bind at 1, lift.
    assert (Hv : match VizConfig_init (PyStr ct) (PyStr xn) (py_optional yo)
                         (dict_get e "description" (PyStr "")) img with
                 | Ok v => chart_of_columns cols v
                 | Raise e0 => exists msg, e0 = ValidationError msg
                 end).
    { unfold VizConfig_init. cbn [field_str field_optional_str].
      assert (Eyo : field_optional_str (py_optional yo) = Ok yo) by now destruct yo.
      rewrite Eyo.
      destruct (field_str (dict_get e "description" (PyStr ""))) as [d|e0] eqn:Ed.
      - split; [exact Hct|]. split; [now exists xn | exact Hyo].
      - eapply field_str_raise; eauto. }
    destruct (VizConfig_init _ _ _ _ img) as [v|e0].
    + destruct (IH (acc ++ [v]) w1 Hwf Ht1) as (r & w' & El & Hfig' & Hr).
      unfold ret at 1. exists r, w'. split; [exact El|]. split; [congruence|].
      destruct r as [vs|e1]; [|exact Hr].
      destruct Hr as (new & -> & Hlen & Hnew). exists (v :: new).
      split; [now rewrite <- app_assoc|]. split; [simpl; now rewrite Hlen|].
      now constructor.
    + exists (Raise e0), w1. split; [reflexivity|]. split; [exact Hfig | exact Hv].
Qed.

(** X19: the single-sheet endpoint of the oracle-assisted service, for a
    sheet that is in memory and whatever the oracle answers: it returns at
    most 12 chart entries, each of a recognized chart type, with a column
    of the sheet as x and, if it has a y, a column as y; or it raises the
    TypeError of an unhashable x or y, the exception of an answer that has
    no choice (IndexError) or a null content (AttributeError), or the
    ValidationError of a description that is not a string. Either way as
    many figures are open after the call as before. *)
Theorem single_sheet_charts_are_well_formed (sid name : string) (df : nat)
    (t : table) (w : world) :
  get_sheet_df sid name w = (Ok df, w) -> frames w !! df = Some t ->
  exists r w',
    viz_service.suggest_visualizations sid name w = (r, w') /\
    open_figures w' = open_figures w /\
    match r with
    | Ok vs => (length vs <= 12)%nat /\ Forall (chart_of_columns (df_columns t)) vs
    | Raise e => unhashable_error e \/ answer_error e \/
                 exists msg, e = ValidationError msg
    end.
Proof.
  intros Hs Ht. unfold viz_service.suggest_visualizations,
                       viz_service._prepare_df_for_viz.
  rewrite (bind_ok _ _ _ _ _ Hs), (bind_ok _ _ _ _ _ (prepare_run _ _ _ Ht)).
  set (w1 := set_frames (frames w ++ [prepared t]) w).
  assert (H1 : frames w1 !! length (frames w) = Some (prepared t)) by apply lookup_fresh.
  destruct (ai_suggestions_shape _ _ w1 H1) as (r & w2 & E & Hfr & Hfig & _ & Hr).
  unfold bind at 1. rewrite E.
  destruct r as [out|e].
  - destruct Hr as (Hlen & [Hwf _] & _). rewrite !prepared_columns in Hwf.
    assert (H2 : frames w2 !! length (frames w) = Some (prepared t)).
    { rewrite Hfr. now apply lookup_app_l_Some. }
    destruct (render_loop (df_columns t) _ _ out [] w2 Hwf H2)
      as (r & w' & El & Hfig' & Hr).
    exists r, w'. split; [exact El|]. split; [simpl in Hfig; congruence|].
    destruct r as [vs|e]; [|right; now right].
    destruct Hr as (new & -> & Hn & Hnew). simpl. split; [lia | exact Hnew].
  - exists (Raise e), w2. split; [reflexivity|]. split; [exact Hfig|].
    destruct Hr as [Hr|Hr]; [now left | right; now left].
Qed.

Lemma filter_allowed_plain allowed ss :
  Forall (fun s => exists ct, dict_get s "chart_type" PyNone = PyStr ct) ss ->
  manual_viz_service.filter_allowed ss allowed = Ok (allowed_only allowed ss).
Proof.
  unfold allowed_only. induction ss as [|s ss IH]; intros Hp; [reflexivity|].
  apply Forall_cons in Hp as [[ct Ect] Hp]. cbn [manual_viz_service.filter_allowed].
  rewrite Ect, (IH Hp). cbn [str_set_member]. rewrite filter_cons, Ect. simpl.
  destruct (decide (ct ∈ allowed)) as [Hin|Hin].
  - now rewrite (bool_decide_eq_true_2 _ Hin).
  - now rewrite (bool_decide_eq_false_2 _ Hin).
Qed.

(** X20: the chart-type filters of the rule-based all-sheets call, for a
    sheet with distinct column names. When the generator returns its
    proposals for the sheet, then for a sheet that the filters name only
    the proposals whose chart type is in the sheet's list become tasks, in
    their order, and for a sheet they do not name, and when the filter
    mapping is empty, every proposal does; when the generator raises, so
    does the step. Either way the step leaves the two copies of the
    pre-pass behind. *)
Theorem filters_keep_allowed_chart_types (filters : list (string * list string))
    (tasks : list manual_viz_service.task) (name : string) (df_raw : nat)
    (t : table) (w : world) :
  frames w !! df_raw = Some t -> NoDup (df_columns t) ->
  manual_viz_service.build_tasks (Some filters) tasks (name, df_raw) w =
    (match sheet_proposals (frames w) df_raw with
     | Ok proposals =>
         Ok (tasks ++
             map (task_of name (length (frames w)))
                 (match adict_get filters name with
                  | Some allowed => allowed_only allowed proposals
                  | None => proposals
                  end))
     | Raise e => Raise e
     end,
     set_frames (frames w ++ [prepared t; prepared (prepared t)]) w).
Proof.
  intros Ht Hnd. unfold manual_viz_service.build_tasks.
  rewrite (bind_ok _ _ _ _ _ (prepare_run _ _ _ Ht)).
  set (w1 := set_frames (frames w ++ [prepared t]) w).
  assert (H1 : frames w1 !! length (frames w) = Some (prepared t)) by apply lookup_fresh.
  assert (Hnd' : NoDup (df_columns (prepared t))) by now rewrite prepared_columns.
  pose proof (manual_suggestions_run _ _ w1 H1 Hnd') as Erun.
  assert (Ew : set_frames (frames w1 ++ [prepared (prepared t)]) w1
               = set_frames (frames w ++ [prepared t; prepared (prepared t)]) w).
  { unfold w1, set_frames. simpl. now rewrite <- app_assoc. }
  rewrite Ew in Erun.
  assert (Ep : manual_viz_service.generate_manual_suggestions (prepared (prepared t))
               = sheet_proposals (frames w) df_raw)
    by (unfold sheet_proposals; now rewrite Ht).
  rewrite Ep in Erun.
  destruct (sheet_proposals (frames w) df_raw) as [proposals|e] eqn:Es.
  2: { unfold bind at 1. now rewrite Erun. }
  rewrite (bind_ok _ _ _ _ _ Erun).
  assert (Hplain : Forall (fun s => exists ct, dict_get s "chart_type" PyNone = PyStr ct)
                          proposals).
  { apply Forall_forall. intros s Hs.
    destruct (sheet_proposals_plain _ _ _ _ s Ht Hnd Es Hs) as (ct & c & vy & d & -> & _).
    now exists ct. }
  destruct filters as [|f filters]; [reflexivity|].
  destruct (adict_get (f :: filters) name) as [allowed|]; [|reflexivity].
  unfold bind at 1, lift. now rewrite (filter_allowed_plain allowed _ Hplain).
Qed.

End pipeline_more.

(** ** What the all-sheets calls never touch *)

Section preserved.
Context {B : Type} (f : world -> B).

Lemma preserves_ret {A} (a : A) : preserves f (ret a).
Proof. now intros w. Qed.

Lemma preserves_raise {A} e : preserves f (@raise A e).
Proof. now intros w. Qed.

Lemma preserves_lift {A} (r : result A) : preserves f (lift r).
Proof. now intros w. Qed.

Lemma preserves_gets {A} (g : world -> A) : preserves f (gets g).
Proof. now intros w. Qed.

Lemma preserves_bind {A C} (m : M A) (k : A -> M C) :
  preserves f m -> (forall a, preserves f (k a)) -> preserves f (bind m k).
Proof.
  intros Hm Hk w. unfold bind. specialize (Hm w).
  destruct (m w) as [[a|e] w1]; simpl in *; [|exact Hm]. now rewrite Hk.
Qed.

Lemma preserves_try {A} (body : M A) (handler : exn -> M A) :
  preserves f body -> (forall e, preserves f (handler e)) ->
  preserves f (try_except body handler).
Proof.
  intros Hb Hh w. unfold try_except. specialize (Hb w).
  destruct (body w) as [[a|e] w1]; simpl in *; [exact Hb|]. now rewrite Hh.
Qed.

Lemma preserves_for_each {A} (l : list A) (body : A -> M unit) :
  (forall a, preserves f (body a)) -> preserves f (for_each l body).
Proof.
  intros Hb. induction l as [|a l IH]; simpl; [apply preserves_ret|].
  apply preserves_bind; [apply Hb | intros _; exact IH].
Qed.

Lemma preserves_for_fold {A S} (l : list A) (body : S -> A -> M S) :
  (forall s a, preserves f (body s a)) -> forall s, preserves f (for_fold l s body).
Proof.
  intros Hb. induction l as [|a l IH]; intros s0; simpl; [apply preserves_ret|].
  apply preserves_bind; [apply Hb | intros s'; apply IH].
Qed.

Lemma preserves_in_worker {A} (m : M A) : preserves f (in_worker m).
Proof. now intros w. Qed.

Lemma preserves_executor_map {A C} (g : A -> M C) (tasks : list A) :
  preserves f (executor_map g tasks).
Proof.
  induction tasks as [|task rest IH]; simpl; [apply preserves_ret|].
  apply preserves_bind; [apply preserves_in_worker|]. intros r.
  apply preserves_bind; [exact IH | intros rs; apply preserves_ret].
Qed.

Lemma preserves_modify (g : world -> world) :
  (forall w, f (g w) = f w) -> preserves f (modify g).
Proof. intros Hg w. apply Hg. Qed.

Lemma preserves_df_read r : preserves f (df_read r).
Proof. intros w. unfold df_read. now destruct (frames w !! r). Qed.

Hypothesis f_frames : forall F w, f (set_frames F w) = f w.

Lemma preserves_df_copy r : preserves f (df_copy r).
Proof.
  unfold df_copy. apply preserves_bind; [apply preserves_df_read|].
  intros t w. apply f_frames.
Qed.

Lemma preserves_df_assign r col s0 : preserves f (df_assign r col s0).
Proof.
  unfold df_assign. apply preserves_bind; [apply preserves_df_read|].
  intros t. apply preserves_modify. intros w. apply f_frames.
Qed.

Hypothesis f_manual : forall c w, f (set_VIZ_CACHE_MANUAL c w) = f w.
Hypothesis f_ai : forall c w, f (set_VIZ_CACHE_AI c w) = f w.

Lemma preserves_get_cached sid mode :
  preserves f (viz_cache.get_cached_visualizations sid mode).
Proof.
  unfold viz_cache.get_cached_visualizations.
  repeat case_match; first [apply preserves_gets | apply preserves_ret].
Qed.

Lemma preserves_store sid data mode :
  preserves f (viz_cache.store_visualizations sid data mode).
Proof.
  unfold viz_cache.store_visualizations.
  repeat case_match;
    first [apply preserves_raise | apply preserves_ret
          | apply preserves_modify; intros w; first [apply f_manual | apply f_ai]].
Qed.

(** One step through code made of binds, branches and loops. *)
Ltac preserve_step :=
  match goal with
  | |- preserves _ (bind _ _) => apply preserves_bind; [|intros ?]
  | |- preserves _ (try_except _ _) => apply preserves_try; [|intros ?]
  | |- preserves _ (for_each _ _) => apply preserves_for_each; intros ?
  | |- preserves _ (for_fold _ _ _) => apply preserves_for_fold; intros ? ?
  | |- preserves _ (if ?b then _ else _) => destruct b
  | |- preserves _ (match ?v with _ => _ end) => destruct v
  | |- preserves _ _ =>
      first [ apply preserves_ret | apply preserves_raise | apply preserves_lift
            | apply preserves_gets | apply preserves_executor_map
            | apply preserves_df_read | apply preserves_df_copy
            | apply preserves_df_assign | apply preserves_get_cached
            | apply preserves_store | solve [auto] ]
  end.

Context `{Platform}.

Lemma preserves_prepare df : preserves f (manual_viz_service._prepare_df_for_viz df).
Proof.
  unfold manual_viz_service._prepare_df_for_viz, manual_viz_service.coerce_column.
  repeat preserve_step.
Qed.

Lemma preserves_manual_suggestions df :
  preserves f (manual_viz_service._get_viz_suggestions_for_df df).
Proof.
  pose proof preserves_prepare.
  unfold manual_viz_service._get_viz_suggestions_for_df. repeat preserve_step.
Qed.

(** Steps 3 to 5 of an all-sheets call, and the branch for no task. *)
Lemma preserves_render_and_store sid (tasks : list manual_viz_service.task) mode :
  preserves f
    (match tasks with
     | [] => viz_cache.store_visualizations sid [] None ;; ret []
     | _ :: _ =>
         results <- executor_map manual_viz_service._render_chart_process tasks ;;
         final_result <- for_fold results [] manual_viz_service.collect ;;
         viz_cache.store_visualizations sid final_result mode ;;
         ret final_result
     end).
Proof. unfold manual_viz_service.collect. repeat preserve_step. Qed.

Lemma preserves_manual_all sid filters :
  preserves f (manual_viz_service.suggest_visualizations_for_all_sheets sid filters).
Proof.
  pose proof preserves_prepare. pose proof preserves_manual_suggestions.
  unfold manual_viz_service.suggest_visualizations_for_all_sheets,
         manual_viz_service.build_tasks, manual_viz_service.collect.
  repeat preserve_step.
Qed.

Hypothesis f_calls : forall n w, f (set_oracle_calls n w) = f w.

Lemma preserves_ask_llm df : preserves f (viz_service.ask_llm_for_visualizations df).
Proof.
  unfold viz_service.ask_llm_for_visualizations.
  repeat first [apply preserves_modify; intros w; apply f_calls | preserve_step].
Qed.

Lemma preserves_ai_all sid filters :
  preserves f (viz_service.suggest_visualizations_for_all_sheets sid filters).
Proof.
  pose proof preserves_prepare. pose proof preserves_ask_llm.
  unfold viz_service.suggest_visualizations_for_all_sheets,
         viz_service.build_tasks, viz_service._get_viz_suggestions_for_df,
         viz_service._prepare_df_for_viz, viz_service._render_chart_process,
         manual_viz_service.collect.
  repeat preserve_step.
Qed.

End preserved.

Section oracle_budget.
Context `{Platform}.

Lemma asks_quiet {A} (m : M A) : preserves oracle_calls m -> asks_at_most 0 m.
Proof. intros Hm w. rewrite Hm. lia. Qed.

Lemma asks_weaken {A} a b (m : M A) :
  (a <= b)%nat -> asks_at_most a m -> asks_at_most b m.
Proof. intros Hab Hm w. specialize (Hm w). lia. Qed.

Lemma asks_bind {A C} a b (m : M A) (k : A -> M C) :
  asks_at_most a m -> (forall x, asks_at_most b (k x)) ->
  asks_at_most (a + b) (bind m k).
Proof.
  intros Hm Hk w. unfold bind. specialize (Hm w).
  destruct (m w) as [[x|e] w1]; simpl in *; [specialize (Hk x w1) |]; lia.
Qed.

Lemma asks_for_fold {A S} n (l : list A) (body : S -> A -> M S) :
  (forall s a, asks_at_most n (body s a)) ->
  forall s, asks_at_most (length l * n) (for_fold l s body).
Proof.
  intros Hb. induction l as [|a l IH]; intros s; simpl.
  - apply asks_quiet, preserves_ret.
  - apply asks_bind; [apply Hb | intros s'; apply IH].
Qed.

Lemma asks_ask_llm df : asks_at_most 1 (viz_service.ask_llm_for_visualizations df).
Proof.
  intros w. unfold viz_service.ask_llm_for_visualizations.
  destruct viz_service.client; [|simpl; lia].
  unfold bind, df_read, gets, modify, ret.
  destruct (frames w !! df); [|simpl; lia].
  destruct (groq_chat _ _) as [[|[raw|] others]|]; unfold raise; simpl; lia.
Qed.

Lemma asks_ai_suggestions df :
  asks_at_most 1 (viz_service._get_viz_suggestions_for_df df).
Proof.
  unfold viz_service._get_viz_suggestions_for_df, viz_service._prepare_df_for_viz.
  apply (asks_weaken (0 + (1 + 0))); [lia|].
  apply asks_bind;
    [apply asks_quiet, (preserves_prepare oracle_calls (fun _ _ => eq_refl))|].
  intros d. apply asks_bind; [apply asks_ask_llm|]. intros raw. apply asks_quiet.
  apply preserves_bind; [apply preserves_df_read|]. intros t. cbv zeta.
  apply preserves_bind; [apply preserves_lift|].
  intros cleaned. destruct cleaned; apply preserves_ret.
Qed.

Lemma asks_build_tasks filters tasks sheet :
  asks_at_most 1 (viz_service.build_tasks filters tasks sheet).
Proof.
  destruct sheet as [name df]. unfold viz_service.build_tasks,
                                      viz_service._prepare_df_for_viz.
  apply (asks_weaken (0 + (1 + 0))); [lia|].
  apply asks_bind;
    [apply asks_quiet, (preserves_prepare oracle_calls (fun _ _ => eq_refl))|].
  intros d. apply asks_bind; [apply asks_ai_suggestions|]. intros suggestions.
  apply asks_quiet. apply preserves_bind; [|intros ?; apply preserves_ret].
  repeat case_match; first [apply preserves_lift | apply preserves_ret].
Qed.

Lemma asks_ai_all sid filters w :
  (oracle_calls w
   <= oracle_calls (snd (viz_service.suggest_visualizations_for_all_sheets sid filters w))
   <= oracle_calls w + length (default [] (EXCEL_CACHE w !! sid)))%nat.
Proof.
  unfold viz_service.suggest_visualizations_for_all_sheets.
  rewrite (bind_ok _ _ _ _ _ (get_cached_run ai sid w)).
  assert (Hcompute :
    (oracle_calls w
     <= oracle_calls (snd (
          (sheet_dfs <- gets (fun w => EXCEL_CACHE w !! sid) ;;
           match sheet_dfs with
           | Some ((_ :: _) as sheet_dfs) =>
               tasks <- for_fold sheet_dfs [] (viz_service.build_tasks filters) ;;
               match tasks with
               | [] => viz_cache.store_visualizations sid [] None ;; ret []
               | _ :: _ =>
                   results <- executor_map viz_service._render_chart_process tasks ;;
                   final_result <- for_fold results [] manual_viz_service.collect ;;
                   viz_cache.store_visualizations sid final_result (Some "ai") ;;
                   ret final_result
               end
           | _ => raise (KeyError "Sheets not loaded.")
           end) w))
     <= oracle_calls w + length (default [] (EXCEL_CACHE w !! sid)))%nat).
  { rewrite (bind_ok _ _ _ _ _
               (eq_refl : gets (fun w => EXCEL_CACHE w !! sid) w
                          = (Ok (EXCEL_CACHE w !! sid), w))).
    destruct (EXCEL_CACHE w !! sid) as [[|sh sheets]|];
      [unfold raise; simpl; lia | | unfold raise; simpl; lia].
    pose proof (asks_bind (length (sh :: sheets) * 1) 0
                  (for_fold (sh :: sheets) [] (viz_service.build_tasks filters))
                  (fun tasks =>
                     match tasks with
                     | [] => viz_cache.store_visualizations sid [] None ;; ret []
                     | _ :: _ =>
                         results <-
                           executor_map viz_service._render_chart_process tasks ;;
                         final_result <-
                           for_fold results [] manual_viz_service.collect ;;
                         viz_cache.store_visualizations sid final_result (Some "ai") ;;
                         ret final_result
                     end)
                  (asks_for_fold 1 _ _ (asks_build_tasks filters) [])
                  (fun tasks => asks_quiet _
                     (preserves_render_and_store oracle_calls
                        (fun _ _ => eq_refl) (fun _ _ => eq_refl)
                        sid tasks (Some "ai"))) w) as Hb.
    simpl default. simpl length in *. lia. }
  destruct (cache_of ai w !! sid) as [[|entry cached]|];
    [exact Hcompute | unfold ret; simpl; lia | exact Hcompute].
Qed.

(** X23: the all-sheets calls draw in worker processes, so whatever they
    return or raise, as many figures are open in the serving process after
    the call as before. The rule-based call never asks the oracle; the
    oracle-assisted call asks it at most once for each sheet of the
    session's workbook. *)
Theorem all_sheets_calls_are_frugal (sid : string)
    (filters : option (list (string * list string))) (w : world) :
  let after m := snd (suggest_all_sheets m sid filters w) in
  open_figures (after manual) = open_figures w /\
  oracle_calls (after manual) = oracle_calls w /\
  open_figures (after ai) = open_figures w /\
  (oracle_calls w <= oracle_calls (after ai)
   <= oracle_calls w + length (default [] (EXCEL_CACHE w !! sid)))%nat.
Proof.
  intros after. subst after. simpl suggest_all_sheets.
  split; [|split; [|split]].
  - apply (preserves_manual_all open_figures);
      intros; reflexivity.
  - apply (preserves_manual_all oracle_calls);
      intros; reflexivity.
  - apply (preserves_ai_all open_figures);
      intros; reflexivity.
  - apply asks_ai_all.
Qed.

End oracle_budget.

(** * Examples *)

(** The validator at work on oracle output: a well-formed candidate, its
    duplicate in other letters, a column that does not exist, a scatter
    without y, an unknown chart type, and something that is not a dict. *)
Example validator_filters :
  @viz_service._clean_and_validate_suggestions sample.platform orders
    (PyList
       [PyDict (suggestion " Bar " (PyStr "qty") PyNone (PyStr "counts"));
        PyDict (suggestion "BAR" (PyStr "qty") PyNone (PyStr "again"));
        PyDict (suggestion "bar" (PyStr "price") PyNone (PyStr "no such column"));
        PyDict (suggestion "scatter" (PyStr "qty") PyNone (PyStr "no y"));
        PyDict (suggestion "pie" (PyStr "qty") PyNone (PyStr "unknown"));
        PyInt 7;
        PyDict [("chart_type", PyStr "line"); ("x", PyStr "order_date");
                ("y", PyStr "amount")]]) 12
  = Ok [suggestion "bar" (PyStr "qty") PyNone (PyStr "counts");
        suggestion "line" (PyStr "order_date") (PyStr "amount") (PyStr "")].
Proof. vm_compute. reflexivity. Qed.

(** An unhashable x makes the validator raise. *)
Example validator_raises_on_list :
  @manual_viz_service._clean_and_validate_suggestions sample.platform orders
    (PyList [PyDict (suggestion "bar" (PyList [PyStr "qty"]) PyNone PyNone)])
  = Raise (TypeError "unhashable type: 'list'").
Proof. reflexivity. Qed.

(** A chart type of white space only, here a no-break space, is dropped
    before its x is looked up. *)
Example blank_chart_type_is_dropped :
  @manual_viz_service._clean_and_validate_suggestions sample.platform orders
    (PyList [PyDict (suggestion (utf8 [194; 160]%nat) (PyList [PyStr "qty"])
                                PyNone PyNone)])
  = Ok [].
Proof. vm_compute. reflexivity. Qed.

(** A column of a timezone-aware dtype makes the Type Inferencer and the
    rule-based generator raise, while the fallback takes it as the
    datetime column and the renderer returns None for a count of it. *)
Example timezone_aware_column :
  manual_viz_service.generate_manual_suggestions stamped
    = Raise (TypeError "Cannot interpret 'datetime64[ns, UTC]' as a data type") /\
  viz_service._fallback_suggestions stamped
    = [suggestion "line" (PyStr "when") (PyStr "qty")
         (PyStr "Trend of 'qty' over time by 'when'.")] /\
  fst (@manual_viz_service.generate_chart sample.platform 0
         (PyStr "bar") (PyStr "when") PyNone
         (World [stamped] ∅ ∅ ∅ 0 0)) = Ok None.
Proof. repeat split; vm_compute; reflexivity. Qed.

(** An answer whose content is null makes the oracle-assisted path
    raise. *)
Example null_content_raises :
  fst (@viz_service._get_viz_suggestions_for_df sample.null_oracle 0 orders_book)
  = Raise (AttributeError "'NoneType' object has no attribute 'find'").
Proof. vm_compute. reflexivity. Qed.

(** A numeric column label makes the domain inference raise. *)
Example numeric_label_raises :
  domain_logic_service.infer_domain_from_columns [PyStr "product_id"; PyInt 2024]
  = Raise (AttributeError "'int' object has no attribute 'lower'").
Proof. reflexivity. Qed.

(** Assigning a column through a reference changes the object it refers
    to: the store does record mutation. *)
Example assignment_changes_the_object :
  frames (snd (df_assign 0 "qty" (Series int64 []) orders_book)) !! 0%nat
  = Some [Column "order_date"
            (Series object_ [Text "2024-01-01"; Text "2024-01-02"; Text "2024-01-02"]);
          Column "amount" (Series float64 [Float 5 (-1); Int 2; NA]);
          Column "qty" (Series int64 [])].
Proof. reflexivity. Qed.

(** The oracle-assisted path from the answer to the chart: the oracle's one
    suggestion names a column of the sheet and is drawn. *)
Example oracle_path :
  fst (@viz_service.suggest_visualizations sample.with_oracle "s" "Sheet1"
         (World [[Column "region" (Series object_ [Text "north"; Text "south";
                                                   Text "north"])]]
                {[ "s" := [("Sheet1", 0%nat)] ]} ∅ ∅ 0 0))
  = Ok [mkVizConfig "bar" (Some "region") None None "counts" png].
Proof. vm_compute. reflexivity. Qed.

(** C10 at the mode "auto". *)
Lemma unknown_mode_witness :
  "auto" <> "manual" /\ "auto" <> "ai" /\
  viz_cache.get_cached_visualizations "s" "auto" orders_book_after
    = (Ok None, orders_book_after) /\
  viz_cache.store_visualizations "s" orders_charts (Some "auto") orders_book_after
    = (Ok tt, orders_book_after).
Proof.
  assert (H1 : "auto" <> "manual") by discriminate.
  assert (H2 : "auto" <> "ai") by discriminate.
  split; [exact H1|]. split; [exact H2|].
  exact (unknown_mode_is_noop "s" "auto" orders_charts orders_book_after H1 H2).
Defined.

(** C3 on the session of [orders_book], rule-based. *)
Lemma second_call_witness :
  @suggest_all_sheets sample.platform manual "s" None orders_book
    = (Ok orders_charts, orders_book_after) /\
  @suggest_all_sheets sample.platform manual "s" None orders_book_after
    = (Ok orders_charts, orders_book_after).
Proof.
  assert (first_call : @suggest_all_sheets sample.platform manual "s" None orders_book
                       = (Ok orders_charts, orders_book_after))
    by (vm_compute; reflexivity).
  split; [exact first_call|].
  exact (@second_call_is_cache_hit sample.platform manual "s" None None
           orders_book orders_book_after orders_charts first_call).
Defined.

(** C4 on the table [orders]. *)
Lemma line_proposals_witness :
  NoDup (df_columns orders) /\
  exists proposals,
    manual_viz_service.generate_manual_suggestions orders = Ok proposals /\
    filter (fun e => is_line e = true) proposals
      = [line_suggestion "order_date" "amount"; line_suggestion "order_date" "qty"].
Proof.
  assert (Hnd : NoDup (df_columns orders))
    by (apply NoDup_ListNoDup; repeat constructor; simpl; intuition discriminate).
  split; [exact Hnd|].
  destruct (proj1 (line_proposals_need_one_datetime_column orders Hnd))
    as (proposals & Eg & Hl & _).
  exists proposals. split; [exact Eg | exact Hl].
Defined.

(** C5 on the table [regional], without a credential: the date column is
    parsed by the pre-pass and the region column is not. *)
Lemma fallback_witness :
  frames regional_book !! 0%nat = Some regional /\
  @viz_service.client sample.platform = None /\
  exists w',
    @viz_service._get_viz_suggestions_for_df sample.platform 0 regional_book
      = (Ok [suggestion "line" (PyStr "order_date") (PyStr "amount")
               (PyStr "Trend of 'amount' over time by 'order_date'.");
             suggestion "countplot" (PyStr "region") PyNone
               (PyStr "Category counts for 'region'.")], w').
Proof.
  assert (Ht : frames regional_book !! 0%nat = Some regional) by reflexivity.
  assert (Hc : @viz_service.client sample.platform = None) by reflexivity.
  split; [exact Ht|]. split; [exact Hc|].
  destruct (@fallback_when_oracle_unavailable sample.platform 0 regional regional_book
              Ht (or_introl Hc)) as ((w' & E) & _ & Ex).
  exists w'. rewrite <- Ex. exact E.
Defined.

(** C6 for a bar chart of the text column of [orders]. *)
Lemma renderer_witness :
  frames orders_book !! 0%nat = Some orders /\
  exists img w',
    @manual_viz_service.generate_chart sample.platform 0
      (PyStr "bar") (PyStr "order_date") PyNone orders_book = (Ok img, w').
Proof.
  assert (Ht : frames orders_book !! 0%nat = Some orders) by reflexivity.
  split; [exact Ht|].
  destruct (@chart_renderer_never_raises sample.platform 0 orders
              "bar" "order_date" None orders_book Ht) as (img & w' & E & _).
  exists img, w'. exact E.
Defined.

(** C7 on an answer with an object inside its object, so with two "{" and
    two "}". *)
Lemma brace_extraction_witness :
  @json_loads (sample.oracle sample.nested_answer) sample.nested_answer = None /\
  @no_bracketed_list (sample.oracle sample.nested_answer) sample.nested_answer /\
  between "{" "}" sample.nested_answer "One chart: " sample.nested_members " (draft)." /\
  @viz_service.ask_llm_for_visualizations (sample.oracle sample.nested_answer)
     0 orders_book
    = (Ok (PyList [PyDict [("chart_type", PyStr "bar"); ("x", PyStr "region");
                           ("style", PyDict [("grid", PyBool true)])]]),
       set_oracle_calls 1 orders_book).
Proof.
  assert (Hw : @json_loads (sample.oracle sample.nested_answer) sample.nested_answer
               = None) by (vm_compute; reflexivity).
  assert (Hl : @no_bracketed_list (sample.oracle sample.nested_answer)
                 sample.nested_answer) by (left; vm_compute; reflexivity).
  assert (Hb : between "{" "}" sample.nested_answer
                 "One chart: " sample.nested_members " (draft).")
    by (repeat split; vm_compute; reflexivity).
  split; [exact Hw|]. split; [exact Hl|]. split; [exact Hb|].
  refine (proj1 (proj2 (@brace_extraction_recovers_object
                          (sample.oracle sample.nested_answer) 0 orders orders_book
                          "gsk_example" sample.nested_answer
                          "One chart: " sample.nested_members " (draft)." []
                          (PyDict [("chart_type", PyStr "bar"); ("x", PyStr "region");
                                   ("style", PyDict [("grid", PyBool true)])])
                          eq_refl eq_refl eq_refl Hw Hl Hb _))).
  vm_compute. reflexivity.
Defined.

(** X2 on the workbook [orders_xls], loaded into a fresh process. *)
Lemma loaded_sheets_witness :
  NoDup (map fst orders_xls) /\
  exists w',
    excel_reader_service.load_excel_for_session "s" orders_xls fresh
      = (Ok (map sheet_info orders_xls), w') /\
    exists df, get_sheet_df "s" "Sheet1" w' = (Ok df, w') /\
               frames w' !! df = Some orders.
Proof.
  assert (Hnd : NoDup (map fst orders_xls))
    by (apply NoDup_ListNoDup; repeat constructor; simpl; intuition discriminate).
  split; [exact Hnd|].
  destruct (loaded_sheets_are_found "s" orders_xls fresh Hnd) as (w' & E & Hfound & _).
  exists w'. split; [exact E|].
  destruct (Hfound "Sheet1" orders) as (df & Es & _ & Ef); [left|].
  exists df. split; [exact Es | exact Ef].
Defined.

(** X4 on the proposals for [orders], with a cap of two. *)
Lemma ai_validator_truncates_witness :
  @manual_viz_service._clean_and_validate_suggestions sample.platform orders
    (PyList (map PyDict orders_proposals)) = Ok orders_proposals /\
  @viz_service._clean_and_validate_suggestions sample.platform orders
    (PyList (map PyDict orders_proposals)) 2 = Ok (take 2 orders_proposals).
Proof.
  assert (Hm : @manual_viz_service._clean_and_validate_suggestions sample.platform orders
                 (PyList (map PyDict orders_proposals)) = Ok orders_proposals)
    by (vm_compute; reflexivity).
  split; [exact Hm|].
  exact (@ai_validator_truncates_manual sample.platform orders _ 2 orders_proposals Hm).
Defined.

(** X7 on the table [orders]. *)
Lemma closed_form_witness :
  NoDup (df_columns orders) /\
  manual_viz_service.generate_manual_suggestions orders =
    Ok [histogram_suggestion "amount"; histogram_suggestion "qty";
        scatter_suggestion ("amount", "qty");
        line_suggestion "order_date" "amount"; line_suggestion "order_date" "qty"].
Proof.
  assert (Hnd : NoDup (df_columns orders))
    by (apply NoDup_ListNoDup; repeat constructor; simpl; intuition discriminate).
  split; [exact Hnd|].
  exact (rule_based_proposals_closed_form orders Hnd).
Defined.

(** X8 on the table [orders]: no categorical, two numerical and one
    datetime column. *)
Lemma proposal_count_witness :
  NoDup (df_columns orders) /\ first_tz_aware orders = None /\
  exists proposals,
    manual_viz_service.generate_manual_suggestions orders = Ok proposals /\
    length proposals = 5%nat.
Proof.
  assert (Hnd : NoDup (df_columns orders))
    by (apply NoDup_ListNoDup; repeat constructor; simpl; intuition discriminate).
  assert (Htz : first_tz_aware orders = None) by reflexivity.
  split; [exact Hnd|]. split; [exact Htz|].
  exact (rule_based_proposal_count orders Hnd Htz).
Defined.

(** X9 on the session of [orders_book]. *)
Lemma pass_validation_witness :
  frames orders_book !! 0%nat = Some orders /\ NoDup (df_columns orders) /\
  @manual_viz_service._get_viz_suggestions_for_df sample.platform 0 orders_book =
    (Ok orders_proposals,
     set_frames (frames orders_book ++ [@prepared sample.platform orders]) orders_book).
Proof.
  assert (Ht : frames orders_book !! 0%nat = Some orders) by reflexivity.
  assert (Hnd : NoDup (df_columns orders))
    by (apply NoDup_ListNoDup; repeat constructor; simpl; intuition discriminate).
  split; [exact Ht|]. split; [exact Hnd|].
  exact (@rule_based_proposals_pass_validation sample.platform 0 orders orders_book Ht Hnd).
Defined.

(** X10 for the x of the first line proposal for [orders]. *)
Lemma key_columns_witness :
  NoDup (df_columns orders) /\
  manual_viz_service.generate_manual_suggestions orders = Ok orders_proposals /\
  (line_suggestion "order_date" "amount" ∈ orders_proposals) /\
  exists datatype k,
    manual_viz_service.get_column_datatype orders = Ok datatype /\
    adict_get datatype "order_date" = Some k /\
    (k = categorical \/ k = numerical \/ k = datetime).
Proof.
  assert (Hnd : NoDup (df_columns orders))
    by (apply NoDup_ListNoDup; repeat constructor; simpl; intuition discriminate).
  assert (Hg : manual_viz_service.generate_manual_suggestions orders
               = Ok orders_proposals) by reflexivity.
  assert (Hin : line_suggestion "order_date" "amount" ∈ orders_proposals)
    by (apply list_elem_of_In; simpl; tauto).
  split; [exact Hnd|]. split; [exact Hg|]. split; [exact Hin|].
  exact (key_columns_are_never_proposed orders orders_proposals _ "order_date"
           Hnd Hg Hin (or_introl eq_refl)).
Defined.

(** X11 for a chart type that is not one of the five. *)
Lemma figure_accounting_witness :
  frames orders_book !! 0%nat = Some orders /\ NoDup (df_columns orders) /\
  ("pie" ∉ chart_types) /\ ("qty" ∈ df_columns orders) /\
  @manual_viz_service.generate_chart sample.platform 0
    (PyStr "pie") (PyStr "qty") PyNone orders_book
    = (Ok None, set_open_figures 1 orders_book).
Proof.
  assert (Ht : frames orders_book !! 0%nat = Some orders) by reflexivity.
  assert (Hnd : NoDup (df_columns orders))
    by (apply NoDup_ListNoDup; repeat constructor; simpl; intuition discriminate).
  assert (Hct : "pie" ∉ chart_types)
    by (intros Hin; apply list_elem_of_In in Hin; simpl in Hin; intuition discriminate).
  assert (Hx : "qty" ∈ df_columns orders)
    by (apply list_elem_of_In; simpl; tauto).
  split; [exact Ht|]. split; [exact Hnd|]. split; [exact Hct|]. split; [exact Hx|].
  destruct (@renderer_figure_accounting sample.platform 0 orders "pie" "qty" None
              orders_book Ht Hnd) as (img & w' & E & _ & _ & Hu).
  destruct (Hu Hct Hx) as [-> ->]; [discriminate|]. exact E.
Defined.

(** X12 for the column [amount] of [orders]: two values and one missing. *)
Lemma summary_counts_witness :
  NoDup (df_columns orders) /\
  (Column "amount" (Series float64 [Float 5 (-1); Int 2; NA]) ∈ orders) /\
  map fst (stats_service.summary (stats_service.summarize orders)) = df_columns orders /\
  exists e m,
    adict_get (stats_service.summary (stats_service.summarize orders)) "amount" = Some e /\
    adict_get (stats_service.missing_count (stats_service.summarize orders)) "amount"
      = Some m /\
    stats_service.count_ e + m = 3.
Proof.
  assert (Hnd : NoDup (df_columns orders))
    by (apply NoDup_ListNoDup; repeat constructor; simpl; intuition discriminate).
  assert (Hc : Column "amount" (Series float64 [Float 5 (-1); Int 2; NA]) ∈ orders)
    by (right; left).
  split; [exact Hnd|]. split; [exact Hc|].
  destruct (summary_counts_add_up orders _ Hnd Hc) as (Hkeys & e & m & He & Hm & Hsum & _).
  split; [exact Hkeys|]. exists e, m. split; [exact He|]. split; [exact Hm | exact Hsum].
Defined.

(** X13 for the first two rows of the sheet of [orders_book]. *)
Lemma preview_witness :
  get_sheet_df "s" "Sheet1" orders_book = (Ok 0%nat, orders_book) /\
  frames orders_book !! 0%nat = Some orders /\
  NoDup (df_columns orders) /\ rectangular orders /\
  exists p,
    preview_service.get_preview_rows "s" "Sheet1" 2 orders_book = (Ok p, orders_book) /\
    preview_service.columns p = ["order_date"; "amount"; "qty"] /\
    Z.of_nat (length (preview_service.rows p)) = 2.
Proof.
  assert (Hs : get_sheet_df "s" "Sheet1" orders_book = (Ok 0%nat, orders_book))
    by (vm_compute; reflexivity).
  assert (Ht : frames orders_book !! 0%nat = Some orders) by reflexivity.
  assert (Hnd : NoDup (df_columns orders))
    by (apply NoDup_ListNoDup; repeat constructor; simpl; intuition discriminate).
  assert (Hr : rectangular orders) by (repeat constructor).
  split; [exact Hs|]. split; [exact Ht|]. split; [exact Hnd|]. split; [exact Hr|].
  destruct (preview_rows_are_sheet_rows "s" "Sheet1" 2 0 orders orders_book Hs Ht Hnd Hr)
    as (p & E & Hcols & Hrows & _).
  exists p. split; [exact E|]. split; [exact Hcols | exact Hrows].
Defined.

(** X15 on the session of [orders_book], with the oracle of the example. *)
Lemma any_answer_witness :
  frames orders_book !! 0%nat = Some orders /\
  exists r w',
    @viz_service._get_viz_suggestions_for_df sample.with_oracle 0 orders_book = (r, w') /\
    (oracle_calls w' <= 1)%nat.
Proof.
  assert (Ht : frames orders_book !! 0%nat = Some orders) by reflexivity.
  split; [exact Ht|].
  destruct (@ai_suggestions_for_any_answer sample.with_oracle 0 orders orders_book Ht)
    as (r & w' & E & Hcalls & _).
  exists r, w'. split; [exact E | exact (proj2 Hcalls)].
Defined.

(** X16 on the session of [orders_book]: the date parser of the example
    returns datetime columns only. *)
Lemma prepass_witness :
  (forall s parsed, @pd_to_datetime sample.platform s = Ok parsed ->
                    s_dtype parsed <> object_) /\
  frames orders_book !! 0%nat = Some orders /\ NoDup (df_columns orders) /\
  exists d1 w1 d2 w2,
    @manual_viz_service._prepare_df_for_viz sample.platform 0 orders_book = (Ok d1, w1) /\
    @manual_viz_service._prepare_df_for_viz sample.platform d1 w1 = (Ok d2, w2) /\
    frames w2 !! d1 = frames w2 !! d2.
Proof.
  assert (Hdt : forall s parsed, @pd_to_datetime sample.platform s = Ok parsed ->
                                 s_dtype parsed <> object_).
  { intros s parsed E. inversion E. discriminate. }
  assert (Ht : frames orders_book !! 0%nat = Some orders) by reflexivity.
  assert (Hnd : NoDup (df_columns orders))
    by (apply NoDup_ListNoDup; repeat constructor; simpl; intuition discriminate).
  split; [exact Hdt|]. split; [exact Ht|]. split; [exact Hnd|].
  destruct (@prepass_is_idempotent sample.platform 0 orders orders_book Hdt Ht Hnd)
    as (d1 & w1 & d2 & w2 & E1 & E2 & _ & H1 & H2).
  exists d1, w1, d2, w2. split; [exact E1|]. split; [exact E2|]. now rewrite H1, H2.
Defined.

(** X17 for a process that has loaded nothing. *)
Lemma without_workbook_witness :
  cache_of ai fresh !! "s" = None /\ EXCEL_CACHE fresh !! "s" = None /\
  @suggest_all_sheets sample.platform ai "s" None fresh
    = (Raise (KeyError "Sheets not loaded."), fresh).
Proof.
  assert (Hc : cache_of ai fresh !! "s" = None) by reflexivity.
  assert (Hx : EXCEL_CACHE fresh !! "s" = None) by reflexivity.
  split; [exact Hc|]. split; [exact Hx|].
  exact (@all_sheets_without_workbook_raises sample.platform ai "s" None fresh
           (or_introl Hc) (or_introl Hx)).
Defined.

(** X19 on the sheet of [orders_book], with the oracle of the example. *)
Lemma single_sheet_witness :
  get_sheet_df "s" "Sheet1" orders_book = (Ok 0%nat, orders_book) /\
  frames orders_book !! 0%nat = Some orders /\
  exists r w',
    @viz_service.suggest_visualizations sample.with_oracle "s" "Sheet1" orders_book
      = (r, w') /\
    open_figures w' = open_figures orders_book.
Proof.
  assert (Hs : get_sheet_df "s" "Sheet1" orders_book = (Ok 0%nat, orders_book))
    by (vm_compute; reflexivity).
  assert (Ht : frames orders_book !! 0%nat = Some orders) by reflexivity.
  split; [exact Hs|]. split; [exact Ht|].
  destruct (@single_sheet_charts_are_well_formed sample.with_oracle "s" "Sheet1" 0
              orders orders_book Hs Ht) as (r & w' & E & Hfig & _).
  exists r, w'. split; [exact E | exact Hfig].
Defined.

(** X20 on the sheet of [orders_book], with a filter for line charts. *)
Lemma filters_witness :
  frames orders_book !! 0%nat = Some orders /\ NoDup (df_columns orders) /\
  fst (@manual_viz_service.build_tasks sample.platform
         (Some [("Sheet1", ["line"])]) [] ("Sheet1", 0%nat) orders_book)
    = Ok (map (task_of "Sheet1" 1)
              [line_suggestion "order_date" "amount";
               line_suggestion "order_date" "qty"]).
Proof.
  assert (Ht : frames orders_book !! 0%nat = Some orders) by reflexivity.
  assert (Hnd : NoDup (df_columns orders))
    by (apply NoDup_ListNoDup; repeat constructor; simpl; intuition discriminate).
  split; [exact Ht|]. split; [exact Hnd|].
  rewrite (@filters_keep_allowed_chart_types sample.platform
             [("Sheet1", ["line"])] [] "Sheet1" 0 orders orders_book Ht Hnd).
  vm_compute. reflexivity.
Defined.
